(** * Package Scout: the virtual package resolution and bundling-analysis pipeline

    A shallow embedding of [CDNPackageManager], [WasmBundler],
    [WebContainerManager] and [BrowserPackageAnalyzer], and the properties
    of the pipeline that follow from the code.

    Conventions.
    - A JavaScript string is a [string]: the UTF-8 encoding of a well-formed
      text, so that [TextEncoder.encode(s).length] is [String.length s].
      The string operations the code uses ([split('/')], [startsWith],
      [endsWith] with ASCII arguments) agree on the UTF-8 and the UTF-16
      view of a text.
    - A [Map<string, string>] is a [gmap string string].
    - An [async] method is a computation in the monad [M]: it reads and
      extends the trace of calls made to the outside world (network,
      console, bundler engine, sandbox), and either returns or throws.
    - The methods of the bundler also run as callbacks of a
      [Promise.all]; they are written as coroutines ([Async]), which stop
      at every [await], and their computation in [M] is the run of the
      coroutine when nothing else runs meanwhile. *)

From Stdlib Require Import ZArith String Ascii List SpecFloat.
From stdpp Require Import gmap strings list fin_maps.

Open Scope string_scope.
Open Scope list_scope.

Set Warnings "-clear-no-such-hyp".

(** ** JavaScript primitives *)

Module Js.

(** [s.startsWith(p)] *)
Definition startsWith (s p : string) : bool := String.prefix p s.

(** [s.endsWith(p)] *)
Definition endsWith (s p : string) : bool :=
  String.prefix (String.rev p) (String.rev s).

(** [s.split(sep)] for a one-character separator: never empty. *)
Fixpoint split (sep : ascii) (s : string) : list string :=
  match s with
  | EmptyString => [EmptyString]
  | String c s' =>
      if Ascii.eqb c sep then EmptyString :: split sep s'
      else match split sep s' with
           | [] => [String c EmptyString]
           | seg :: segs => String c seg :: segs
           end
  end.

(** [l.join(sep)] *)
Definition join (sep : string) (l : list string) : string :=
  String.concat sep l.

(** [l.slice(0, -1)] and the array left by [l.pop()]; both leave an
    empty array empty. *)
Definition dropLast {A} (l : list A) : list A := removelast l.

(** Truthiness of a string: every string but the empty one. *)
Definition truthy (s : string) : bool := negb (String.eqb s "").

(** [m.has(k)] *)
Definition has (m : gmap string string) (k : string) : bool :=
  bool_decide (is_Some (m !! k)).

(** [l.filter(Boolean)] on possibly undefined strings. *)
Definition filterBoolean (l : list (option string)) : list string :=
  omap (λ o, match o with
             | Some s => if truthy s then Some s else None
             | None => None
             end) l.

(** [a || b] on a possibly undefined string. *)
Definition orElse (a : option string) (b : string) : string :=
  match a with
  | Some s => if truthy s then s else b
  | None => b
  end.

End Js.

(** ** ModuleResolver: [WasmBundler.resolvePath] and [WasmBundler.resolveImport] *)

Module Resolver.

(** One iteration of the [for (const part of relativeParts)] loop. *)
Definition resolvePath_step (parts : list string) (part : string) : list string :=
  if String.eqb part ".." then Js.dropLast parts
  else if negb (String.eqb part ".") then parts ++ [part]
  else parts.

Definition resolvePath (basePath relativePath : string) : string :=
  let parts := filter (λ p, p ≠ "") (Js.split "/" basePath) in
  let relativeParts := filter (λ p, p ≠ "") (Js.split "/" relativePath) in
  Js.join "/" (foldl resolvePath_step parts relativeParts).

(** [for (const c of candidates) if (files.has(c)) return c] *)
Fixpoint firstPresent (files : gmap string string) (candidates : list string)
  : option string :=
  match candidates with
  | [] => None
  | c :: rest => if Js.has files c then Some c else firstPresent files rest
  end.

Definition extensions : list string :=
  [""; ".js"; ".mjs"; ".ts"; "/index.js"; "/index.mjs"; "/index.ts"].

Definition importerDir (importer : string) : string :=
  Js.join "/" (Js.dropLast (Js.split "/" importer)).

Definition packagePaths (importPath : string) : list string :=
  [ "node_modules/" +:+ importPath;
    "node_modules/" +:+ importPath +:+ "/index.js";
    "node_modules/" +:+ importPath +:+ "/index.mjs";
    "node_modules/" +:+ importPath +:+ "/dist/index.js";
    "node_modules/" +:+ importPath +:+ "/lib/index.js" ].

Definition resolveImport (importPath importer : string)
    (files : gmap string string) : option string :=
  let relative :=
    if Js.startsWith importPath "./" || Js.startsWith importPath "../" then
      let resolved := resolvePath (importerDir importer) importPath in
      firstPresent files (map (λ ext, resolved +:+ ext) extensions)
    else None in
  match relative with
  | Some candidate => Some candidate
  | None =>
      if negb (Js.startsWith importPath ".") then
        firstPresent files (packagePaths importPath)
      else None
  end.

End Resolver.

(** ** Data model ([types.ts]) *)

Inductive FileKind := file | directory.

Record CDNFile := {
  path : string;
  file_size : Z;
  type : FileKind;
}.

Inductive ModuleType := module_type | commonjs_type.

(** [sideEffects?: boolean | string[]] *)
Inductive SideEffects := sideEffects_bool (b : bool) | sideEffects_globs (l : list string).

(** A [package.json] as far as the analyzer reads it. *)
Record PackageJson := {
  pj_name : string;
  pj_version : string;
  pj_dependencies : option (list (string * string));
  pj_peerDependencies : option (list (string * string));
  pj_main : option string;
  pj_module : option string;
  pj_jsnext_main : option string;
  pj_type : option ModuleType;
  pj_sideEffects : option SideEffects;
}.

Record CDNPackageInfo := {
  info_name : string;
  info_version : string;
  info_files : list CDNFile;
  info_dependencies : option (list (string * string));
  info_peerDependencies : option (list (string * string));
  info_main : option string;
  info_module : option string;
  info_type : option ModuleType;
  info_sideEffects : option SideEffects;
}.

Inductive AssetType := asset_js | asset_css | asset_other.

Record Asset := {
  asset_name : string;
  asset_size : Z;
  asset_gzipSize : Z;
  asset_type : AssetType;
}.

Record PackageStats := {
  stats_name : string;
  stats_size : Z;
  stats_gzipSize : Z;
  stats_parseTime : option Z;
  stats_dependencyCount : nat;
  stats_hasJSNext : bool;
  stats_hasJSModule : bool;
  stats_isModuleType : bool;
  stats_hasSideEffects : bool;
  stats_peerDependencies : list string;
  stats_dependencySizes : list (string * Z);
  stats_assets : list Asset;
}.

Record ExportAsset := {
  export_path : string;
  export_size : Z;
  export_gzipSize : Z;
  export_exportName : option string;
}.

Record PackageExportSizes := {
  exports_name : string;
  exports_version : string;
  exports_assets : list ExportAsset;
}.

Inductive Minifier := terser | esbuild.

Inductive CDN := unpkg | jsDelivr | skypack | esm_sh.

Record BrowserPackageAnalyzerOptions := {
  minifier : option Minifier;
  debug : bool;
  customImports : option (list string);
  includeDependencySizes : bool;
  cdn : option CDN;
  useWebContainer : bool;
}.

(** The node of an unpkg [?meta] listing:
    [{type: "file" | "directory", size?, files?: {name: node}}]; a node of
    another [type] is [other_node]. *)
#[warnings="-register-all"]
Inductive ListingNode :=
| file_node (size : option Z)
| directory_node (files : option (list (string * ListingNode)))
| other_node.

(** ** The outside world *)

Inductive JsError :=
| Error (message : string)
| TypeError (message : string)
| SyntaxError (message : string).

(** The text a template literal makes of a caught error. *)
Definition errorToString (e : JsError) : string :=
  match e with
  | Error m => "Error: " +:+ m
  | TypeError m => "TypeError: " +:+ m
  | SyntaxError m => "SyntaxError: " +:+ m
  end.

Inductive Outcome (A : Type) :=
| Returned (a : A)
| Thrown (e : JsError).
Arguments Returned {A} a.
Arguments Thrown {A} e.

Inductive Method := GET | HEAD.

(** An HTTP response: [ok], the body as [text()] gives it, the body as
    [json()] gives it when it is read as a manifest or as a listing
    ([None]: [json()] rejects), and the Content-Length header. The JSON
    of a manifest is [null] ([Some None]) or an object with its [name]
    and [version] ([Some (Some _)]). *)
Record Response := {
  ok : bool;
  text : string;
  json_manifest : option (option PackageJson);
  json_listing : option ListingNode;
  content_length : option Z;
}.

Inductive FetchOutcome :=
| Rejected (e : JsError)
| Responded (r : Response).

Inductive Loader := loader_ts | loader_tsx | loader_jsx | loader_json | loader_css | loader_js.

(** What [esbuild.build] gives back: it rejects, or resolves to
    [{errors, outputFiles}]. *)
Inductive BuildOutcome :=
| build_rejected (e : JsError)
| build_result (errors : list string) (outputFiles : list string).

(** Every call that leaves the program, in the order it is made. *)
Inductive Event :=
| fetch_call (method : Method) (url : string)
| console_warn (msg : string) (error : JsError)
| console_error (msg : string) (error : JsError)
| esbuild_initialize_call
| esbuild_build_call (entryPoint : string) (files : gmap string string)
| esbuild_transform_call (code : string)
| terser_minify_call (code : string)
| WebContainer_boot_call
| webcontainer_spawn_call (command : string) (args : list string)
| webcontainer_readFile_call (path : string)
| webcontainer_writeFile_call (path content : string)
| webcontainer_teardown_call.

(** The collaborators. The network answers a request from the calls made
    so far, so that the same URL may succeed once and fail later, and so
    does [esbuild.initialize], which may refuse a second call
    ([esbuild_initialize tr] is [None] when the call made after [tr]
    succeeds); the other engines are functions of their arguments.
    [esbuild.build] is given the entry point and the two hooks of the
    plugin, which return a result or [null], or throw. [JSON_stringify
    name version dependencies] is the text of
    [JSON.stringify({name, version, dependencies}, null, 2)], and
    [elapsed_import code] the milliseconds that [calculateParseTime]
    measures around the dynamic import of [code]. *)
Record Env := {
  fetch_response : list Event → Method → string → FetchOutcome;
  esbuild_initialize : list Event → option JsError;
  esbuild_build :
    string → (string → string → Outcome (option string)) →
    (string → Outcome (option (string * Loader))) → BuildOutcome;
  esbuild_transform : string → Outcome string;
  terser_minify : string → Outcome (option string);
  CompressionStream : option (string → list (list Byte.byte));
  elapsed_import : string → Z;
  Worker_defined : bool;
  SharedArrayBuffer_defined : bool;
  crossOriginIsolated : bool;
  WebContainer_boot : option JsError;
  npm_install_exit : string → Z;
  webcontainer_fs_readFile : string → Outcome string;
  JSON_parse : string → Outcome PackageJson;
  JSON_stringify : string → string → list (string * string) → string;
}.

(** The mutable fields of the analyzer's objects, and the trace. *)
Record World := {
  bundler_isInitialized : bool;
  webcontainer_handle : bool;
  webcontainer_isInitialized : bool;
  trace : list Event;
}.

Definition log (ev : Event) (w : World) : World :=
  {| bundler_isInitialized := bundler_isInitialized w;
     webcontainer_handle := webcontainer_handle w;
     webcontainer_isInitialized := webcontainer_isInitialized w;
     trace := trace w ++ [ev] |}.

Definition set_bundler_isInitialized (b : bool) (w : World) : World :=
  {| bundler_isInitialized := b;
     webcontainer_handle := webcontainer_handle w;
     webcontainer_isInitialized := webcontainer_isInitialized w;
     trace := trace w |}.

Definition set_webcontainer (handle initialized : bool) (w : World) : World :=
  {| bundler_isInitialized := bundler_isInitialized w;
     webcontainer_handle := handle;
     webcontainer_isInitialized := initialized;
     trace := trace w |}.

(** ** The monad of asynchronous methods *)

Definition M (A : Type) : Type := World → Outcome A * World.

Definition ret {A} (a : A) : M A := λ w, (Returned a, w).

Definition bind {A B} (m : M A) (k : A → M B) : M B :=
  λ w, match m w with
       | (Returned a, w') => k a w'
       | (Thrown e, w') => (Thrown e, w')
       end.

Definition throw {A} (e : JsError) : M A := λ w, (Thrown e, w).

(** [try { body } catch (error) { handler }] *)
Definition tryCatch {A} (body : M A) (handler : JsError → M A) : M A :=
  λ w, match body w with
       | (Returned a, w') => (Returned a, w')
       | (Thrown e, w') => handler e w'
       end.

Definition emit (ev : Event) : M unit := λ w, (Returned tt, log ev w).

Definition gets {A} (f : World → A) : M A := λ w, (Returned (f w), w).

Definition modify (f : World → World) : M unit := λ w, (Returned tt, f w).

Definition liftOutcome {A} (o : Outcome A) : M A := λ w, (o, w).

Notation "'let!' x ':=' m 'in' k" := (bind m (λ x, k))
  (at level 10, x binder, m at level 100, k at level 200).
Notation "'do!' m 'in' k" := (bind m (λ _, k))
  (at level 10, m at level 100, k at level 200).

(** [for (const x of l) { acc = body(acc, x) }], and the fan-out
    [l.map(async x => body)] of callbacks that all write to one shared
    object [acc]: the callbacks start in the order of [l], each one makes its
    request before the next one starts, and the network answers a request
    from the calls made before it. The order in which the answers arrive is
    not modelled: it changes neither the keys of a shared map nor, for
    distinct keys, its contents. What a callback does with its answer, a
    write to the shared object or a warning on the console, is placed right
    after its own request, though the requests of the later callbacks are
    made before it. *)
Fixpoint foldM {A B} (body : B → A → M B) (acc : B) (l : list A) : M B :=
  match l with
  | [] => ret acc
  | x :: rest => let! acc' := body acc x in foldM body acc' rest
  end.

(** The global [fetch]. *)
Definition fetch (env : Env) (method : Method) (url : string) : M Response :=
  λ w, match fetch_response env (trace w) method url with
       | Rejected e => (Thrown e, log (fetch_call method url) w)
       | Responded r => (Returned r, log (fetch_call method url) w)
       end.

#[global] Instance FileKind_eq_dec : EqDecision FileKind.
Proof. solve_decision. Defined.

(** ** Coroutines: [async] methods that run side by side

    A call of an [async] method runs until its first [await]; it is taken
    up again later, in the world of that moment, and runs until its next
    [await]. What is left of a call is a [Task]: it has [settled], or it
    waits at an [await]. *)

#[warnings="-register-all"]
Inductive Task (A : Type) : Type :=
| settled (o : Outcome A)
| awaiting (resume : World → Task A * World).
Arguments settled {A} o.
Arguments awaiting {A} resume.

(** The body of an [async] method: from the world in which it is called
    it runs to its first [await], or to its end. *)
Definition Async (A : Type) : Type := World → Task A * World.

(** What follows a task: [k] runs when the task has settled, in the same
    turn. *)
Fixpoint andThen {A B} (t : Task A) (k : Outcome A → Async B) : Async B :=
  λ w, match t with
       | settled o => k o w
       | awaiting resume =>
           (awaiting (λ w1, let (t', w2) := resume w1 in andThen t' k w2), w)
       end.

Module Async.

Definition ret {A} (a : A) : Async A := λ w, (settled (Returned a), w).

Definition throw {A} (e : JsError) : Async A := λ w, (settled (Thrown e), w).

Definition bind {A B} (m : Async A) (k : A → Async B) : Async B :=
  λ w, let (t, w1) := m w in
       andThen t (λ o, match o with
                       | Returned a => k a
                       | Thrown e => throw e
                       end) w1.

(** [try { body } catch (error) { handler }] *)
Definition tryCatch {A} (body : Async A) (handler : JsError → Async A) : Async A :=
  λ w, let (t, w1) := body w in
       andThen t (λ o, match o with
                       | Returned a => ret a
                       | Thrown e => handler e
                       end) w1.

(** Code without an [await], and the call of a function of the outside
    world that returns a promise: the call is made at once, and what it
    answers is what the promise settles to. *)
Definition lift {A} (m : M A) : Async A :=
  λ w, let (o, w1) := m w in (settled o, w1).

(** [await m]: [m] is called and runs to its first [await]; when it has
    settled the caller waits once more, and goes on with the outcome when
    it is taken up again. *)
Definition await {A} (m : Async A) : Async A :=
  λ w, let (t, w1) := m w in
       andThen t (λ o w2, (awaiting (λ w3, (settled o, w3)), w2)) w1.

End Async.

Notation "'let*' x ':=' m 'in' k" := (Async.bind m (λ x, k))
  (at level 10, x binder, m at level 100, k at level 200).
Notation "'do*' m 'in' k" := (Async.bind m (λ _, k))
  (at level 10, m at level 100, k at level 200).

(** A task that is taken up again at once, every time it waits. *)
Fixpoint complete {A} (t : Task A) (w : World) : Outcome A * World :=
  match t with
  | settled o => (o, w)
  | awaiting resume => let (t', w1) := resume w in complete t' w1
  end.

(** An [async] method that is called and awaited while nothing else
    runs. *)
Definition run {A} (m : Async A) : M A :=
  λ w, let (t, w1) := m w in complete t w1.

(** A call that stops at an [await]: [w1] is the world it leaves, and
    [rest] is what it does when it is taken up again. *)
Definition suspends {A} (m : Async A) (w w1 : World) (rest : M A) : Prop :=
  ∃ resume, m w = (awaiting resume, w1) ∧ ∀ w', complete (awaiting resume) w' = rest w'.

(** [callbacks.map(...)]: every callback is called, in the order of the
    list, and runs to its first [await]. *)
Fixpoint startAll {A} (callbacks : list (Async A)) (w : World)
  : list (Task A) * World :=
  match callbacks with
  | [] => ([], w)
  | callback :: rest =>
      let (t, w1) := callback w in
      let (ts, w2) := startAll rest w1 in
      (t :: ts, w2)
  end.

(** The tasks are taken up again until each has settled. The order in
    which they are taken up is that in which their promises settle, which
    the engine decides; here each task runs to its end before the next one
    is taken up. *)
Fixpoint settleAll {A} (tasks : list (Task A)) (w : World)
  : list (Outcome A) * World :=
  match tasks with
  | [] => ([], w)
  | t :: rest =>
      let (o, w1) := complete t w in
      let (os, w2) := settleAll rest w1 in
      (o :: os, w2)
  end.

(** The values of the outcomes, in their order, or the first
    rejection. *)
Fixpoint allReturned {A} (outcomes : list (Outcome A)) : Outcome (list A) :=
  match outcomes with
  | [] => Returned []
  | Returned a :: rest =>
      match allReturned rest with
      | Returned l => Returned (a :: l)
      | Thrown e => Thrown e
      end
  | Thrown e :: _ => Thrown e
  end.

(** [await Promise.all(callbacks.map(...))]: the callbacks are all called
    before any of them is taken up again, and the results come in the
    order of the list. *)
Definition promiseAll {A} (callbacks : list (Async A)) : M (list A) :=
  λ w, let (tasks, w1) := startAll callbacks w in
       let (outcomes, w2) := settleAll tasks w1 in
       (allReturned outcomes, w2).

(** ** PackageSource and VirtualFileSet: [CDNPackageManager] *)

Module CDNPackageManager.

Definition cdnProviders (c : CDN) : string :=
  match c with
  | unpkg => "https://unpkg.com"
  | jsDelivr => "https://cdn.jsdelivr.net/npm"
  | skypack => "https://cdn.skypack.dev"
  | esm_sh => "https://esm.sh"
  end.

(** [version === 'latest' ? packageName : `${packageName}@${version}`],
    with the default ['latest'] of an omitted [version]. *)
Definition packageSpecOf (packageName : string) (version : option string) : string :=
  let version := default "latest" version in
  if String.eqb version "latest" then packageName
  else packageName +:+ "@" +:+ version.

Definition commonFiles : list string :=
  [ "package.json"; "index.js"; "index.mjs"; "index.ts";
    "dist/index.js"; "dist/index.mjs"; "dist/index.umd.js";
    "lib/index.js"; "src/index.js"; "src/index.ts";
    "README.md"; "LICENSE" ].

(** [traverse] of [parseUnpkgListing]; the files come out in the order
    they are pushed. *)
Fixpoint traverse (obj : ListingNode) (basePath : string) : list CDNFile :=
  match obj with
  | file_node sz => [ {| path := basePath; file_size := default 0%Z sz; type := file |} ]
  | directory_node (Some files) =>
      flat_map (λ entry : string * ListingNode,
                  let filePath :=
                    if Js.truthy basePath then basePath +:+ "/" +:+ fst entry
                    else fst entry in
                  traverse (snd entry) filePath) files
  | _ => []
  end.

Definition parseUnpkgListing (data : ListingNode) : list CDNFile :=
  traverse data "".

Section Methods.
Variable env : Env.
Variable defaultCDN : CDN.

(** Every case of the [switch] builds the same URL. *)
Definition buildUrl (packageSpec filePath : string) : string :=
  cdnProviders defaultCDN +:+ "/" +:+ packageSpec +:+ "/" +:+ filePath.

Definition getFileContent (packageName filePath : string)
    (version : option string) : M string :=
  let packageSpec := packageSpecOf packageName version in
  let fileUrl := buildUrl packageSpec filePath in
  let! response := fetch env GET fileUrl in
  if negb (ok response) then
    throw (Error ("File not found: " +:+ filePath +:+ " in " +:+ packageSpec))
  else ret (text response).

(** One callback of [commonFiles.map(async (filePath) => ...)]; the
    entries are pushed here in the order of [commonFiles]. *)
Definition checkFile (packageSpec : string) (existingFiles : list CDNFile)
    (filePath : string) : M (list CDNFile) :=
  tryCatch
    (let! response := fetch env HEAD (buildUrl packageSpec filePath) in
     if ok response then
       ret (existingFiles ++
            [ {| path := filePath;
                 file_size := default 0%Z (content_length response);
                 type := file |} ])
     else ret existingFiles)
    (λ _, ret existingFiles).

Definition discoverCommonFiles (packageSpec : string) : M (list CDNFile) :=
  foldM (checkFile packageSpec) [] commonFiles.

Definition getFileList (packageSpec : string) : M (list CDNFile) :=
  tryCatch
    (let! listed :=
       match defaultCDN with
       | unpkg =>
           let listUrl := cdnProviders unpkg +:+ "/" +:+ packageSpec +:+ "/?meta" in
           let! response := fetch env GET listUrl in
           if ok response then
             match json_listing response with
             | Some data => ret (Some (parseUnpkgListing data))
             | None => throw (SyntaxError "Unexpected token in JSON")
             end
           else ret None
       | _ => ret None
       end in
     match listed with
     | Some files => ret files
     | None => discoverCommonFiles packageSpec
     end)
    (λ error,
       do! emit (console_warn "Failed to get file listing, using common patterns:" error) in
       discoverCommonFiles packageSpec).

(** The fields of [packageJson] are read after the listing is there:
    a manifest that is [null] fails then, at [packageJson.name]. *)
Definition getPackageInfo (packageName : string) (version : option string)
  : M CDNPackageInfo :=
  let packageSpec := packageSpecOf packageName version in
  tryCatch
    (let packageJsonUrl := buildUrl packageSpec "package.json" in
     let! response := fetch env GET packageJsonUrl in
     if negb (ok response) then
       throw (Error ("Package not found: " +:+ packageSpec))
     else
       let! packageJson :=
         match json_manifest response with
         | Some json => ret json
         | None => throw (SyntaxError "Unexpected token in JSON")
         end in
       let! files := getFileList packageSpec in
       match packageJson with
       | Some packageJson =>
           ret {| info_name := pj_name packageJson;
                  info_version := pj_version packageJson;
                  info_files := files;
                  info_dependencies := pj_dependencies packageJson;
                  info_peerDependencies := pj_peerDependencies packageJson;
                  info_main := pj_main packageJson;
                  info_module := pj_module packageJson;
                  info_type := pj_type packageJson;
                  info_sideEffects := pj_sideEffects packageJson |}
       | None => throw (TypeError "Cannot read properties of null (reading 'name')")
       end)
    (λ error,
       throw (Error ("Failed to fetch package info for " +:+ packageSpec +:+ ": "
                     +:+ errorToString error))).

(** One callback of the fan-out of [downloadPackage]: it writes to the
    shared [packageFiles] or warns. *)
Definition downloadFile (packageName : string) (version : option string)
    (packageFiles : gmap string string) (f : CDNFile) : M (gmap string string) :=
  tryCatch
    (let! content := getFileContent packageName (path f) version in
     ret (<[path f := content]> packageFiles))
    (λ error,
       do! emit (console_warn ("Failed to download " +:+ path f +:+ ":") error) in
       ret packageFiles).

Definition downloadPackage (packageName : string) (version : option string)
  : M (gmap string string) :=
  let version := Some (default "latest" version) in
  let! packageInfo := getPackageInfo packageName version in
  foldM (downloadFile packageName version) ∅
        (filter (λ f, type f = file) (info_files packageInfo)).

Definition entryPoints (packageInfo : CDNPackageInfo) : list string :=
  Js.filterBoolean
    [ info_module packageInfo; info_main packageInfo;
      Some "index.js"; Some "index.mjs"; Some "dist/index.js"; Some "lib/index.js" ].

(** The [for (const entryPoint of entryPoints)] loop. *)
Fixpoint tryEntryPoints (packageName : string) (candidates : list string)
  : M (option string) :=
  match candidates with
  | [] => ret None
  | entryPoint :: rest =>
      tryCatch
        (do! getFileContent packageName entryPoint None in
         ret (Some entryPoint))
        (λ _, tryEntryPoints packageName rest)
  end.

Definition resolveMainFile (packageInfo : CDNPackageInfo) : M (option string) :=
  tryEntryPoints (info_name packageInfo) (entryPoints packageInfo).

End Methods.

End CDNPackageManager.

(** ** Numbers: IEEE 754 binary64, as far as [calculateGzipSize] needs them *)

Module Number.

Definition prec : Z := 53.
Definition emax : Z := 1024.

(** The Number of an array length. *)
Definition ofLength (n : nat) : spec_float :=
  binary_normalize prec emax (Z.of_nat n) 0 false.

(** The literal [0.7]: the double nearest to 7/10,
    6305039478318694 * 2^-53. *)
Definition seven_tenths : spec_float :=
  S754_finite false 6305039478318694 (-53).

(** [x * y] *)
Definition mul (x y : spec_float) : spec_float := SFmul prec emax x y.

(** [Math.round(x)]: the integer closest to [x], the larger one at a tie:
    floor (x + 1/2), computed exactly. A NaN or an infinity has no
    integer to give; a length times [0.7] is never one. *)
Definition Math_round (x : spec_float) : Z :=
  match x with
  | S754_finite s m e =>
      let v := if s then Z.neg m else Z.pos m in
      if (0 <=? e)%Z then (v * 2 ^ e)%Z
      else ((2 * v + 2 ^ (- e)) / 2 ^ (1 - e))%Z
  | _ => 0%Z
  end.

(** The number of a bit. *)
Definition bit (b : bool) : Z := if b then 1%Z else 0%Z.

(** Follows the spec: [round(size × 0.7)] in exact arithmetic, 7/10 of the
    size rounded to the nearest integer, a half rounded up. *)
Definition roundedSeventyPercent (n : Z) : Z := ((7 * n + 5) / 10)%Z.

End Number.

(** ** Bundler and SizeAnalyzer: [WasmBundler] *)

Record BundleResult := {
  bundle_code : string;
  bundle_size : Z;
  bundle_gzipSize : Z;
  bundle_assets : list (string * Z * string);
}.

Record MinifyResult := {
  minified_code : string;
  minified_size : Z;
  minified_gzipSize : Z;
}.

Module WasmBundler.

(** [c.toLowerCase()] on the letters A to Z. *)
Definition toLowerCase_ascii (c : ascii) : ascii :=
  let n := nat_of_ascii c in
  if (65 <=? n)%nat && (n <=? 90)%nat then ascii_of_nat (n + 32) else c.

Fixpoint toLowerCase (s : string) : string :=
  match s with
  | EmptyString => EmptyString
  | String c s' => String (toLowerCase_ascii c) (toLowerCase s')
  end.

Definition getLoader (path : string) : Loader :=
  let ext := toLowerCase (List.last (Js.split "." path) "") in
  if String.eqb ext "ts" then loader_ts
  else if String.eqb ext "tsx" then loader_tsx
  else if String.eqb ext "jsx" then loader_jsx
  else if String.eqb ext "json" then loader_json
  else if String.eqb ext "css" then loader_css
  else loader_js.

(** The two hooks of the [virtual-fs] plugin are arrow functions written
    in [setup(build) { ... }]: their [this] is that of [setup]. [setup] is
    a method of the plugin object, and the engine calls it as a plain
    function, [setup(build)], in strict code: its [this] is [undefined],
    not the bundler. *)
Definition setup_this : option unit := None.

(** [this.property]: reading a property of [undefined] throws. *)
Definition readProperty {A} (this : option unit) (property : string) (value : A)
  : Outcome A :=
  match this with
  | Some _ => Returned value
  | None =>
      Thrown (TypeError ("Cannot read properties of undefined (reading '"
                         +:+ property +:+ "')"))
  end.

(** The [onResolve] hook of the [virtual-fs] plugin. *)
Definition onResolve (files : gmap string string) (path importer : string)
  : Outcome (option string) :=
  if Js.has files path then Returned (Some path)
  else
    match readProperty setup_this "resolveImport"
            (Resolver.resolveImport path importer files) with
    | Thrown e => Thrown e
    | Returned (Some resolved) =>
        if Js.truthy resolved && Js.has files resolved then Returned (Some resolved)
        else Returned None
    | Returned None => Returned None
    end.

(** The [onLoad] hook of the [virtual-fs] plugin. *)
Definition onLoad (files : gmap string string) (path : string)
  : Outcome (option (string * Loader)) :=
  match files !! path with
  | Some contents =>
      if Js.truthy contents then
        match readProperty setup_this "getLoader" (getLoader path) with
        | Thrown e => Thrown e
        | Returned loader => Returned (Some (contents, loader))
        end
      else Returned None
  | None => Returned None
  end.

(** [new TextEncoder().encode(code).length] *)
Definition byteLength (code : string) : Z := Z.of_nat (String.length code).

(** The fallback of [calculateGzipSize]:
    [Math.round(new TextEncoder().encode(content).length * 0.7)]. *)
Definition estimateGzipSize (content : string) : Z :=
  Number.Math_round
    (Number.mul (Number.ofLength (String.length content)) Number.seven_tenths).

(** The methods as coroutines: each stops where the source has an
    [await]. *)
Module Concurrent.

Section Methods.
Variable env : Env.

(** [esbuild.initialize({wasmURL})] *)
Definition esbuild_initialize_promise : M unit :=
  let! calls := gets trace in
  do! emit esbuild_initialize_call in
  match esbuild_initialize env calls with
  | Some e => throw e
  | None => ret tt
  end.

(** [esbuild.build({entryPoints: [entryPoint], ..., plugins})] *)
Definition esbuild_build_promise (entryPoint : string) (files : gmap string string)
  : M (list string * list string) :=
  do! emit (esbuild_build_call entryPoint files) in
  match esbuild_build env entryPoint (onResolve files) (onLoad files) with
  | build_rejected e => throw e
  | build_result errors outputFiles => ret (errors, outputFiles)
  end.

(** [esbuild.transform(code, {minify: true, target})], and [result.code] *)
Definition esbuild_transform_promise (code : string) : M string :=
  do! emit (esbuild_transform_call code) in
  liftOutcome (esbuild_transform env code).

(** terser's [minify(code, {compress, mangle, module})], and
    [result.code] *)
Definition terser_minify_promise (code : string) : M (option string) :=
  do! emit (terser_minify_call code) in
  liftOutcome (terser_minify env code).

Definition initialize : Async unit :=
  let* initialized := Async.lift (gets bundler_isInitialized) in
  if initialized then Async.ret tt
  else
    Async.tryCatch
      (do* Async.await (Async.lift esbuild_initialize_promise) in
       Async.lift (modify (set_bundler_isInitialized true)))
      (λ error,
         do* Async.lift
               (emit (console_error "Failed to initialize ESBuild WASM:" error)) in
         Async.throw (Error "ESBuild WASM initialization failed")).

(** The stream is written, closed and read with three [await]s; the
    calls to it are not in the trace. *)
Definition calculateGzipSize (content : string) : Async Z :=
  match CompressionStream env with
  | Some gzip =>
      let chunks := gzip content in
      do* Async.await (Async.ret tt) in
      do* Async.await (Async.ret tt) in
      do* Async.await (Async.ret tt) in
      let totalLength :=
        foldl (λ acc chunk, (acc + Z.of_nat (length chunk))%Z) 0%Z chunks in
      Async.ret totalLength
  | None => Async.ret (estimateGzipSize content)
  end.

(** The [try] block of [bundle]. *)
Definition build (entryPoint : string) (files : gmap string string)
  : Async BundleResult :=
  Async.tryCatch
    (let* result := Async.await (Async.lift (esbuild_build_promise entryPoint files)) in
     let errors := fst result in
     let outputFiles := snd result in
     if (0 <? length errors)%nat then
       Async.throw (Error ("Build errors: " +:+ Js.join ", " errors))
     else
       match outputFiles with
       | [] => Async.throw (TypeError "Cannot read properties of undefined (reading 'text')")
       | code :: _ =>
           let size := byteLength code in
           let* gzipSize := Async.await (calculateGzipSize code) in
           Async.ret {| bundle_code := code;
                        bundle_size := size;
                        bundle_gzipSize := gzipSize;
                        bundle_assets := [("main", size, "js")] |}
       end)
    (λ error, Async.throw (Error ("Bundling failed: " +:+ errorToString error))).

Definition bundle (entryPoint : string) (files : gmap string string)
  : Async BundleResult :=
  let* initialized := Async.lift (gets bundler_isInitialized) in
  do* (if negb initialized then Async.await initialize else Async.ret tt) in
  build entryPoint files.

Definition minifyCode (code : string) (minifier : option Minifier)
  : Async MinifyResult :=
  let minifier := default esbuild minifier in
  let* minifiedCode :=
    match minifier with
    | esbuild => Async.await (Async.lift (esbuild_transform_promise code))
    | terser =>
        let* result := Async.await (Async.lift (terser_minify_promise code)) in
        Async.ret (Js.orElse result code)
    end in
  let size := byteLength minifiedCode in
  let* gzipSize := Async.await (calculateGzipSize minifiedCode) in
  Async.ret {| minified_code := minifiedCode;
               minified_size := size;
               minified_gzipSize := gzipSize |}.

Definition dispose : Async unit :=
  Async.lift (modify (set_bundler_isInitialized false)).

End Methods.

End Concurrent.

(** The methods when they are called and awaited while nothing else
    runs. *)
Section Methods.
Variable env : Env.

Definition initialize : M unit := run (Concurrent.initialize env).

Definition calculateGzipSize (content : string) : M Z :=
  run (Concurrent.calculateGzipSize env content).

Definition bundle (entryPoint : string) (files : gmap string string)
  : M BundleResult :=
  run (Concurrent.bundle env entryPoint files).

Definition minifyCode (code : string) (minifier : option Minifier)
  : M MinifyResult :=
  run (Concurrent.minifyCode env code minifier).

Definition dispose : M unit := run Concurrent.dispose.

End Methods.

End WasmBundler.

(** ** The sandbox: [WebContainerManager] *)

Module WebContainerManager.

Section Methods.
Variable env : Env.

Definition initialize : M unit :=
  let! initialized := gets webcontainer_isInitialized in
  if initialized then ret tt
  else
    tryCatch
      (do! emit WebContainer_boot_call in
       do! match WebContainer_boot env with
           | Some e => throw e
           | None => ret tt
           end in
       modify (set_webcontainer true true))
      (λ error,
         do! emit (console_error "Failed to initialize WebContainer:" error) in
         throw (Error "WebContainer not supported in this environment")).

Definition requireHandle : M unit :=
  let! handle := gets webcontainer_handle in
  if handle then ret tt else throw (Error "WebContainer not initialized").

Definition installPackage (packageName : string) (version : option string)
  : M unit :=
  do! requireHandle in
  let packageSpec :=
    match version with
    | Some v => if Js.truthy v then packageName +:+ "@" +:+ v else packageName
    | None => packageName
    end in
  do! emit (webcontainer_spawn_call "npm" ["install"; packageSpec]) in
  if (npm_install_exit env packageSpec =? 0)%Z then ret tt
  else throw (Error ("Failed to install package " +:+ packageSpec)).

Definition readFile (path : string) : M string :=
  do! requireHandle in
  do! emit (webcontainer_readFile_call path) in
  liftOutcome (webcontainer_fs_readFile env path).

Definition writeFile (path content : string) : M unit :=
  do! requireHandle in
  emit (webcontainer_writeFile_call path content).

Definition createPackageJson (dependencies : list (string * string)) : M unit :=
  writeFile "package.json"
    (JSON_stringify env "package-scout-analysis" "1.0.0" dependencies).

Definition isSupported : bool :=
  Worker_defined env && SharedArrayBuffer_defined env && crossOriginIsolated env.

Definition teardown : M unit :=
  let! handle := gets webcontainer_handle in
  if handle then
    do! emit webcontainer_teardown_call in
    modify (set_webcontainer false false)
  else ret tt.

End Methods.

End WebContainerManager.

(** ** AnalysisOrchestrator: [BrowserPackageAnalyzer] *)

Module BrowserPackageAnalyzer.

Section Methods.
Variable env : Env.
Variable options : BrowserPackageAnalyzerOptions.

(** [new CDNPackageManager(options.cdn || 'unpkg')] *)
Definition cdnManager : CDN := default unpkg (cdn options).

Definition resolveEntryPoint (packageJson : PackageJson) : string :=
  Js.orElse (pj_module packageJson) (Js.orElse (pj_main packageJson) "index.js").

Definition calculateParseTime (code : string) : M Z :=
  ret (elapsed_import env code).

(** Truthiness of a possibly undefined string: [!!s]. *)
Definition notNot (s : option string) : bool :=
  match s with
  | Some v => Js.truthy v
  | None => false
  end.

(** [sideEffects !== false] *)
Definition hasSideEffects (s : option SideEffects) : bool :=
  match s with
  | Some (sideEffects_bool false) => false
  | _ => true
  end.

(** [type === 'module'] *)
Definition isModuleType (t : option ModuleType) : bool :=
  match t with
  | Some module_type => true
  | _ => false
  end.

Definition analyzeWithWebContainer (packageName : string)
    (version : option string) : M PackageStats :=
  do! WebContainerManager.initialize env in
  do! WebContainerManager.createPackageJson env
        [(packageName, Js.orElse version "latest")] in
  do! WebContainerManager.installPackage env packageName version in
  let packageJsonPath := "node_modules/" +:+ packageName +:+ "/package.json" in
  let! packageJsonContent := WebContainerManager.readFile env packageJsonPath in
  let! packageJson := liftOutcome (JSON_parse env packageJsonContent) in
  let entryPoint := resolveEntryPoint packageJson in
  let entryCode :=
    match customImports options with
    | Some imports =>
        Js.join (String "010" "")
          (map (λ imp, "import '" +:+ packageName +:+ "/" +:+ imp +:+ "';") imports)
    | None => "import '" +:+ packageName +:+ "';"
    end in
  do! WebContainerManager.writeFile "entry.js" entryCode in
  let mockStats :=
    {| stats_name := pj_name packageJson;
       stats_size := 50000;
       stats_gzipSize := 15000;
       stats_parseTime := None;
       stats_dependencyCount := length (default [] (pj_dependencies packageJson));
       stats_hasJSNext := notNot (pj_jsnext_main packageJson);
       stats_hasJSModule := notNot (pj_module packageJson);
       stats_isModuleType := isModuleType (pj_type packageJson);
       stats_hasSideEffects := hasSideEffects (pj_sideEffects packageJson);
       stats_peerDependencies := map fst (default [] (pj_peerDependencies packageJson));
       stats_dependencySizes := [];
       stats_assets :=
         [ {| asset_name := "main"; asset_size := 50000;
              asset_gzipSize := 15000; asset_type := asset_js |} ] |} in
  do! WebContainerManager.teardown in
  ret mockStats.

(** The content of the synthesized entry module. *)
Definition entryContent : string :=
  match customImports options with
  | Some imports =>
      Js.join (String "010" "")
        (map (λ imp, "export * from './" +:+ imp +:+ "';") imports)
  | None => "export * from './index.js';"
  end.

Definition analyzeWithCDN (packageName : string) (version : option string)
  : M PackageStats :=
  let! packageInfo := CDNPackageManager.getPackageInfo env cdnManager packageName version in
  let! packageFiles := CDNPackageManager.downloadPackage env cdnManager packageName version in
  let! mainFile := CDNPackageManager.resolveMainFile env cdnManager packageInfo in
  let entryPoint := Js.orElse mainFile "index.js" in
  let packageFiles :=
    if negb (Js.has packageFiles entryPoint) then
      <["entry.js" := entryContent]> packageFiles
    else packageFiles in
  let! bundleResult := WasmBundler.bundle env entryPoint packageFiles in
  let! minified :=
    WasmBundler.minifyCode env (bundle_code bundleResult)
      (Some (default esbuild (minifier options))) in
  let! parseTime :=
    if debug options then
      let! t := calculateParseTime (minified_code minified) in ret (Some t)
    else ret None in
  ret {| stats_name := info_name packageInfo;
         stats_size := minified_size minified;
         stats_gzipSize := minified_gzipSize minified;
         stats_parseTime := parseTime;
         stats_dependencyCount := length (default [] (info_dependencies packageInfo));
         stats_hasJSNext := false;
         stats_hasJSModule := notNot (info_module packageInfo);
         stats_isModuleType := isModuleType (info_type packageInfo);
         stats_hasSideEffects := hasSideEffects (info_sideEffects packageInfo);
         stats_peerDependencies :=
           map fst (default [] (info_peerDependencies packageInfo));
         stats_dependencySizes := [];
         stats_assets :=
           [ {| asset_name := "main";
                asset_size := minified_size minified;
                asset_gzipSize := minified_gzipSize minified;
                asset_type := asset_js |} ] |}.

Definition analyzePackage (packageName : string) (version : option string)
  : M PackageStats :=
  tryCatch
    (do! WasmBundler.initialize env in
     let useWebContainer :=
       useWebContainer options && WebContainerManager.isSupported env in
     if useWebContainer then analyzeWithWebContainer packageName version
     else analyzeWithCDN packageName version)
    (λ error,
       throw (Error ("Failed to analyze package " +:+ packageName +:+ ": "
                     +:+ errorToString error))).

Definition isExportFile (f : CDNFile) : bool :=
  bool_decide (type f = file) &&
  (Js.endsWith (path f) ".js" || Js.endsWith (path f) ".mjs"
   || Js.endsWith (path f) ".ts").

(** The callback of [exportFiles.map(async (file) => ...)]; [None] is
    the [null] that [filter(Boolean)] removes. *)
Definition exportCallback (packageFiles : gmap string string) (f : CDNFile)
  : Async (option ExportAsset) :=
  Async.tryCatch
    (if negb (notNot (packageFiles !! path f)) then Async.ret None
     else
       let tempFiles := packageFiles in
       let* bundleResult :=
         Async.await (WasmBundler.Concurrent.bundle env (path f) tempFiles) in
       let* minified :=
         Async.await (WasmBundler.Concurrent.minifyCode env
                        (bundle_code bundleResult) None) in
       Async.ret (Some {| export_path := path f;
                          export_size := minified_size minified;
                          export_gzipSize := minified_gzipSize minified;
                          export_exportName := Some (path f) |}))
    (λ error,
       do* (if debug options then
              Async.lift
                (emit (console_warn ("Failed to analyze export " +:+ path f +:+ ":")
                         error))
            else Async.ret tt) in
       Async.ret None).

(** One callback, when no other one runs beside it. *)
Definition analyzeExport (packageFiles : gmap string string) (f : CDNFile)
  : M (option ExportAsset) :=
  run (exportCallback packageFiles f).

Definition getPackageExportSizes (packageName : string) (version : option string)
  : M PackageExportSizes :=
  let! packageInfo := CDNPackageManager.getPackageInfo env cdnManager packageName version in
  let! packageFiles := CDNPackageManager.downloadPackage env cdnManager packageName version in
  let exportFiles := List.filter isExportFile (info_files packageInfo) in
  let! exportSizes := promiseAll (map (exportCallback packageFiles) exportFiles) in
  ret {| exports_name := info_name packageInfo;
         exports_version := info_version packageInfo;
         exports_assets := omap id exportSizes |}.

Definition dispose : M unit :=
  do! WasmBundler.dispose in
  WebContainerManager.teardown.

End Methods.

End BrowserPackageAnalyzer.

(** ** The polyfills of [utils/browser-polyfills]: [path]

    A slice is taken at a position found in the same string, or by the
    length of a suffix of it, so that the UTF-8 and the UTF-16 view of a
    text give the same slice. *)

Module Path.

(** [s.replace(/\/+/g, '/')]: every run of slashes becomes one slash. *)
Fixpoint collapseSlashes (s : string) : string :=
  match s with
  | EmptyString => EmptyString
  | String c s' =>
      if Ascii.eqb c "/" && Js.startsWith s' "/" then collapseSlashes s'
      else String c (collapseSlashes s')
  end.

(** [s.replace(/\/$/, '')]: a slash that ends the string is removed. *)
Fixpoint stripTrailingSlash (s : string) : string :=
  match s with
  | EmptyString => EmptyString
  | String c EmptyString => if Ascii.eqb c "/" then EmptyString else s
  | String c s' => String c (stripTrailingSlash s')
  end.

(** [paths.join('/').replace(/\/+/g, '/').replace(/\/$/, '') || '/'] *)
Definition join (paths : list string) : string :=
  let joined := stripTrailingSlash (collapseSlashes (Js.join "/" paths)) in
  if Js.truthy joined then joined else "/".

(** [parts.slice(0, -1).join('/') || '/'] *)
Definition dirname (p : string) : string :=
  let parts := Js.split "/" p in
  let dir := Js.join "/" (Js.dropLast parts) in
  if Js.truthy dir then dir else "/".

(** [s.slice(0, -n)] for a positive [n]. *)
Definition sliceEnd (n : nat) (s : string) : string :=
  String.substring 0 (String.length s - n) s.

(** [s.slice(n)] *)
Definition sliceFrom (n : nat) (s : string) : string :=
  String.substring n (String.length s - n) s.

(** [base] is [path.split('/').pop() || '']: the last part, which is
    never undefined. *)
Definition basename (p : string) (ext : option string) : string :=
  let base := List.last (Js.split "/" p) "" in
  match ext with
  | Some e =>
      if Js.truthy e && Js.endsWith base e then sliceEnd (String.length e) base
      else base
  | None => base
  end.

(** [s.lastIndexOf(c)], [None] for -1. *)
Fixpoint lastIndexOf (c : ascii) (s : string) : option nat :=
  match s with
  | EmptyString => None
  | String c' s' =>
      match lastIndexOf c s' with
      | Some i => Some (S i)
      | None => if Ascii.eqb c' c then Some 0 else None
      end
  end.

(** [lastDot > 0 ? base.slice(lastDot) : ''] *)
Definition extname (p : string) : string :=
  let base := List.last (Js.split "/" p) "" in
  match lastIndexOf "." base with
  | Some lastDot => if (0 <? lastDot)%nat then sliceFrom lastDot base else ""
  | None => ""
  end.

(** [path.join('/', ...paths)] *)
Definition resolve (paths : list string) : string := join ("/" :: paths).

End Path.

(** ** The polyfills of [utils/browser-polyfills]: [crypto.createHash]

    The data that is hashed is a string, or bytes that [TextDecoder]
    makes a string of; [str] is the list of its UTF-16 code units, as
    [charCodeAt] gives them. *)

Module Crypto.

(** [ToInt32]: the integer modulo 2^32 that lies in [-2^31, 2^31). *)
Definition toInt32 (z : Z) : Z := ((z + 2 ^ 31) mod 2 ^ 32 - 2 ^ 31)%Z.

(** [x << n], for [0 <= n < 32]. *)
Definition shiftLeft (x n : Z) : Z := toInt32 (Z.shiftl (toInt32 x) n).

(** [x & y]: both operands are taken as 32-bit integers, so that
    [0xffffffff] stands for -1. *)
Definition bitAnd (x y : Z) : Z := Z.land (toInt32 x) (toInt32 y).

(** One turn of the loop over the code units of [str]:
    [hash = ((hash << 5) - hash + str.charCodeAt(i)) & 0xffffffff]. The
    sum is below 2^53 in size, so the double arithmetic is exact. *)
Definition step (hash charCode : Z) : Z :=
  bitAnd (shiftLeft hash 5 - hash + charCode) 4294967295.

(** [let hash = 0; for (let i = 0; i < str.length; i++) { ... }] *)
Definition hashOf (str : list Z) : Z := foldl step 0%Z str.

Definition hexDigits : list ascii :=
  ["0"; "1"; "2"; "3"; "4"; "5"; "6"; "7"; "8"; "9"; "a"; "b"; "c"; "d"; "e"; "f"]%char.

Definition hexDigit (d : Z) : ascii := nth (Z.to_nat d) hexDigits "0"%char.

(** The digits of [n] in base 16 in front of [acc], the last one first. *)
Fixpoint toString16_digits (fuel : nat) (n : Z) (acc : string) : string :=
  match fuel with
  | O => acc
  | S fuel' =>
      let acc' := String (hexDigit (n mod 16)) acc in
      if (n <? 16)%Z then acc' else toString16_digits fuel' (n / 16) acc'
  end.

(** [n.toString(16)] for an integer [n >= 0]: it has at most as many
    digits as [n] has bits. *)
Definition toString16 (n : Z) : string :=
  toString16_digits (S (Z.to_nat (Z.log2 n))) n "".

(** [s.padStart(n, c)] *)
Definition padStart (n : nat) (c : ascii) (s : string) : string :=
  string_of_list_ascii (repeat c (n - String.length s)) +:+ s.

(** [Math.abs(hash).toString(16).padStart(8, '0')] *)
Definition digestHex (str : list Z) : string :=
  padStart 8 "0" (toString16 (Z.abs (hashOf str))).

(** What [digest] returns: the [hex] string, or the placeholder
    [new Uint8Array(32)]. *)
Inductive Digest :=
| digest_hex (s : string)
| digest_bytes (bytes : list Z).

(** [crypto.createHash(algorithm).update(data).digest(encoding)], on the
    code units [str] of [data]. *)
Definition createHash (algorithm : string) (str : list Z) (encoding : option string)
  : Outcome Digest :=
  if negb (String.eqb algorithm "sha256") then
    Thrown (Error ("Unsupported hash algorithm: " +:+ algorithm))
  else
    Returned (match encoding with
              | Some enc =>
                  if String.eqb enc "hex" then digest_hex (digestHex str)
                  else digest_bytes (repeat 0%Z 32)
              | None => digest_bytes (repeat 0%Z 32)
              end).

End Crypto.

(** ** Observing a run *)

(** The world after the further calls [evs]. *)
Definition extend (evs : list Event) (w : World) : World :=
  {| bundler_isInitialized := bundler_isInitialized w;
     webcontainer_handle := webcontainer_handle w;
     webcontainer_isInitialized := webcontainer_isInitialized w;
     trace := trace w ++ evs |}.

(** The content requests for the paths [l] of package [packageName] at
    [version], one after the other. *)
Definition contentRequests (defaultCDN : CDN) (packageName : string)
    (version : option string) (l : list string) : list Event :=
  map (λ filePath,
         fetch_call GET
           (CDNPackageManager.buildUrl defaultCDN
              (CDNPackageManager.packageSpecOf packageName version) filePath)) l.

(** Whether the content fetch of [filePath] succeeds when it is issued
    after the calls [tr]: the network answers, and with an [ok] status. *)
Definition fetchable (env : Env) (defaultCDN : CDN) (packageName : string)
    (version : option string) (tr : list Event) (filePath : string) : bool :=
  match fetch_response env tr GET
          (CDNPackageManager.buildUrl defaultCDN
             (CDNPackageManager.packageSpecOf packageName version) filePath) with
  | Responded r => ok r
  | Rejected _ => false
  end.

(** The world that each callback of a fan-out [foldM body acc l] starts
    from, in the order of [l]. *)
Fixpoint starts {A B} (body : B → A → M B) (acc : B) (l : list A) (w : World)
  : list (A * World) :=
  match l with
  | [] => []
  | x :: rest =>
      (x, w) :: match body acc x w with
                | (Returned acc', w') => starts body acc' rest w'
                | (Thrown _, _) => []
                end
  end.

(** The downloads of [downloadPackage] whose content fetch fails. *)
Definition failedDownloads (env : Env) (defaultCDN : CDN) (packageName : string)
    (version : option string) (entries : list CDNFile) (w : World)
  : list (CDNFile * World) :=
  filter (λ job, fetchable env defaultCDN packageName version
                   (trace (snd job)) (path (fst job)) = false)
         (starts (CDNPackageManager.downloadFile env defaultCDN packageName version)
                 ∅ entries w).

(** An analyzer whose bundler is initialized, before any call. *)
Definition initialized : World :=
  {| bundler_isInitialized := true;
     webcontainer_handle := false;
     webcontainer_isInitialized := false;
     trace := [] |}.

(** What [bundle] and [minifyCode] give on an initialized engine: the
    engines are functions of their arguments. *)
Definition bundleOutcome (env : Env) (entryPoint : string)
    (files : gmap string string) : Outcome BundleResult :=
  fst (WasmBundler.bundle env entryPoint files initialized).

Definition minifyOutcome (env : Env) (code : string) (minifier : option Minifier)
  : Outcome MinifyResult :=
  fst (WasmBundler.minifyCode env code minifier initialized).

(** The asset that [getPackageExportSizes] reports for a file that
    bundles to [minified]. *)
Definition exportAssetOf (f : CDNFile) (minified : MinifyResult) : ExportAsset :=
  {| export_path := path f;
     export_size := minified_size minified;
     export_gzipSize := minified_gzipSize minified;
     export_exportName := Some (path f) |}.

(** The asset of one candidate of [getPackageExportSizes], as a function
    of the file set and the engines. *)
Definition exportAsset (env : Env) (files : gmap string string) (f : CDNFile)
  : option ExportAsset :=
  if BrowserPackageAnalyzer.notNot (files !! path f) then
    match bundleOutcome env (path f) files with
    | Returned bundled =>
        match minifyOutcome env (bundle_code bundled) None with
        | Returned minified => Some (exportAssetOf f minified)
        | Thrown _ => None
        end
    | Thrown _ => None
    end
  else None.

(** *** The export-size batch

    What the callback of one candidate does, as a script: the calls it
    makes when [map] calls it, up to its first [await]; the calls it makes
    when it is taken up again; its result; and whether it sets
    [isInitialized]. [calls] are the calls made when the callback starts,
    which [esbuild.initialize] answers from. *)

Definition isInitializeCall (ev : Event) : bool :=
  match ev with
  | esbuild_initialize_call => true
  | _ => false
  end.

Definition isBuildCall (ev : Event) : bool :=
  match ev with
  | esbuild_build_call _ _ => true
  | _ => false
  end.

(** The candidates that have content in the file set. *)
Definition attempted (files : gmap string string) (candidates : list CDNFile)
  : list CDNFile :=
  List.filter (λ f, BrowserPackageAnalyzer.notNot (files !! path f)) candidates.

(** The warning of a callback that has caught [error]. *)
Definition exportWarning (options : BrowserPackageAnalyzerOptions) (f : CDNFile)
    (error : JsError) : list Event :=
  if debug options then
    [console_warn ("Failed to analyze export " +:+ path f +:+ ":") error]
  else [].

(** The calls of a callback after the answer to its [esbuild.build]. *)
Definition exportAfterBuild (env : Env) (options : BrowserPackageAnalyzerOptions)
    (files : gmap string string) (f : CDNFile) : list Event :=
  match bundleOutcome env (path f) files with
  | Returned bundled =>
      esbuild_transform_call (bundle_code bundled)
      :: match minifyOutcome env (bundle_code bundled) None with
         | Returned _ => []
         | Thrown e => exportWarning options f e
         end
  | Thrown e => exportWarning options f e
  end.

Record ExportScript := {
  script_first : list Event;
  script_later : list Event;
  script_result : option ExportAsset;
  script_initializes : bool;
}.

Definition exportScript (env : Env) (options : BrowserPackageAnalyzerOptions)
    (files : gmap string string) (initialized : bool) (calls : list Event)
    (f : CDNFile) : ExportScript :=
  if negb (BrowserPackageAnalyzer.notNot (files !! path f)) then
    {| script_first := []; script_later := [];
       script_result := None; script_initializes := false |}
  else if initialized then
    {| script_first := [esbuild_build_call (path f) files];
       script_later := exportAfterBuild env options files f;
       script_result := exportAsset env files f;
       script_initializes := false |}
  else
    match esbuild_initialize env calls with
    | None =>
        {| script_first := [esbuild_initialize_call];
           script_later :=
             esbuild_build_call (path f) files :: exportAfterBuild env options files f;
           script_result := exportAsset env files f;
           script_initializes := true |}
    | Some e =>
        {| script_first := [esbuild_initialize_call];
           script_later :=
             console_error "Failed to initialize ESBuild WASM:" e
             :: exportWarning options f (Error "ESBuild WASM initialization failed");
           script_result := None;
           script_initializes := false |}
    end.

(** The scripts of the candidates: each callback starts after the first
    calls of the ones before it. *)
Fixpoint exportScripts (env : Env) (options : BrowserPackageAnalyzerOptions)
    (files : gmap string string) (initialized : bool) (calls : list Event)
    (candidates : list CDNFile) : list ExportScript :=
  match candidates with
  | [] => []
  | f :: rest =>
      let script := exportScript env options files initialized calls f in
      script :: exportScripts env options files initialized
                  (calls ++ script_first script) rest
  end.

(** The world after a callback that has initialized the bundler. *)
Definition finish (initializes : bool) (w : World) : World :=
  if initializes then set_bundler_isInitialized true w else w.

(** An engine that consults the plugin for the entry point, which it
    resolves with an empty importer: it rejects the build when the hook
    that resolves the entry point throws, and when the hook that loads the
    resolved path does. *)
Definition consultsPlugin (env : Env) : Prop :=
  ∀ (entryPoint : string) (resolve : string → string → Outcome (option string))
    (load : string → Outcome (option (string * Loader))),
    (∀ e, resolve entryPoint "" = Thrown e →
          ∃ cause, esbuild_build env entryPoint resolve load = build_rejected cause)
    ∧ (∀ p e, resolve entryPoint "" = Returned (Some p) → load p = Thrown e →
              ∃ cause, esbuild_build env entryPoint resolve load = build_rejected cause).

(** The calls that [bundle] and [minifyCode] make. *)
Definition engineCall (ev : Event) : bool :=
  match ev with
  | console_error _ _
  | esbuild_initialize_call
  | esbuild_build_call _ _
  | esbuild_transform_call _
  | terser_minify_call _ => true
  | _ => false
  end.

Definition notWarning (ev : Event) : Prop :=
  match ev with
  | console_warn _ _ => False
  | _ => True
  end.

(** The calls that are made to the sandbox. *)
Definition sandboxCall (ev : Event) : bool :=
  match ev with
  | WebContainer_boot_call
  | webcontainer_spawn_call _ _
  | webcontainer_readFile_call _
  | webcontainer_writeFile_call _ _
  | webcontainer_teardown_call => true
  | _ => false
  end.

Definition notSandbox (ev : Event) : Prop := sandboxCall ev = false.

(** [emits P m]: the calls that [m] makes all satisfy [P]. *)
Definition emits (P : Event → Prop) {A} (m : M A) : Prop :=
  ∀ w, ∃ evs, trace (snd (m w)) = trace w ++ evs ∧ Forall P evs.

(** *** Strings and paths *)

(** The character [c] does not occur in [s]. *)
Definition noChar (c : ascii) (s : string) : Prop := ¬ In c (list_ascii_of_string s).

(** The non-empty parts of a path, as [resolvePath] takes them:
    [s.split('/').filter(p => p !== '')]. *)
Definition segments (s : string) : list string :=
  filter (λ p, p ≠ "") (Js.split "/" s).

(** A non-empty string without a slash. *)
Definition segment (p : string) : Prop := p ≠ "" ∧ noChar "/" p.

(** Whether [s] holds two slashes in a row. *)
Fixpoint doubleSlash (s : string) : bool :=
  match s with
  | EmptyString => false
  | String c s' => (Ascii.eqb c "/" && Js.startsWith s' "/") || doubleSlash s'
  end.

(** The last character of a string. *)
Fixpoint lastChar (s : string) : option ascii :=
  match s with
  | EmptyString => None
  | String c EmptyString => Some c
  | String _ s' => lastChar s'
  end.

(** *** Hexadecimal numerals and the hash *)

Definition isHexDigit (c : ascii) : Prop := c ∈ Crypto.hexDigits.

(** The value of a hexadecimal digit, and of a numeral. *)
Definition hexValue (c : ascii) : Z :=
  match list_find (λ d, d = c) Crypto.hexDigits with
  | Some (i, _) => Z.of_nat i
  | None => 0
  end.

Fixpoint parseHexFrom (v : Z) (s : string) : Z :=
  match s with
  | EmptyString => v
  | String c s' => parseHexFrom (16 * v + hexValue c) s'
  end.

Definition parseHex (s : string) : Z := parseHexFrom 0 s.

(** The polynomial c0 * 31^(n-1) + ... + c(n-1) of the code units, in
    exact arithmetic. *)
Definition polynomial (str : list Z) : Z := foldl (λ acc c, 31 * acc + c)%Z 0%Z str.

(** *** Requests and failures of the package source *)

Definition isFile (f : CDNFile) : Prop := type f = file.

(** The probes of [discoverCommonFiles] for the paths [l]. *)
Definition probeRequests (defaultCDN : CDN) (packageSpec : string) (l : list string)
  : list Event :=
  map (λ filePath,
         fetch_call HEAD (CDNPackageManager.buildUrl defaultCDN packageSpec filePath)) l.

(** The URL of the unpkg listing, and the warning of [getFileList]. *)
Definition listingUrl (packageSpec : string) : string :=
  CDNPackageManager.cdnProviders unpkg +:+ "/" +:+ packageSpec +:+ "/?meta".

Definition listingWarning (error : JsError) : Event :=
  console_warn "Failed to get file listing, using common patterns:" error.

(** The URL of the manifest. *)
Definition manifestUrl (defaultCDN : CDN) (packageName : string) (version : option string)
  : string :=
  CDNPackageManager.buildUrl defaultCDN
    (CDNPackageManager.packageSpecOf packageName version) "package.json".

(** The error that [getPackageInfo] makes of a [cause]. *)
Definition packageInfoFailure (packageName : string) (version : option string)
    (cause : JsError) : JsError :=
  Error ("Failed to fetch package info for "
         +:+ CDNPackageManager.packageSpecOf packageName version +:+ ": "
         +:+ errorToString cause).

(** The descriptor that [getPackageInfo] makes of a manifest and a
    listing. *)
Definition descriptor (packageJson : PackageJson) (files : list CDNFile) : CDNPackageInfo :=
  {| info_name := pj_name packageJson;
     info_version := pj_version packageJson;
     info_files := files;
     info_dependencies := pj_dependencies packageJson;
     info_peerDependencies := pj_peerDependencies packageJson;
     info_main := pj_main packageJson;
     info_module := pj_module packageJson;
     info_type := pj_type packageJson;
     info_sideEffects := pj_sideEffects packageJson |}.

(** The registry serves [content] for [filePath] when it is asked after
    the calls [tr]. *)
Definition served (env : Env) (defaultCDN : CDN) (packageName : string)
    (version : option string) (tr : list Event) (filePath content : string) : Prop :=
  ∃ r, fetch_response env tr GET
         (CDNPackageManager.buildUrl defaultCDN
            (CDNPackageManager.packageSpecOf packageName version) filePath) = Responded r
       ∧ ok r = true ∧ text r = content.

(** *** The sandbox strategy *)

(** The package that [installPackage] asks npm for. *)
Definition installSpec (packageName : string) (version : option string) : string :=
  match version with
  | Some v => if Js.truthy v then packageName +:+ "@" +:+ v else packageName
  | None => packageName
  end.

(** The entry file that the sandbox strategy writes. *)
Definition sandboxEntryCode (options : BrowserPackageAnalyzerOptions)
    (packageName : string) : string :=
  match customImports options with
  | Some imports =>
      Js.join (String "010" "")
        (map (λ imp, "import '" +:+ packageName +:+ "/" +:+ imp +:+ "';") imports)
  | None => "import '" +:+ packageName +:+ "';"
  end.

(** The boot that [initialize] makes from [w], and the calls of a sandbox
    analysis that runs to its end, after the boot. *)
Definition bootCalls (w : World) : list Event :=
  if webcontainer_isInitialized w then [] else [WebContainer_boot_call].

Definition sandboxCalls (env : Env) (options : BrowserPackageAnalyzerOptions)
    (packageName : string) (version : option string) : list Event :=
  [ webcontainer_writeFile_call "package.json"
      (JSON_stringify env "package-scout-analysis" "1.0.0"
         [(packageName, Js.orElse version "latest")]);
    webcontainer_spawn_call "npm" ["install"; installSpec packageName version];
    webcontainer_readFile_call ("node_modules/" +:+ packageName +:+ "/package.json");
    webcontainer_writeFile_call "entry.js" (sandboxEntryCode options packageName);
    webcontainer_teardown_call ].

(** The statistics of the sandbox strategy for a manifest. *)
Definition sandboxStats (packageJson : PackageJson) : PackageStats :=
  {| stats_name := pj_name packageJson;
     stats_size := 50000;
     stats_gzipSize := 15000;
     stats_parseTime := None;
     stats_dependencyCount := length (default [] (pj_dependencies packageJson));
     stats_hasJSNext := BrowserPackageAnalyzer.notNot (pj_jsnext_main packageJson);
     stats_hasJSModule := BrowserPackageAnalyzer.notNot (pj_module packageJson);
     stats_isModuleType := BrowserPackageAnalyzer.isModuleType (pj_type packageJson);
     stats_hasSideEffects :=
       BrowserPackageAnalyzer.hasSideEffects (pj_sideEffects packageJson);
     stats_peerDependencies := map fst (default [] (pj_peerDependencies packageJson));
     stats_dependencySizes := [];
     stats_assets :=
       [ {| asset_name := "main"; asset_size := 50000;
            asset_gzipSize := 15000; asset_type := asset_js |} ] |}.

(** ** Concrete worlds, to run the pipeline on *)

Module Scenario.

Definition notFound : Response :=
  {| ok := false; text := "Not found"; json_manifest := None;
     json_listing := None; content_length := None |}.

Definition textFile (content : string) : Response :=
  {| ok := true; text := content; json_manifest := None;
     json_listing := None;
     content_length := Some (Z.of_nat (String.length content)) |}.

Definition manifestFile (pj : PackageJson) : Response :=
  {| ok := true; text := "{}"; json_manifest := Some (Some pj);
     json_listing := None; content_length := None |}.

Definition listingFile (tree : ListingNode) : Response :=
  {| ok := true; text := "{}"; json_manifest := None;
     json_listing := Some tree; content_length := None |}.

(** A registry that serves a fixed table of URLs and answers 404 to
    every other request. *)
Definition serve (table : list (string * Response))
  : list Event → Method → string → FetchOutcome :=
  λ _ _ url,
    match List.find (λ entry, String.eqb (fst entry) url) table with
    | Some entry => Responded (snd entry)
    | None => Responded notFound
    end.

(** A toy engine: it resolves and loads the entry point through the two
    hooks and emits its contents; a file that starts with [@] stands for
    one with a syntax error. An exception of a hook, or an entry point
    that no hook resolves or loads, rejects the build. *)
Definition toyBuild (entryPoint : string)
    (resolve : string → string → Outcome (option string))
    (load : string → Outcome (option (string * Loader))) : BuildOutcome :=
  match resolve entryPoint "" with
  | Returned (Some p) =>
      match load p with
      | Returned (Some (contents, _)) =>
          if Js.startsWith contents "@" then
            build_rejected (Error "Build failed with 1 error")
          else build_result [] [contents]
      | Returned None => build_rejected (Error ("Could not load " +:+ p))
      | Thrown e => build_rejected e
      end
  | Returned None => build_rejected (Error ("Could not resolve " +:+ entryPoint))
  | Thrown e => build_rejected e
  end.

(** An engine that initializes once, and refuses every later call. *)
Definition initializeOnce (calls : list Event) : option JsError :=
  if existsb isInitializeCall calls then
    Some (Error "Cannot call initialize more than once")
  else None.

Definition world (table : list (string * Response)) : Env :=
  {| fetch_response := serve table;
     esbuild_initialize := initializeOnce;
     esbuild_build := toyBuild;
     esbuild_transform := λ code, Returned code;
     terser_minify := λ code, Returned (Some code);
     CompressionStream := None;
     elapsed_import := λ _, 1%Z;
     Worker_defined := false;
     SharedArrayBuffer_defined := false;
     crossOriginIsolated := false;
     WebContainer_boot := Some (Error "Unable to boot");
     npm_install_exit := λ _, 1%Z;
     webcontainer_fs_readFile := λ p, Thrown (Error ("ENOENT: " +:+ p));
     JSON_parse := λ _, Thrown (SyntaxError "Unexpected token in JSON");
     JSON_stringify := λ _ _ _, "{}" |}.

(** The same world with a terser that throws. *)
Definition withFailingTerser (e : Env) : Env :=
  {| fetch_response := fetch_response e;
     esbuild_initialize := esbuild_initialize e;
     esbuild_build := esbuild_build e;
     esbuild_transform := esbuild_transform e;
     terser_minify := λ _, Thrown (Error "Unexpected token");
     CompressionStream := CompressionStream e;
     elapsed_import := elapsed_import e;
     Worker_defined := Worker_defined e;
     SharedArrayBuffer_defined := SharedArrayBuffer_defined e;
     crossOriginIsolated := crossOriginIsolated e;
     WebContainer_boot := WebContainer_boot e;
     npm_install_exit := npm_install_exit e;
     webcontainer_fs_readFile := webcontainer_fs_readFile e;
     JSON_parse := JSON_parse e;
     JSON_stringify := JSON_stringify e |}.

(** The same world in a browser that passes the capability check; the
    sandbox still fails to boot. *)
Definition withSandboxCapability (e : Env) : Env :=
  {| fetch_response := fetch_response e;
     esbuild_initialize := esbuild_initialize e;
     esbuild_build := esbuild_build e;
     esbuild_transform := esbuild_transform e;
     terser_minify := terser_minify e;
     CompressionStream := CompressionStream e;
     elapsed_import := elapsed_import e;
     Worker_defined := true;
     SharedArrayBuffer_defined := true;
     crossOriginIsolated := true;
     WebContainer_boot := WebContainer_boot e;
     npm_install_exit := npm_install_exit e;
     webcontainer_fs_readFile := webcontainer_fs_readFile e;
     JSON_parse := JSON_parse e;
     JSON_stringify := JSON_stringify e |}.

Definition start : World :=
  {| bundler_isInitialized := false;
     webcontainer_handle := false;
     webcontainer_isInitialized := false;
     trace := [] |}.

Definition defaults : BrowserPackageAnalyzerOptions :=
  {| minifier := None; debug := false; customImports := None;
     includeDependencySizes := false; cdn := None; useWebContainer := false |}.

Definition sandboxRequested : BrowserPackageAnalyzerOptions :=
  {| minifier := None; debug := false; customImports := None;
     includeDependencySizes := false; cdn := None; useWebContainer := true |}.

Definition manifest (name version : string) (main module : option string)
  : PackageJson :=
  {| pj_name := name; pj_version := version;
     pj_dependencies := None; pj_peerDependencies := None;
     pj_main := main; pj_module := module; pj_jsnext_main := None;
     pj_type := None; pj_sideEffects := None |}.

(** Package [pkg]: its latest version 2.0.0 has only [index.js]; the
    older 1.0.0 also ships [esm/index.js] and names it as [module]. *)
Definition pkg : list (string * Response) :=
  [ ("https://unpkg.com/pkg/package.json",
     manifestFile (manifest "pkg" "2.0.0" (Some "index.js") None));
    ("https://unpkg.com/pkg/?meta",
     listingFile (directory_node (Some [("index.js", file_node (Some 13%Z))])));
    ("https://unpkg.com/pkg/index.js", textFile "export {two};");
    ("https://unpkg.com/pkg@1.0.0/package.json",
     manifestFile (manifest "pkg" "1.0.0" (Some "index.js") (Some "esm/index.js")));
    ("https://unpkg.com/pkg@1.0.0/?meta",
     listingFile
       (directory_node
          (Some [("index.js", file_node (Some 13%Z));
                 ("esm", directory_node (Some [("index.js", file_node (Some 13%Z))]))])));
    ("https://unpkg.com/pkg@1.0.0/index.js", textFile "exports.v = 1");
    ("https://unpkg.com/pkg@1.0.0/esm/index.js", textFile "export {one};") ].

(** The descriptor of [pkg] at 1.0.0. *)
Definition pkg_1_0_0 : CDNPackageInfo :=
  {| info_name := "pkg"; info_version := "1.0.0";
     info_files :=
       [ {| path := "index.js"; file_size := 13; type := file |};
         {| path := "esm/index.js"; file_size := 13; type := file |} ];
     info_dependencies := None; info_peerDependencies := None;
     info_main := Some "index.js"; info_module := Some "esm/index.js";
     info_type := None; info_sideEffects := None |}.

(** Package [lib]: no entry fields, and no file at any conventional
    entry path. *)
Definition lib : list (string * Response) :=
  [ ("https://unpkg.com/lib/package.json",
     manifestFile (manifest "lib" "1.0.0" None None));
    ("https://unpkg.com/lib/?meta",
     listingFile (directory_node (Some [("src", directory_node (Some [("a.js", file_node None)]))])));
    ("https://unpkg.com/lib/src/a.js", textFile "export const a = 1;") ].

(** Package [three]: three script files, the second with a syntax error,
    and a README. *)
Definition three : list (string * Response) :=
  [ ("https://unpkg.com/three/package.json",
     manifestFile (manifest "three" "1.0.0" (Some "a.js") None));
    ("https://unpkg.com/three/?meta",
     listingFile
       (directory_node
          (Some [("a.js", file_node None); ("b.js", file_node None);
                 ("c.mjs", file_node None); ("README.md", file_node None)])));
    ("https://unpkg.com/three/a.js", textFile "export const a = 1;");
    ("https://unpkg.com/three/b.js", textFile "@ export const");
    ("https://unpkg.com/three/c.mjs", textFile "export const c = 3;");
    ("https://unpkg.com/three/README.md", textFile "# three") ].

(** Package [hollow]: a script and an empty script. *)
Definition hollow : list (string * Response) :=
  [ ("https://unpkg.com/hollow/package.json",
     manifestFile (manifest "hollow" "1.0.0" None None));
    ("https://unpkg.com/hollow/?meta",
     listingFile
       (directory_node
          (Some [("a.js", file_node None); ("empty.js", file_node (Some 0%Z))])));
    ("https://unpkg.com/hollow/a.js", textFile "export const a = 1;");
    ("https://unpkg.com/hollow/empty.js", textFile "") ].

Definition hollowFiles : gmap string string :=
  <["empty.js" := ""]> (<["a.js" := "export const a = 1;"]> ∅).

Definition scriptFile (p : string) : CDNFile :=
  {| path := p; file_size := 0; type := file |}.


Definition threeFiles : gmap string string :=
  <["a.js" := "export const a = 1;"]>
    (<["b.js" := "@ export const"]>
       (<["c.mjs" := "export const c = 3;"]> (<["README.md" := "# three"]> ∅))).

Definition libInfo : CDNPackageInfo :=
  {| info_name := "lib"; info_version := "1.0.0";
     info_files := [scriptFile "src/a.js"];
     info_dependencies := None; info_peerDependencies := None;
     info_main := None; info_module := None;
     info_type := None; info_sideEffects := None |}.

Definition libFiles : gmap string string :=
  <["src/a.js" := "export const a = 1;"]> ∅.

Definition bundled (code : string) : BundleResult :=
  {| bundle_code := code;
     bundle_size := WasmBundler.byteLength code;
     bundle_gzipSize := WasmBundler.estimateGzipSize code;
     bundle_assets := [("main", WasmBundler.byteLength code, "js")] |}.

Definition minified (code : string) : MinifyResult :=
  {| minified_code := code;
     minified_size := WasmBundler.byteLength code;
     minified_gzipSize := WasmBundler.estimateGzipSize code |}.

(** A bundle of 45 bytes. *)
Definition code45 : string := "export const answer = 42; export default 1;;;".

(** Package [dup]: a listing in which a directory entry and a sibling
    whose name holds a slash flatten to the same path. *)
Definition dup : list (string * Response) :=
  [ ("https://unpkg.com/dup/package.json",
     manifestFile (manifest "dup" "1.0.0" None None));
    ("https://unpkg.com/dup/?meta",
     listingFile
       (directory_node
          (Some [("a", directory_node (Some [("x.js", file_node None)]));
                 ("a/x.js", file_node None);
                 ("b.js", file_node None)])));
    ("https://unpkg.com/dup/a/x.js", textFile "export const x = 1;") ].

(** The same world with an engine that fails to initialize. *)
Definition withFailingEngine (e : Env) : Env :=
  {| fetch_response := fetch_response e;
     esbuild_initialize := λ _, Some (Error "WebAssembly is not available");
     esbuild_build := esbuild_build e;
     esbuild_transform := esbuild_transform e;
     terser_minify := terser_minify e;
     CompressionStream := CompressionStream e;
     elapsed_import := elapsed_import e;
     Worker_defined := Worker_defined e;
     SharedArrayBuffer_defined := SharedArrayBuffer_defined e;
     crossOriginIsolated := crossOriginIsolated e;
     WebContainer_boot := WebContainer_boot e;
     npm_install_exit := npm_install_exit e;
     webcontainer_fs_readFile := webcontainer_fs_readFile e;
     JSON_parse := JSON_parse e;
     JSON_stringify := JSON_stringify e |}.

(** The manifest of [chalk], as the sandbox reads it after the install. *)
Definition chalk : PackageJson :=
  {| pj_name := "chalk"; pj_version := "5.3.0";
     pj_dependencies := None; pj_peerDependencies := None;
     pj_main := Some "./source/index.js"; pj_module := None; pj_jsnext_main := None;
     pj_type := Some module_type; pj_sideEffects := Some (sideEffects_bool false) |}.

(** The same world in a browser where the sandbox boots: [npm install]
    exits with [exit], and every installed manifest is that of [chalk]. *)
Definition withSandbox (exit : Z) (e : Env) : Env :=
  {| fetch_response := fetch_response e;
     esbuild_initialize := esbuild_initialize e;
     esbuild_build := esbuild_build e;
     esbuild_transform := esbuild_transform e;
     terser_minify := terser_minify e;
     CompressionStream := CompressionStream e;
     elapsed_import := elapsed_import e;
     Worker_defined := true;
     SharedArrayBuffer_defined := true;
     crossOriginIsolated := true;
     WebContainer_boot := None;
     npm_install_exit := λ _, exit;
     webcontainer_fs_readFile := λ _, Returned "{ chalk }";
     JSON_parse := λ _, Returned chalk;
     JSON_stringify := JSON_stringify e |}.

End Scenario.

(** * Properties *)

(** ** The embedding at work *)

Example split_join :
  Js.split "/" "a//b" = ["a"; ""; "b"]
  ∧ Js.split "/" "" = [""]
  ∧ Js.join "/" ["a"; ""; "b"] = "a//b"
  ∧ Js.endsWith "lib/a.mjs" ".js" = false
  ∧ Js.endsWith "lib/a.mjs" ".mjs" = true.
Proof. repeat split; reflexivity. Qed.

Example resolvePath_normalizes :
  Resolver.resolvePath "src/core" "../utils/./a" = "src/utils/a"
  ∧ Resolver.resolvePath "" "../../a" = "a"
  ∧ Resolver.resolvePath "/src//core/" "./b" = "src/core/b"
  ∧ Resolver.importerDir "src/core/main.js" = "src/core"
  ∧ Resolver.importerDir "main.js" = "".
Proof. repeat split; reflexivity. Qed.

Example resolveImport_probes :
  let files : gmap string string :=
    <["src/lib/index.js" := "x"]> (<["src/lib.ts" := "y"]>
      (<["node_modules/dep/index.js" := "z"]> ∅)) in
  Resolver.resolveImport "./lib" "src/main.js" files = Some "src/lib.ts"
  ∧ Resolver.resolveImport "./lib/index" "src/main.js" files = Some "src/lib/index.js"
  ∧ Resolver.resolveImport "../gone" "src/main.js" files = None
  ∧ Resolver.resolveImport "dep" "src/main.js" files = Some "node_modules/dep/index.js".
Proof. repeat split; vm_compute; reflexivity. Qed.

Example parseUnpkgListing_flattens :
  CDNPackageManager.parseUnpkgListing
    (directory_node
       (Some [ ("index.js", file_node (Some 10%Z));
               ("lib", directory_node (Some [("a.js", file_node (Some 5%Z))])) ]))
  = [ {| path := "index.js"; file_size := 10; type := file |};
      {| path := "lib/a.js"; file_size := 5; type := file |} ].
Proof. reflexivity. Qed.

Example getLoader_by_extension :
  WasmBundler.getLoader "src/a.TS" = loader_ts
  ∧ WasmBundler.getLoader "style.css" = loader_css
  ∧ WasmBundler.getLoader "data.json" = loader_json
  ∧ WasmBundler.getLoader "LICENSE" = loader_js.
Proof. repeat split; reflexivity. Qed.

(** ** Strings and lookups *)

Lemma string_app_empty_r (s : string) : s +:+ "" = s.
Proof.
  induction s as [|c s IH]; [reflexivity |].
  change (String c (s +:+ "") = String c s). now f_equal.
Qed.

Lemma has_true (m : gmap string string) (k : string) :
  Js.has m k = true ↔ is_Some (m !! k).
Proof. unfold Js.has. apply bool_decide_eq_true. Qed.

Lemma has_false (m : gmap string string) (k : string) :
  Js.has m k = false ↔ m !! k = None.
Proof.
  unfold Js.has. rewrite bool_decide_eq_false, <- eq_None_not_Some. tauto.
Qed.

(** A specifier that starts with [./] or [../] starts with a dot. *)
Lemma relative_starts_with_dot (s : string) :
  Js.startsWith s "./" = true ∨ Js.startsWith s "../" = true →
  Js.startsWith s "." = true.
Proof.
  unfold Js.startsWith.
  destruct s as [|c s]; cbn [String.prefix]; [intros [H | H]; discriminate |].
  destruct (ascii_dec "." c) as [_ | Hne]; [now destruct s |].
  intros [H | H]; discriminate.
Qed.

(** ** ModuleResolver *)

Section FirstPresent.
Variable files : gmap string string.

(** The loop returns a candidate exactly when it is the first one, in
    the order of the list, that is a key of the file set. *)
Lemma firstPresent_Some (candidates : list string) (c : string) :
  Resolver.firstPresent files candidates = Some c ↔
  ∃ i, candidates !! i = Some c ∧ is_Some (files !! c) ∧
       ∀ j c', j < i → candidates !! j = Some c' → files !! c' = None.
Proof.
  induction candidates as [|x rest IH]; simpl.
  - split; [discriminate | intros (i & Hi & _); now rewrite lookup_nil in Hi].
  - destruct (Js.has files x) eqn:Hx.
    + apply has_true in Hx. split.
      * intros [= <-]. exists 0. repeat split; [assumption | lia].
      * intros (i & Hi & Hc & Hfirst). destruct i as [|i].
        -- simpl in Hi. congruence.
        -- specialize (Hfirst 0 x ltac:(lia) eq_refl).
           rewrite Hfirst in Hx. now destruct Hx.
    + apply has_false in Hx. rewrite IH. split.
      * intros (i & Hi & Hc & Hfirst). exists (S i). repeat split; try assumption.
        intros [|j] c' Hj Hc'; simpl in Hc'; [congruence |].
        apply (Hfirst j); [lia | assumption].
      * intros (i & Hi & Hc & Hfirst). destruct i as [|i].
        -- simpl in Hi. injection Hi as ->. rewrite Hx in Hc. now destruct Hc.
        -- exists i. repeat split; try assumption.
           intros j c' Hj Hc'. apply (Hfirst (S j)); [lia | assumption].
Qed.

Lemma firstPresent_None (candidates : list string) :
  Resolver.firstPresent files candidates = None ↔
  ∀ c, c ∈ candidates → files !! c = None.
Proof.
  induction candidates as [|x rest IH]; simpl.
  - split; [intros _ c Hc; inversion Hc | reflexivity].
  - destruct (Js.has files x) eqn:Hx.
    + apply has_true in Hx. split; [discriminate |].
      intros H. rewrite (H x) in Hx by left. now destruct Hx.
    + apply has_false in Hx. rewrite IH. split.
      * intros H c Hc. apply elem_of_cons in Hc as [-> | Hc]; auto.
      * intros H c Hc. apply H. now right.
Qed.
End FirstPresent.

(** ** Runs *)

Lemma log_extend (ev : Event) (w : World) : log ev w = extend [ev] w.
Proof. reflexivity. Qed.

Lemma extend_nil (w : World) : extend [] w = w.
Proof. destruct w. unfold extend. simpl. now rewrite app_nil_r. Qed.

Lemma extend_extend (a b : list Event) (w : World) :
  extend b (extend a w) = extend (a ++ b) w.
Proof. unfold extend. simpl. now rewrite app_assoc. Qed.

Lemma trace_extend (evs : list Event) (w : World) :
  trace (extend evs w) = trace w ++ evs.
Proof. reflexivity. Qed.

(** ** Coroutines *)

Lemma Task_induction {A} (P : Task A → Prop) :
  (∀ o, P (settled o)) →
  (∀ resume, (∀ w, P (fst (resume w))) → P (awaiting resume)) →
  ∀ t, P t.
Proof.
  intros Hsettled Hawaiting. fix IH 1. intros [o | resume].
  - apply Hsettled.
  - apply Hawaiting. intros w. apply IH.
Qed.

(** A task that is followed by [k] and runs alone: the task runs to its
    end, then [k]. *)
Lemma complete_andThen {A B} (t : Task A) (k : Outcome A → Async B) (w : World) :
  run (andThen t k) w = let (o, w') := complete t w in run (k o) w'.
Proof.
  revert w. induction t as [o | resume IH] using Task_induction; intros w.
  - reflexivity.
  - unfold run. cbn [andThen complete]. specialize (IH w).
    destruct (resume w) as [t' w']. apply IH.
Qed.

Lemma run_ret {A} (a : A) (w : World) : run (Async.ret a) w = ret a w.
Proof. reflexivity. Qed.

Lemma run_throw {A} (e : JsError) (w : World) : run (@Async.throw A e) w = throw e w.
Proof. reflexivity. Qed.

Lemma run_lift {A} (m : M A) (w : World) : run (Async.lift m) w = m w.
Proof. unfold run, Async.lift. now destruct (m w). Qed.

Lemma run_bind {A B} (m : Async A) (k : A → Async B) (w : World) :
  run (Async.bind m k) w = bind (run m) (λ a, run (k a)) w.
Proof.
  unfold Async.bind, bind. unfold run at 1 2.
  destruct (m w) as [t w1].
  change (run (andThen t (λ o, match o with
                               | Returned a => k a
                               | Thrown e => Async.throw e
                               end)) w1 =
          match complete t w1 with
          | (Returned a, w') => run (k a) w'
          | (Thrown e, w') => (Thrown e, w')
          end).
  rewrite complete_andThen. now destruct (complete t w1) as [[a | e] w'].
Qed.

Lemma run_tryCatch {A} (m : Async A) (handler : JsError → Async A) (w : World) :
  run (Async.tryCatch m handler) w = tryCatch (run m) (λ e, run (handler e)) w.
Proof.
  unfold Async.tryCatch, tryCatch. unfold run at 1 2.
  destruct (m w) as [t w1].
  change (run (andThen t (λ o, match o with
                               | Returned a => Async.ret a
                               | Thrown e => handler e
                               end)) w1 =
          match complete t w1 with
          | (Returned a, w') => (Returned a, w')
          | (Thrown e, w') => run (handler e) w'
          end).
  rewrite complete_andThen. now destruct (complete t w1) as [[a | e] w'].
Qed.

Lemma run_await {A} (m : Async A) (w : World) : run (Async.await m) w = run m w.
Proof.
  unfold Async.await. unfold run at 1 2.
  destruct (m w) as [t w1].
  change (run (andThen t (λ o w2, (awaiting (λ w3, (settled o, w3)), w2))) w1 =
          complete t w1).
  rewrite complete_andThen. now destruct (complete t w1).
Qed.

Lemma bind_ext {A B} (m m' : M A) (k k' : A → M B) (w : World) :
  m w = m' w → (∀ a w', k a w' = k' a w') → bind m k w = bind m' k' w.
Proof.
  intros Hm Hk. unfold bind. rewrite Hm.
  destruct (m' w) as [[a | e] w']; [apply Hk | reflexivity].
Qed.

Lemma tryCatch_ext {A} (m m' : M A) (h h' : JsError → M A) (w : World) :
  m w = m' w → (∀ e w', h e w' = h' e w') → tryCatch m h w = tryCatch m' h' w.
Proof.
  intros Hm Hh. unfold tryCatch. rewrite Hm.
  destruct (m' w) as [[a | e] w']; [reflexivity | apply Hh].
Qed.

(** Moves [run] to the leaves of a coroutine. *)
Ltac run_async :=
  repeat first
    [ reflexivity
    | rewrite run_await
    | rewrite run_lift
    | rewrite run_ret
    | rewrite run_throw
    | rewrite run_bind; apply bind_ext; [| intros ? ?]
    | rewrite run_tryCatch; apply tryCatch_ext; [| intros ? ?]
    | match goal with
      | |- run (if ?b then _ else _) _ = _ => destruct b
      | |- run (match ?x with _ => _ end) _ = _ => destruct x
      end ].

Section BundlerRuns.
Variable env : Env.

(** The methods of the bundler in [M]. *)
Lemma initialize_unfold (w : World) :
  WasmBundler.initialize env w =
  (let! initialized := gets bundler_isInitialized in
   if initialized then ret tt
   else
     tryCatch
       (do! WasmBundler.Concurrent.esbuild_initialize_promise env in
        modify (set_bundler_isInitialized true))
       (λ error,
          do! emit (console_error "Failed to initialize ESBuild WASM:" error) in
          throw (Error "ESBuild WASM initialization failed"))) w.
Proof. unfold WasmBundler.initialize, WasmBundler.Concurrent.initialize. run_async. Qed.

Lemma calculateGzipSize_unfold (content : string) (w : World) :
  WasmBundler.calculateGzipSize env content w =
  match CompressionStream env with
  | Some gzip =>
      ret (foldl (λ acc chunk, (acc + Z.of_nat (length chunk))%Z) 0%Z (gzip content)) w
  | None => ret (WasmBundler.estimateGzipSize content) w
  end.
Proof.
  unfold WasmBundler.calculateGzipSize, WasmBundler.Concurrent.calculateGzipSize.
  now destruct (CompressionStream env).
Qed.

Lemma bundle_unfold (entryPoint : string) (files : gmap string string) (w : World) :
  WasmBundler.bundle env entryPoint files w =
  (let! initialized := gets bundler_isInitialized in
   do! (if negb initialized then WasmBundler.initialize env else ret tt) in
   tryCatch
     (let! result := WasmBundler.Concurrent.esbuild_build_promise env entryPoint files in
      if (0 <? length (fst result))%nat then
        throw (Error ("Build errors: " +:+ Js.join ", " (fst result)))
      else
        match snd result with
        | [] => throw (TypeError "Cannot read properties of undefined (reading 'text')")
        | code :: _ =>
            let! gzipSize := WasmBundler.calculateGzipSize env code in
            ret {| bundle_code := code;
                   bundle_size := WasmBundler.byteLength code;
                   bundle_gzipSize := gzipSize;
                   bundle_assets := [("main", WasmBundler.byteLength code, "js")] |}
        end)
     (λ error, throw (Error ("Bundling failed: " +:+ errorToString error)))) w.
Proof.
  unfold WasmBundler.bundle, WasmBundler.Concurrent.bundle,
    WasmBundler.Concurrent.build.
  run_async.
Qed.

Lemma minifyCode_unfold (code : string) (minifier : option Minifier) (w : World) :
  WasmBundler.minifyCode env code minifier w =
  (let! minifiedCode :=
     match default esbuild minifier with
     | esbuild => WasmBundler.Concurrent.esbuild_transform_promise env code
     | terser =>
         let! result := WasmBundler.Concurrent.terser_minify_promise env code in
         ret (Js.orElse result code)
     end in
   let! gzipSize := WasmBundler.calculateGzipSize env minifiedCode in
   ret {| minified_code := minifiedCode;
          minified_size := WasmBundler.byteLength minifiedCode;
          minified_gzipSize := gzipSize |}) w.
Proof. unfold WasmBundler.minifyCode, WasmBundler.Concurrent.minifyCode. run_async. Qed.

Lemma dispose_unfold (w : World) :
  WasmBundler.dispose w = modify (set_bundler_isInitialized false) w.
Proof. reflexivity. Qed.

(** An initialized bundler is left alone. *)
Lemma initialize_initialized (w : World) :
  bundler_isInitialized w = true → WasmBundler.initialize env w = (Returned tt, w).
Proof.
  intros Hflag. rewrite initialize_unfold. unfold bind, gets. now rewrite Hflag.
Qed.
End BundlerRuns.

(** ** PackageSource *)

Section PackageSource.
Variable env : Env.
Variable defaultCDN : CDN.

(** A content fetch issues one GET request, and returns the body exactly
    when the file is fetchable at that moment. *)
Lemma getFileContent_run (packageName filePath : string) (version : option string)
    (w : World) :
  ∃ o, CDNPackageManager.getFileContent env defaultCDN packageName filePath version w =
         (o, extend (contentRequests defaultCDN packageName version [filePath]) w)
       ∧ (fetchable env defaultCDN packageName version (trace w) filePath = true →
          ∃ content, o = Returned content)
       ∧ (fetchable env defaultCDN packageName version (trace w) filePath = false →
          ∃ e, o = Thrown e).
Proof.
  unfold CDNPackageManager.getFileContent, fetchable, bind, fetch, contentRequests.
  simpl map. rewrite <- log_extend.
  destruct (fetch_response env (trace w) GET _) as [e | r].
  - eexists. split; [reflexivity |]. split; [discriminate | eauto].
  - destruct (ok r); simpl.
    + eexists. split; [reflexivity |]. split; [eauto | discriminate].
    + eexists. split; [reflexivity |]. split; [discriminate | eauto].
Qed.

Section TryEntryPoints.
Variable packageName : string.

Let requests := contentRequests defaultCDN packageName None.
Let fetchableAt := fetchable env defaultCDN packageName None.

Lemma tryEntryPoints_fail (c : string) (rest : list string) (w : World) :
  fetchableAt (trace w) c = false →
  CDNPackageManager.tryEntryPoints env defaultCDN packageName (c :: rest) w =
  CDNPackageManager.tryEntryPoints env defaultCDN packageName rest (extend (requests [c]) w).
Proof.
  intros Hc. cbn [CDNPackageManager.tryEntryPoints]. unfold tryCatch, bind.
  destruct (getFileContent_run packageName c None w) as (o & -> & _ & Hfail).
  destruct (Hfail Hc) as [e ->]. reflexivity.
Qed.

Lemma tryEntryPoints_succeed (c : string) (rest : list string) (w : World) :
  fetchableAt (trace w) c = true →
  CDNPackageManager.tryEntryPoints env defaultCDN packageName (c :: rest) w =
  (Returned (Some c), extend (requests [c]) w).
Proof.
  intros Hc. cbn [CDNPackageManager.tryEntryPoints]. unfold tryCatch, bind.
  destruct (getFileContent_run packageName c None w) as (o & -> & Hok & _).
  destruct (Hok Hc) as [content ->]. reflexivity.
Qed.

(** The loop returns the first candidate whose fetch succeeds, having
    requested the candidates before it and no other. *)
Lemma tryEntryPoints_first (tried : list string) (c : string) (rest : list string) :
  ∀ w,
  (∀ i c', tried !! i = Some c' →
           fetchableAt (trace w ++ requests (take i tried)) c' = false) →
  fetchableAt (trace w ++ requests tried) c = true →
  CDNPackageManager.tryEntryPoints env defaultCDN packageName (tried ++ c :: rest) w =
  (Returned (Some c), extend (requests (tried ++ [c])) w).
Proof.
  induction tried as [|x tried IH]; intros w Hfail Hok.
  - simpl in Hok. rewrite app_nil_r in Hok. now apply tryEntryPoints_succeed.
  - rewrite <- app_comm_cons, tryEntryPoints_fail.
    + rewrite IH.
      * now rewrite extend_extend.
      * intros i c' Hi. rewrite trace_extend, <- app_assoc.
        exact (Hfail (S i) c' Hi).
      * rewrite trace_extend, <- app_assoc. exact Hok.
    + specialize (Hfail 0 x eq_refl). simpl in Hfail.
      now rewrite app_nil_r in Hfail.
Qed.

Lemma tryEntryPoints_none (candidates : list string) :
  ∀ w,
  (∀ i c', candidates !! i = Some c' →
           fetchableAt (trace w ++ requests (take i candidates)) c' = false) →
  CDNPackageManager.tryEntryPoints env defaultCDN packageName candidates w =
  (Returned None, extend (requests candidates) w).
Proof.
  induction candidates as [|x candidates IH]; intros w Hfail.
  - simpl. unfold ret. now rewrite extend_nil.
  - rewrite tryEntryPoints_fail.
    + rewrite IH.
      * now rewrite extend_extend.
      * intros i c' Hi. rewrite trace_extend, <- app_assoc.
        exact (Hfail (S i) c' Hi).
    + specialize (Hfail 0 x eq_refl). simpl in Hfail.
      now rewrite app_nil_r in Hfail.
Qed.

(** Whatever the network answers, the loop ends, and its requests are
    content requests for a prefix of the candidates. *)
Lemma tryEntryPoints_requests (candidates : list string) :
  ∀ w, ∃ tried rest r,
    candidates = tried ++ rest ∧
    CDNPackageManager.tryEntryPoints env defaultCDN packageName candidates w =
    (Returned r, extend (requests tried) w).
Proof.
  induction candidates as [|x candidates IH]; intros w.
  - exists [], [], None. split; [reflexivity |]. simpl. unfold ret.
    now rewrite extend_nil.
  - destruct (fetchableAt (trace w) x) eqn:Hx.
    + exists [x], candidates, (Some x). split; [reflexivity |].
      now apply tryEntryPoints_succeed.
    + rewrite tryEntryPoints_fail by exact Hx.
      destruct (IH (extend (requests [x]) w)) as (tried & rest & r & -> & ->).
      exists (x :: tried), rest, r. split; [reflexivity |].
      now rewrite extend_extend.
Qed.

End TryEntryPoints.

End PackageSource.

(** C6. [resolveMainFile] tries, in this order, the [module] field, the
    [main] field, then [index.js], [index.mjs], [dist/index.js] and
    [lib/index.js]; for each candidate it issues a content request (a GET),
    and it returns the first candidate whose fetch succeeds, or none when
    every fetch fails. With [module] = [esm/index.js] and [main] =
    [index.js] it returns [esm/index.js] when that is fetchable, and goes
    on to [main] when it is not. *)
Theorem resolveMainFile_first_fetchable (env : Env) (defaultCDN : CDN)
    (packageInfo : CDNPackageInfo) (w : World) :
  let name := info_name packageInfo in
  let candidates := CDNPackageManager.entryPoints packageInfo in
  let requests := contentRequests defaultCDN name None in
  let fetchableAt := fetchable env defaultCDN name None in
  let run := CDNPackageManager.resolveMainFile env defaultCDN packageInfo w in
  candidates =
    Js.filterBoolean [ info_module packageInfo; info_main packageInfo;
                       Some "index.js"; Some "index.mjs";
                       Some "dist/index.js"; Some "lib/index.js" ]
  ∧ (∀ tried c rest,
       candidates = tried ++ c :: rest →
       (∀ i c', tried !! i = Some c' →
                fetchableAt (trace w ++ requests (take i tried)) c' = false) →
       fetchableAt (trace w ++ requests tried) c = true →
       run = (Returned (Some c), extend (requests (tried ++ [c])) w))
  ∧ ((∀ i c', candidates !! i = Some c' →
              fetchableAt (trace w ++ requests (take i candidates)) c' = false) →
     run = (Returned None, extend (requests candidates) w))
  ∧ (info_module packageInfo = Some "esm/index.js" →
     info_main packageInfo = Some "index.js" →
     (fetchableAt (trace w) "esm/index.js" = true →
      fst run = Returned (Some "esm/index.js"))
     ∧ (fetchableAt (trace w) "esm/index.js" = false →
        fetchableAt (trace w ++ requests ["esm/index.js"]) "index.js" = true →
        fst run = Returned (Some "index.js"))).
Proof.
  intros name candidates requests fetchableAt run.
  split; [reflexivity |]. split; [| split].
  - intros tried c rest Hsplit Hfail Hok.
    unfold run, CDNPackageManager.resolveMainFile. fold name candidates.
    rewrite Hsplit. now apply tryEntryPoints_first.
  - intros Hfail. now apply tryEntryPoints_none.
  - intros Hmodule Hmain.
    assert (Hcands : candidates =
              ["esm/index.js"; "index.js"; "index.js"; "index.mjs";
               "dist/index.js"; "lib/index.js"]).
    { unfold candidates, CDNPackageManager.entryPoints.
      now rewrite Hmodule, Hmain. }
    unfold run, CDNPackageManager.resolveMainFile. fold name candidates.
    rewrite Hcands. split.
    + intros Hesm.
      refine (f_equal fst
                (tryEntryPoints_first env defaultCDN name [] "esm/index.js" _ w _ _)).
      * intros i c' Hi. now rewrite lookup_nil in Hi.
      * simpl. now rewrite app_nil_r.
    + intros Hesm Hmainok.
      refine (f_equal fst
                (tryEntryPoints_first env defaultCDN name ["esm/index.js"] "index.js"
                   _ w _ Hmainok)).
      intros [|i] c' Hi; [| now destruct i].
      injection Hi as <-. simpl. now rewrite app_nil_r.
Qed.

Lemma resolveMainFile_first_fetchable_witness :
  fst (CDNPackageManager.resolveMainFile (Scenario.world Scenario.pkg) unpkg
         Scenario.pkg_1_0_0 Scenario.start)
  = Returned (Some "index.js").
Proof.
  refine (proj2 (proj2 (proj2 (proj2
            (resolveMainFile_first_fetchable (Scenario.world Scenario.pkg) unpkg
               Scenario.pkg_1_0_0 Scenario.start))) eq_refl eq_refl) _ _);
    reflexivity.
Defined.

(** The descriptor of [pkg] at 1.0.0 names [esm/index.js], which that
    version ships; the entry point is looked for in the latest version,
    which does not. *)
Example resolveMainFile_pkg_1_0_0 :
  CDNPackageManager.resolveMainFile (Scenario.world Scenario.pkg) unpkg
    Scenario.pkg_1_0_0 Scenario.start =
  (Returned (Some "index.js"),
   extend [ fetch_call GET "https://unpkg.com/pkg/esm/index.js";
            fetch_call GET "https://unpkg.com/pkg/index.js" ] Scenario.start)
  ∧ fst (CDNPackageManager.getPackageInfo (Scenario.world Scenario.pkg) unpkg
           "pkg" (Some "1.0.0") Scenario.start) = Returned Scenario.pkg_1_0_0.
Proof. split; reflexivity. Qed.

(** ** VirtualFileSet construction *)

Section Download.
Variable env : Env.
Variable defaultCDN : CDN.
Variable packageName : string.
Variable version : option string.

Let download := CDNPackageManager.downloadFile env defaultCDN packageName version.
Let fetchableAt := fetchable env defaultCDN packageName version.
Let failedJob (job : CDNFile * World) : Prop :=
  fetchableAt (trace (snd job)) (path (fst job)) = false.

(** A callback never rejects: it adds the fetched content under the
    file's path, or leaves the shared map alone. *)
Lemma downloadFile_run (acc : gmap string string) (f : CDNFile) (w : World) :
  (fetchableAt (trace w) (path f) = true →
   ∃ content w', download acc f w = (Returned (<[path f := content]> acc), w'))
  ∧ (fetchableAt (trace w) (path f) = false →
     ∃ w', download acc f w = (Returned acc, w')).
Proof.
  unfold download, CDNPackageManager.downloadFile, tryCatch, bind.
  destruct (getFileContent_run env defaultCDN packageName (path f) version w)
    as (o & -> & Hok & Hfail).
  split; intros H.
  - destruct (Hok H) as [content ->]. now eexists _, _.
  - destruct (Hfail H) as [e ->]. now eexists.
Qed.

Lemma downloads_run (entries : list CDNFile) :
  ∀ (acc : gmap string string) (w : World),
  let failed := filter failedJob (starts download acc entries w) in
  ∃ files w',
    foldM download acc entries w = (Returned files, w')
    ∧ (∀ p : string, is_Some (files !! p) → is_Some (acc !! p) ∨ p ∈ (path <$> entries))
    ∧ (failed = [] → dom files = dom acc ∪ list_to_set (path <$> entries))
    ∧ (NoDup (path <$> entries) →
       (∀ p : string, p ∈ (path <$> entries) → acc !! p = None) →
       size files + length failed = size acc + length entries).
Proof.
  induction entries as [|f rest IH]; intros acc w; cbn zeta.
  - exists acc, w. split; [reflexivity |]. split; [auto |].
    split; [intros _; set_solver |]. intros _ _. simpl. lia.
  - cbn [foldM starts]. unfold bind at 1.
    destruct (downloadFile_run acc f w) as [Hok Hfail].
    destruct (fetchableAt (trace w) (path f)) eqn:Hf.
    + destruct (Hok eq_refl) as (content & w1 & Hrun). rewrite Hrun.
      destruct (IH (<[path f := content]> acc) w1)
        as (files & w' & -> & Hincl & Hall & Hsize).
      exists files, w'. split; [reflexivity |].
      rewrite filter_cons_False
        by (unfold failedJob; simpl; rewrite Hf; discriminate).
      split; [| split].
      * intros p Hp. destruct (Hincl p Hp) as [Hacc | Hrest].
        -- destruct (decide (path f = p)) as [<- | Hne].
           ++ right. rewrite fmap_cons. left.
           ++ left. now rewrite lookup_insert_ne in Hacc.
        -- right. rewrite fmap_cons. now right.
      * intros Hnone. rewrite (Hall Hnone), dom_insert_L, fmap_cons.
        set_solver.
      * intros Hnodup Hfresh. rewrite fmap_cons in Hnodup.
        apply NoDup_cons in Hnodup as [Hnotin Hnodup].
        rewrite Hsize.
        -- rewrite map_size_insert_None; [simpl; lia |].
           apply Hfresh. rewrite fmap_cons. left.
        -- exact Hnodup.
        -- intros p Hp. rewrite lookup_insert_ne by (intros <-; contradiction).
           apply Hfresh. rewrite fmap_cons. now right.
    + destruct (Hfail eq_refl) as (w1 & Hrun). rewrite Hrun.
      destruct (IH acc w1) as (files & w' & -> & Hincl & Hall & Hsize).
      exists files, w'. split; [reflexivity |].
      rewrite filter_cons_True by (unfold failedJob; simpl; exact Hf).
      split; [| split].
      * intros p Hp. destruct (Hincl p Hp) as [Hacc | Hrest]; [now left |].
        right. rewrite fmap_cons. now right.
      * discriminate.
      * intros Hnodup Hfresh. rewrite fmap_cons in Hnodup.
        apply NoDup_cons in Hnodup as [Hnotin Hnodup].
        specialize (Hsize Hnodup).
        rewrite length_cons. simpl length.
        assert (size files + length (filter failedJob (starts download acc rest w1)) =
                size acc + length rest) as Heq.
        { apply Hsize. intros p Hp. apply Hfresh. rewrite fmap_cons. now right. }
        lia.
Qed.
End Download.

(** C5, as the code has it. Once the descriptor is fetched,
    [downloadPackage] always returns; every key of the map it returns is
    the path of a file-kind entry of the listing; when no content fetch
    fails the keys are exactly those paths; and when the paths of the
    file-kind entries are pairwise distinct, the map has one entry less
    than there are file-kind entries for every fetch that fails, so N - 1
    entries when exactly one of N fetches fails. *)
Theorem downloadPackage_keys (env : Env) (defaultCDN : CDN) (packageName : string)
    (version : option string) (w w1 : World) (packageInfo : CDNPackageInfo) :
  let v := Some (default "latest" version) in
  CDNPackageManager.getPackageInfo env defaultCDN packageName v w
    = (Returned packageInfo, w1) →
  let entries := filter (λ f, type f = file) (info_files packageInfo) in
  let failed := failedDownloads env defaultCDN packageName v entries w1 in
  ∃ files w2,
    CDNPackageManager.downloadPackage env defaultCDN packageName version w
      = (Returned files, w2)
    ∧ (∀ p : string, is_Some (files !! p) → p ∈ (path <$> entries))
    ∧ (failed = [] → dom files = list_to_set (path <$> entries))
    ∧ (NoDup (path <$> entries) →
       size files = length entries - length failed
       ∧ (length failed = 1 → size files = length entries - 1)).
Proof.
  intros v Hinfo entries failed.
  destruct (downloads_run env defaultCDN packageName v entries ∅ w1)
    as (files & w2 & Hrun & Hincl & Hall & Hsize).
  exists files, w2. split; [| split; [| split]].
  - unfold CDNPackageManager.downloadPackage, bind. fold v. now rewrite Hinfo.
  - intros p Hp. destruct (Hincl p Hp) as [Hempty | Hin]; [| exact Hin].
    rewrite lookup_empty in Hempty. now destruct Hempty.
  - intros Hnone. rewrite (Hall Hnone), dom_empty_L. apply (left_id_L ∅ (∪)).
  - intros Hnodup.
    assert (size files + length failed = length entries) as Heq.
    { unfold failed, failedDownloads. rewrite (Hsize Hnodup).
      - now rewrite map_size_empty.
      - intros p _. apply lookup_empty. }
    split; [lia |]. intros Hone. lia.
Qed.

Lemma downloadPackage_keys_witness :
  ∃ files w2,
    CDNPackageManager.downloadPackage (Scenario.world Scenario.three) unpkg "three"
      None Scenario.start = (Returned files, w2)
    ∧ dom files = {["a.js"; "b.js"; "c.mjs"; "README.md"]}.
Proof.
  destruct (downloadPackage_keys (Scenario.world Scenario.three) unpkg "three" None
              Scenario.start _ _ eq_refl)
    as (files & w2 & Hrun & _ & Hall & _).
  exists files, w2. split; [exact Hrun |].
  rewrite (Hall eq_refl). vm_compute. reflexivity.
Defined.

(** C5 as stated fails on a listing that names one path twice: the three
    file-kind entries of [dup] flatten to [a/x.js], [a/x.js] and [b.js];
    exactly one of the three fetches fails, that of [b.js], and the map has
    one entry, not two. *)
Lemma downloadPackage_duplicate_paths :
  let env := Scenario.world Scenario.dup in
  ∃ packageInfo w1 files w2,
    CDNPackageManager.getPackageInfo env unpkg "dup" (Some "latest") Scenario.start
      = (Returned packageInfo, w1)
    ∧ path <$> filter (λ f, type f = file) (info_files packageInfo)
      = ["a/x.js"; "a/x.js"; "b.js"]
    ∧ fst <$> failedDownloads env unpkg "dup" (Some "latest")
                (filter (λ f, type f = file) (info_files packageInfo)) w1
      = [ {| path := "b.js"; file_size := 0; type := file |} ]
    ∧ CDNPackageManager.downloadPackage env unpkg "dup" None Scenario.start
      = (Returned files, w2)
    ∧ size files = 1
    ∧ size files ≠ 3 - 1.
Proof.
  cbn zeta. eexists _, _, _, _.
  split; [vm_compute; reflexivity |].
  split; [vm_compute; reflexivity |].
  split; [vm_compute; reflexivity |].
  split; [vm_compute; reflexivity |].
  split; [vm_compute; reflexivity |].
  vm_compute. discriminate.
Qed.

(** ** Bundler: minification *)

Lemma calculateGzipSize_returns (env : Env) (content : string) (w : World) :
  ∃ gzipSize, WasmBundler.calculateGzipSize env content w = (Returned gzipSize, w).
Proof.
  rewrite calculateGzipSize_unfold.
  destruct (CompressionStream env); eexists; reflexivity.
Qed.

(** C2, as the code has it. With the terser strategy, a minifier that
    yields no output (no [code], or an empty one) makes [minifyCode] return
    the original code unmodified. [minifyCode] has no handler: when the
    selected minifier throws, with either strategy, [minifyCode] throws the
    same error. *)
Theorem minifyCode_fallback (env : Env) (code : string) (w : World) :
  (∀ output,
     terser_minify env code = Returned output →
     output = None ∨ output = Some "" →
     ∃ minified,
       WasmBundler.minifyCode env code (Some terser) w =
         (Returned minified, log (terser_minify_call code) w)
       ∧ minified_code minified = code
       ∧ minified_size minified = WasmBundler.byteLength code)
  ∧ (∀ e,
       terser_minify env code = Thrown e →
       WasmBundler.minifyCode env code (Some terser) w =
         (Thrown e, log (terser_minify_call code) w))
  ∧ (∀ e minifier,
       esbuild_transform env code = Thrown e →
       minifier = None ∨ minifier = Some esbuild →
       WasmBundler.minifyCode env code minifier w =
         (Thrown e, log (esbuild_transform_call code) w)).
Proof.
  split; [| split].
  - intros output Hterser Hnone.
    assert (Js.orElse output code = code) as Hkept
      by (destruct Hnone as [-> | ->]; reflexivity).
    rewrite minifyCode_unfold.
    unfold WasmBundler.Concurrent.terser_minify_promise, bind, emit, liftOutcome, ret.
    change (default esbuild (Some terser)) with terser. cbv beta iota.
    rewrite Hterser, Hkept.
    destruct (calculateGzipSize_returns env code (log (terser_minify_call code) w))
      as [gzipSize ->].
    eexists. split; [reflexivity |]. split; reflexivity.
  - intros e Hterser. rewrite minifyCode_unfold.
    unfold WasmBundler.Concurrent.terser_minify_promise, bind, emit, liftOutcome.
    change (default esbuild (Some terser)) with terser. cbv beta iota.
    now rewrite Hterser.
  - intros e minifier Hesbuild Hminifier.
    assert (default esbuild minifier = esbuild) as Hdefault
      by (destruct Hminifier as [-> | ->]; reflexivity).
    rewrite minifyCode_unfold.
    unfold WasmBundler.Concurrent.esbuild_transform_promise, bind, emit, liftOutcome.
    rewrite Hdefault. cbv beta iota. now rewrite Hesbuild.
Qed.

Lemma minifyCode_fallback_witness :
  WasmBundler.minifyCode (Scenario.withFailingTerser (Scenario.world [])) "let a = 1;"
    (Some terser) Scenario.start =
  (Thrown (Error "Unexpected token"), log (terser_minify_call "let a = 1;") Scenario.start).
Proof.
  refine (proj1 (proj2 (minifyCode_fallback
                          (Scenario.withFailingTerser (Scenario.world []))
                          "let a = 1;" Scenario.start)) _ _).
  reflexivity.
Defined.

(** C2 as stated fails when the minifier throws: with a terser that
    rejects the code, [minifyCode] makes its one call to terser and throws
    the error of terser; it does not return the original code. *)
Lemma minifyCode_failure_propagates :
  let env := Scenario.withFailingTerser (Scenario.world Scenario.pkg) in
  terser_minify env "export {two};" = Thrown (Error "Unexpected token")
  ∧ WasmBundler.minifyCode env "export {two};" (Some terser) Scenario.start
    = (Thrown (Error "Unexpected token"),
       extend [terser_minify_call "export {two};"] Scenario.start).
Proof. split; vm_compute; reflexivity. Qed.

(** ** The calls of a computation *)

Section Emits.
Variable P : Event → Prop.

Lemma emits_ret {A} (a : A) : emits P (ret a).
Proof. intros w. exists []. split; [simpl; now rewrite app_nil_r | constructor]. Qed.

Lemma emits_throw {A} (e : JsError) : emits P (@throw A e).
Proof. intros w. exists []. split; [simpl; now rewrite app_nil_r | constructor]. Qed.

Lemma emits_gets {A} (f : World → A) : emits P (gets f).
Proof. intros w. exists []. split; [simpl; now rewrite app_nil_r | constructor]. Qed.

Lemma emits_liftOutcome {A} (o : Outcome A) : emits P (liftOutcome o).
Proof. intros w. exists []. split; [simpl; now rewrite app_nil_r | constructor]. Qed.

Lemma emits_modify (f : World → World) :
  (∀ w, trace (f w) = trace w) → emits P (modify f).
Proof.
  intros Hf w. exists []. split; [simpl; now rewrite Hf, app_nil_r | constructor].
Qed.

Lemma emits_emit (ev : Event) : P ev → emits P (emit ev).
Proof. intros Hev w. exists [ev]. split; [reflexivity | now repeat constructor]. Qed.

Lemma emits_fetch (env : Env) (method : Method) (url : string) :
  P (fetch_call method url) → emits P (fetch env method url).
Proof.
  intros Hev w. exists [fetch_call method url]. unfold fetch.
  split; [now destruct (fetch_response env (trace w) method url)
         | now repeat constructor].
Qed.

Lemma emits_bind {A B} (m : M A) (k : A → M B) :
  emits P m → (∀ a, emits P (k a)) → emits P (bind m k).
Proof.
  intros Hm Hk w. unfold bind.
  destruct (Hm w) as (evs & Htrace & Hevs).
  destruct (m w) as [[a | e] w']; simpl in Htrace.
  - destruct (Hk a w') as (evs' & Htrace' & Hevs').
    exists (evs ++ evs'). split.
    + now rewrite Htrace', Htrace, app_assoc.
    + now apply Forall_app.
  - now exists evs.
Qed.

Lemma emits_tryCatch {A} (m : M A) (handler : JsError → M A) :
  emits P m → (∀ e, emits P (handler e)) → emits P (tryCatch m handler).
Proof.
  intros Hm Hh w. unfold tryCatch.
  destruct (Hm w) as (evs & Htrace & Hevs).
  destruct (m w) as [[a | e] w']; simpl in Htrace.
  - now exists evs.
  - destruct (Hh e w') as (evs' & Htrace' & Hevs').
    exists (evs ++ evs'). split.
    + now rewrite Htrace', Htrace, app_assoc.
    + now apply Forall_app.
Qed.

Lemma emits_foldM {A B} (body : B → A → M B) (l : list A) :
  (∀ acc x, emits P (body acc x)) → ∀ acc, emits P (foldM body acc l).
Proof.
  intros Hbody. induction l as [|x rest IH]; intros acc; simpl.
  - apply emits_ret.
  - apply emits_bind; [apply Hbody | intros acc'; apply IH].
Qed.

Lemma emits_ext {A} (m m' : M A) :
  (∀ w, m w = m' w) → emits P m' → emits P m.
Proof. intros Heq Hm w. rewrite Heq. apply Hm. Qed.
End Emits.

(** One step of a proof that a method makes only calls of some kind. *)
Ltac emits_step :=
  lazymatch goal with
  | |- emits ?P (λ w, ?m w) => change (emits P m)
  | |- emits _ (bind _ _) => apply emits_bind; [| intros ?]
  | |- emits _ (tryCatch _ _) => apply emits_tryCatch; [| intros ?]
  | |- emits _ (ret _) => apply emits_ret
  | |- emits _ (throw _) => apply emits_throw
  | |- emits _ (gets _) => apply emits_gets
  | |- emits _ (liftOutcome _) => apply emits_liftOutcome
  | |- emits _ (modify _) => apply emits_modify; intros ?; reflexivity
  | |- emits _ (emit _) =>
      apply emits_emit; first [solve [simpl; congruence] | solve [auto]]
  | |- emits _ (fetch _ _ _) => apply emits_fetch; simpl; congruence
  | |- emits _ (foldM _ _ _) => apply emits_foldM; intros ? ?
  | |- emits _ (if ?b then _ else _) => destruct b
  | |- emits _ (match ?x with _ => _ end) => destruct x
  end.

(** ** The CDN strategy makes no call to the sandbox *)

Section CDNCalls.
Variable env : Env.
Variable defaultCDN : CDN.

Lemma getFileContent_emits (packageName filePath : string) (version : option string) :
  emits notSandbox
    (CDNPackageManager.getFileContent env defaultCDN packageName filePath version).
Proof. unfold CDNPackageManager.getFileContent, notSandbox. repeat emits_step. Qed.

Lemma discoverCommonFiles_emits (packageSpec : string) :
  emits notSandbox (CDNPackageManager.discoverCommonFiles env defaultCDN packageSpec).
Proof.
  unfold CDNPackageManager.discoverCommonFiles, CDNPackageManager.checkFile, notSandbox.
  repeat emits_step.
Qed.

Lemma getFileList_emits (packageSpec : string) :
  emits notSandbox (CDNPackageManager.getFileList env defaultCDN packageSpec).
Proof.
  unfold CDNPackageManager.getFileList.
  repeat first [apply discoverCommonFiles_emits | unfold notSandbox; emits_step].
Qed.

Lemma getPackageInfo_emits (packageName : string) (version : option string) :
  emits notSandbox
    (CDNPackageManager.getPackageInfo env defaultCDN packageName version).
Proof.
  unfold CDNPackageManager.getPackageInfo.
  repeat first [apply getFileList_emits | unfold notSandbox; emits_step].
Qed.

Lemma downloadPackage_emits (packageName : string) (version : option string) :
  emits notSandbox
    (CDNPackageManager.downloadPackage env defaultCDN packageName version).
Proof.
  unfold CDNPackageManager.downloadPackage, CDNPackageManager.downloadFile.
  repeat first [apply getPackageInfo_emits | apply getFileContent_emits
               | unfold notSandbox; emits_step].
Qed.

Lemma resolveMainFile_emits (packageInfo : CDNPackageInfo) :
  emits notSandbox (CDNPackageManager.resolveMainFile env defaultCDN packageInfo).
Proof.
  unfold CDNPackageManager.resolveMainFile.
  induction (CDNPackageManager.entryPoints packageInfo) as [|c rest IH]; simpl.
  - apply emits_ret.
  - repeat first [apply getFileContent_emits | exact IH | emits_step].
Qed.
End CDNCalls.

Section BundlerCalls.
Variable env : Env.
Variable P : Event → Prop.
Hypothesis P_engine : ∀ ev, engineCall ev = true → P ev.

Lemma bundler_initialize_emits : emits P (WasmBundler.initialize env).
Proof.
  eapply emits_ext; [intros w; apply initialize_unfold |].
  unfold WasmBundler.Concurrent.esbuild_initialize_promise. repeat emits_step.
Qed.

Lemma calculateGzipSize_emits (content : string) :
  emits P (WasmBundler.calculateGzipSize env content).
Proof.
  intros w. rewrite calculateGzipSize_unfold.
  destruct (CompressionStream env); apply emits_ret.
Qed.

Lemma bundle_emits (entryPoint : string) (files : gmap string string) :
  emits P (WasmBundler.bundle env entryPoint files).
Proof.
  eapply emits_ext; [intros w; apply bundle_unfold |].
  unfold WasmBundler.Concurrent.esbuild_build_promise.
  repeat first [apply bundler_initialize_emits | apply calculateGzipSize_emits
               | emits_step].
Qed.

Lemma minifyCode_emits (code : string) (minifier : option Minifier) :
  emits P (WasmBundler.minifyCode env code minifier).
Proof.
  eapply emits_ext; [intros w; apply minifyCode_unfold |].
  unfold WasmBundler.Concurrent.esbuild_transform_promise,
    WasmBundler.Concurrent.terser_minify_promise.
  repeat first [apply calculateGzipSize_emits | emits_step].
Qed.
End BundlerCalls.

Lemma engineCall_notSandbox (ev : Event) : engineCall ev = true → notSandbox ev.
Proof. now destruct ev. Qed.

Lemma engineCall_notWarning (ev : Event) : engineCall ev = true → notWarning ev.
Proof. now destruct ev. Qed.

Lemma analyzeWithCDN_emits (env : Env) (options : BrowserPackageAnalyzerOptions)
    (packageName : string) (version : option string) :
  emits notSandbox (BrowserPackageAnalyzer.analyzeWithCDN env options packageName version).
Proof.
  unfold BrowserPackageAnalyzer.analyzeWithCDN, BrowserPackageAnalyzer.calculateParseTime.
  repeat first [apply getPackageInfo_emits | apply downloadPackage_emits
               | apply resolveMainFile_emits
               | apply bundle_emits; exact engineCall_notSandbox
               | apply minifyCode_emits; exact engineCall_notSandbox
               | emits_step].
Qed.

(** ** Strategy selection *)

(** C3, as the code has it. Once the bundler is initialized,
    [analyzePackage] runs the sandbox strategy exactly when
    [useWebContainer] is set and [isSupported()] holds, and the CDN
    strategy otherwise. A failed capability check raises no error: the
    analysis then runs as if the sandbox had not been requested. The error
    of an unsupported sandbox is raised on the sandbox strategy, when
    booting the sandbox fails; an analysis on the CDN strategy makes no
    call to the sandbox. *)
Theorem analyzePackage_strategy (env : Env) (options : BrowserPackageAnalyzerOptions)
    (packageName : string) (version : option string) (w : World) :
  let requested := useWebContainer options in
  let supported := WebContainerManager.isSupported env in
  let unrequested :=
    {| minifier := minifier options; debug := debug options;
       customImports := customImports options;
       includeDependencySizes := includeDependencySizes options;
       cdn := cdn options; useWebContainer := false |} in
  let wrap (m : M PackageStats) :=
    tryCatch m (λ error,
      throw (Error ("Failed to analyze package " +:+ packageName +:+ ": "
                    +:+ errorToString error))) in
  (bundler_isInitialized w = true →
   BrowserPackageAnalyzer.analyzePackage env options packageName version w =
   if requested && supported
   then wrap (BrowserPackageAnalyzer.analyzeWithWebContainer env options packageName version) w
   else wrap (BrowserPackageAnalyzer.analyzeWithCDN env options packageName version) w)
  ∧ (supported = false →
     BrowserPackageAnalyzer.analyzePackage env options packageName version w =
     BrowserPackageAnalyzer.analyzePackage env unrequested packageName version w)
  ∧ (requested && supported = false →
     ∃ evs, trace (snd (BrowserPackageAnalyzer.analyzePackage env options
                          packageName version w)) = trace w ++ evs
            ∧ Forall notSandbox evs)
  ∧ (requested && supported = true →
     bundler_isInitialized w = true →
     webcontainer_isInitialized w = false →
     ∀ e, WebContainer_boot env = Some e →
     fst (BrowserPackageAnalyzer.analyzePackage env options packageName version w) =
     Thrown (Error ("Failed to analyze package " +:+ packageName +:+ ": " +:+
                    "Error: WebContainer not supported in this environment"))).
Proof.
  intros requested supported unrequested wrap. split; [| split; [| split]].
  - intros Hinit.
    unfold BrowserPackageAnalyzer.analyzePackage, wrap, tryCatch, bind at 1.
    rewrite initialize_initialized by exact Hinit.
    fold requested supported. now destruct (requested && supported).
  - intros Hunsupported.
    unfold BrowserPackageAnalyzer.analyzePackage. fold supported.
    rewrite Hunsupported. simpl useWebContainer.
    rewrite andb_false_r. reflexivity.
  - intros Hcdn.
    assert (emits notSandbox
              (BrowserPackageAnalyzer.analyzePackage env options packageName version)) as H.
    { unfold BrowserPackageAnalyzer.analyzePackage. fold requested supported.
      rewrite Hcdn.
      repeat first [apply bundler_initialize_emits; exact engineCall_notSandbox
                   | apply analyzeWithCDN_emits | emits_step]. }
    exact (H w).
  - intros Hsandbox Hinit Hboot e He.
    unfold BrowserPackageAnalyzer.analyzePackage, tryCatch, bind at 1.
    rewrite initialize_initialized by exact Hinit.
    fold requested supported. rewrite Hsandbox.
    unfold BrowserPackageAnalyzer.analyzeWithWebContainer, bind at 1.
    unfold WebContainerManager.initialize, bind at 1, gets. rewrite Hboot.
    unfold tryCatch, bind, emit. rewrite He. reflexivity.
Qed.

Lemma analyzePackage_strategy_witness :
  fst (BrowserPackageAnalyzer.analyzePackage
         (Scenario.withSandboxCapability (Scenario.world Scenario.pkg))
         Scenario.sandboxRequested "pkg" None initialized) =
  Thrown (Error "Failed to analyze package pkg: Error: WebContainer not supported in this environment").
Proof.
  refine (proj2 (proj2 (proj2
            (analyzePackage_strategy
               (Scenario.withSandboxCapability (Scenario.world Scenario.pkg))
               Scenario.sandboxRequested "pkg" None initialized)))
            _ _ _ (Error "Unable to boot") _);
    reflexivity.
Defined.

(** C3 as stated fails when the sandbox is requested and the capability
    check fails: the error of an unsupported sandbox is not surfaced. The
    analysis of [pkg] runs the CDN strategy: it requests the manifest, makes
    no call to the sandbox, and ends as it does when the sandbox is not
    requested, here with the failure of the bundle. *)
Lemma analyzePackage_unsupported_sandbox_no_error :
  let env := Scenario.world Scenario.pkg in
  let run :=
    BrowserPackageAnalyzer.analyzePackage env Scenario.sandboxRequested
      "pkg" None Scenario.start in
  useWebContainer Scenario.sandboxRequested = true
  ∧ WebContainerManager.isSupported env = false
  ∧ run = BrowserPackageAnalyzer.analyzePackage env Scenario.defaults
            "pkg" None Scenario.start
  ∧ (∃ message,
       fst run =
       Thrown (Error ("Failed to analyze package pkg: Error: Bundling failed: TypeError: "
                      +:+ message)))
  ∧ fst run ≠
    Thrown (Error ("Failed to analyze package pkg: "
                   +:+ "Error: WebContainer not supported in this environment"))
  ∧ trace (snd run) !! 1 = Some (fetch_call GET "https://unpkg.com/pkg/package.json")
  ∧ forallb (λ ev, negb (sandboxCall ev)) (trace (snd run)) = true.
Proof.
  cbn zeta. split; [reflexivity |]. split; [reflexivity |].
  split; [vm_compute; reflexivity |].
  split; [eexists; vm_compute; reflexivity |].
  split; [vm_compute; discriminate |].
  split; vm_compute; reflexivity.
Qed.

(** ** Bundling is a function of its arguments *)

(** Unfolds the monad in a run. *)
Ltac run_monad :=
  cbv [bind gets tryCatch emit ret throw modify liftOutcome]; cbv beta iota.

Section BundlerValues.
Variable env : Env.

Lemma calculateGzipSize_value (content : string) :
  ∃ gzipSize, ∀ w, WasmBundler.calculateGzipSize env content w = (Returned gzipSize, w).
Proof.
  destruct (CompressionStream env) as [gzip |] eqn:Hstream; eexists; intros w;
    rewrite calculateGzipSize_unfold, Hstream; reflexivity.
Qed.

Lemma set_initialized_id (w : World) :
  bundler_isInitialized w = true → set_bundler_isInitialized true w = w.
Proof. intros H. destruct w. simpl in H. now subst. Qed.

(** Initialization succeeds when the engine lets it, and then makes at
    most its one call. *)
Lemma initialize_run (w : World) :
  esbuild_initialize env (trace w) = None →
  ∃ pre, WasmBundler.initialize env w =
           (Returned tt, set_bundler_isInitialized true (extend pre w))
         ∧ pre ⊆ [esbuild_initialize_call].
Proof.
  intros Hinit. rewrite initialize_unfold.
  unfold WasmBundler.Concurrent.esbuild_initialize_promise. run_monad.
  destruct (bundler_isInitialized w) eqn:Hflag.
  - exists []. split; [| set_solver].
    now rewrite extend_nil, set_initialized_id.
  - exists [esbuild_initialize_call]. split; [| set_solver].
    rewrite Hinit. reflexivity.
Qed.

(** The body of [bundle], after initialization. *)
Lemma bundle_initialized (entryPoint : string) (files : gmap string string) (w : World) :
  bundler_isInitialized w = true →
  WasmBundler.bundle env entryPoint files w =
  (bundleOutcome env entryPoint files, extend [esbuild_build_call entryPoint files] w).
Proof.
  intros Hflag. unfold bundleOutcome. rewrite !bundle_unfold.
  unfold WasmBundler.Concurrent.esbuild_build_promise. run_monad.
  rewrite Hflag. change (bundler_isInitialized initialized) with true.
  cbv [negb]. cbv beta iota. rewrite log_extend.
  destruct (esbuild_build env entryPoint _ _) as [e | errors outputFiles];
    [reflexivity |].
  cbn [fst snd].
  destruct (0 <? length errors)%nat; [reflexivity |].
  destruct outputFiles as [|code rest]; [reflexivity |].
  destruct (calculateGzipSize_value code) as [gzipSize Hgzip].
  now rewrite !Hgzip.
Qed.

(** [bundle] on a bundler that is not initialized: the engine is
    initialized first. *)
Lemma bundle_uninitialized (entryPoint : string) (files : gmap string string)
    (w : World) :
  bundler_isInitialized w = false →
  WasmBundler.bundle env entryPoint files w =
  match WasmBundler.initialize env w with
  | (Returned _, w') =>
      (bundleOutcome env entryPoint files,
       extend [esbuild_build_call entryPoint files] w')
  | (Thrown e, w') => (Thrown e, w')
  end.
Proof.
  intros Hflag. rewrite bundle_unfold. unfold bind at 1, gets. rewrite Hflag.
  unfold bind at 1. cbv [negb]. cbv beta iota.
  destruct (WasmBundler.initialize env w) as [[[] | e] w'] eqn:Hinit; [| reflexivity].
  assert (Hset : bundler_isInitialized w' = true).
  { rewrite initialize_unfold in Hinit. revert Hinit.
    unfold WasmBundler.Concurrent.esbuild_initialize_promise. run_monad.
    rewrite Hflag. destruct (esbuild_initialize env (trace w)); [discriminate |].
    now intros [= <-]. }
  rewrite <- (bundle_initialized entryPoint files w' Hset). symmetry.
  rewrite bundle_unfold. unfold bind at 1, gets. rewrite Hset.
  unfold bind at 1. reflexivity.
Qed.

Lemma bundle_run (entryPoint : string) (files : gmap string string) (w : World) :
  esbuild_initialize env (trace w) = None →
  ∃ pre,
    WasmBundler.bundle env entryPoint files w =
    (bundleOutcome env entryPoint files,
     extend [esbuild_build_call entryPoint files]
       (set_bundler_isInitialized true (extend pre w)))
    ∧ pre ⊆ [esbuild_initialize_call].
Proof.
  intros Hinit. destruct (bundler_isInitialized w) eqn:Hflag.
  - exists []. split; [| set_solver]. rewrite bundle_initialized by exact Hflag.
    now rewrite extend_nil, set_initialized_id.
  - destruct (initialize_run w Hinit) as (pre & Hrun & Hpre).
    exists pre. split; [| exact Hpre].
    rewrite bundle_uninitialized by exact Hflag. now rewrite Hrun.
Qed.

Lemma minifyCode_run (code : string) (minifier : option Minifier) (w : World) :
  ∃ call,
    WasmBundler.minifyCode env code minifier w =
    (minifyOutcome env code minifier, extend [call] w)
    ∧ (call = terser_minify_call code ∨ call = esbuild_transform_call code).
Proof.
  unfold minifyOutcome. rewrite !minifyCode_unfold.
  unfold WasmBundler.Concurrent.esbuild_transform_promise,
    WasmBundler.Concurrent.terser_minify_promise.
  destruct (default esbuild minifier); run_monad.
  - exists (terser_minify_call code). split; [| now left]. rewrite !log_extend.
    destruct (terser_minify env code) as [output | e]; [| reflexivity].
    destruct (calculateGzipSize_value (Js.orElse output code)) as [gzipSize Hgzip].
    now rewrite !Hgzip.
  - exists (esbuild_transform_call code). split; [| now right]. rewrite !log_extend.
    destruct (esbuild_transform env code) as [minified | e]; [| reflexivity].
    destruct (calculateGzipSize_value minified) as [gzipSize Hgzip].
    now rewrite !Hgzip.
Qed.
End BundlerValues.

(** ** The export-size batch *)

(** *** Callbacks that run side by side *)

Lemma await_lift {A} (call : M A) (w w1 : World) (o : Outcome A) :
  call w = (o, w1) → suspends (Async.await (Async.lift call)) w w1 (liftOutcome o).
Proof.
  intros Hcall. unfold suspends, Async.await, Async.lift. rewrite Hcall.
  eexists. split; reflexivity.
Qed.

Lemma await_ret {A} (a : A) (w : World) :
  suspends (Async.await (Async.ret a)) w w (ret a).
Proof. eexists. split; reflexivity. Qed.

Lemma andThen_awaiting {A B} (resume : World → Task A * World)
    (k : Outcome A → Async B) (w : World) :
  andThen (awaiting resume) k w =
  (awaiting (λ w1, let (t', w2) := resume w1 in andThen t' k w2), w).
Proof. reflexivity. Qed.

(** What follows a task that waits, when it is taken up again. *)
Lemma andThen_suspends {A B} (resume : World → Task A * World)
    (k : Outcome A → Async B) (w : World) (rest : M A) :
  (∀ w', complete (awaiting resume) w' = rest w') →
  ∃ resume',
    andThen (awaiting resume) k w = (awaiting resume', w)
    ∧ ∀ w', complete (awaiting resume') w' =
            let (o, w'') := rest w' in run (k o) w''.
Proof.
  intros Hrest. rewrite andThen_awaiting. eexists. split; [reflexivity |].
  intros w'. rewrite <- Hrest.
  change (complete (awaiting resume) w')
    with (let (t', w2) := resume w' in complete t' w2).
  change (complete (awaiting (λ w1, let (t', w2) := resume w1 in andThen t' k w2)) w')
    with (let (t, w3) := (let (t', w2) := resume w' in andThen t' k w2) in complete t w3).
  destruct (resume w') as [t' w2].
  change (run (andThen t' k) w2 = let (o, w'') := complete t' w2 in run (k o) w'').
  apply complete_andThen.
Qed.

Lemma await_suspends {A} (m : Async A) (w w1 : World) (rest : M A) :
  suspends m w w1 rest → suspends (Async.await m) w w1 rest.
Proof.
  intros (resume & Hm & Hrest). unfold suspends, Async.await. rewrite Hm.
  destruct (andThen_suspends resume
              (λ o w2, (awaiting (λ w3, (settled o, w3)), w2)) w1 rest Hrest)
    as (resume' & -> & Hrest').
  exists resume'. split; [reflexivity |]. intros w'. rewrite Hrest'.
  now destruct (rest w').
Qed.

Lemma bind_suspends {A B} (m : Async A) (k : A → Async B) (w w1 : World) (rest : M A) :
  suspends m w w1 rest →
  suspends (Async.bind m k) w w1 (bind rest (λ a, run (k a))).
Proof.
  intros (resume & Hm & Hrest). unfold suspends, Async.bind. rewrite Hm.
  destruct (andThen_suspends resume
              (λ o, match o with
                    | Returned a => k a
                    | Thrown e => Async.throw e
                    end) w1 rest Hrest)
    as (resume' & -> & Hrest').
  exists resume'. split; [reflexivity |]. intros w'. rewrite Hrest'.
  unfold bind. now destruct (rest w') as [[a | e] w''].
Qed.

Lemma tryCatch_suspends {A} (m : Async A) (h : JsError → Async A) (w w1 : World)
    (rest : M A) :
  suspends m w w1 rest →
  suspends (Async.tryCatch m h) w w1 (tryCatch rest (λ e, run (h e))).
Proof.
  intros (resume & Hm & Hrest). unfold suspends, Async.tryCatch. rewrite Hm.
  destruct (andThen_suspends resume
              (λ o, match o with
                    | Returned a => Async.ret a
                    | Thrown e => h e
                    end) w1 rest Hrest)
    as (resume' & -> & Hrest').
  exists resume'. split; [reflexivity |]. intros w'. rewrite Hrest'.
  unfold tryCatch. now destruct (rest w') as [[a | e] w''].
Qed.

Lemma suspends_ext {A} (m : Async A) (w w1 : World) (rest rest' : M A) :
  suspends m w w1 rest → (∀ w', rest w' = rest' w') → suspends m w w1 rest'.
Proof.
  intros (resume & Hm & Hrest) Heq. exists resume.
  split; [exact Hm |]. intros w'. now rewrite Hrest.
Qed.

(** Code that runs before the first [await]. *)
Lemma bind_lift_suspends {A B} (call : M A) (k : A → Async B) (w w1 w2 : World) (a : A)
    (rest : M B) :
  call w = (Returned a, w1) → suspends (k a) w1 w2 rest →
  suspends (Async.bind (Async.lift call) k) w w2 rest.
Proof.
  intros Hcall Hk. unfold suspends, Async.bind, Async.lift. rewrite Hcall. exact Hk.
Qed.

Lemma bind_ret_suspends {A B} (a : A) (k : A → Async B) (w w2 : World) (rest : M B) :
  suspends (k a) w w2 rest → suspends (Async.bind (Async.ret a) k) w w2 rest.
Proof. intros Hk. exact Hk. Qed.

Section ExportCallback.
Variable env : Env.
Variable options : BrowserPackageAnalyzerOptions.
Variable files : gmap string string.

Let callback := BrowserPackageAnalyzer.exportCallback env options files.

(** The handler of a callback. *)
Let handler (f : CDNFile) (error : JsError) : M (option ExportAsset) :=
  do! (if debug options then
         emit (console_warn ("Failed to analyze export " +:+ path f +:+ ":") error)
       else ret tt) in
  ret None.

(** What a callback does with its bundle. *)
Let afterBundle (f : CDNFile) (bundle : M BundleResult) : M (option ExportAsset) :=
  tryCatch
    (let! bundleResult := bundle in
     let! minified := WasmBundler.minifyCode env (bundle_code bundleResult) None in
     ret (Some {| export_path := path f;
                  export_size := minified_size minified;
                  export_gzipSize := minified_gzipSize minified;
                  export_exportName := Some (path f) |}))
    (handler f).

(** The [try] block of [bundle] stops after its call to
    [esbuild.build]; what is left makes no call. *)
Lemma build_suspends (entryPoint : string) (bundled : gmap string string) (w : World) :
  suspends (WasmBundler.Concurrent.build env entryPoint bundled) w
    (extend [esbuild_build_call entryPoint bundled] w)
    (liftOutcome (bundleOutcome env entryPoint bundled)).
Proof.
  unfold WasmBundler.Concurrent.build.
  eapply suspends_ext.
  { apply tryCatch_suspends, bind_suspends.
    apply (await_lift _ _ _
             (match esbuild_build env entryPoint (WasmBundler.onResolve bundled)
                      (WasmBundler.onLoad bundled) with
              | build_rejected e => Thrown e
              | build_result errors outputFiles => Returned (errors, outputFiles)
              end)).
    unfold WasmBundler.Concurrent.esbuild_build_promise. run_monad.
    rewrite log_extend. now destruct (esbuild_build env entryPoint _ _). }
  intros w'. unfold bundleOutcome. rewrite bundle_unfold.
  unfold WasmBundler.Concurrent.esbuild_build_promise. run_monad.
  change (bundler_isInitialized initialized) with true. cbv [negb]. cbv beta iota.
  destruct (esbuild_build env entryPoint _ _) as [e | errors outputFiles];
    [reflexivity |].
  cbn [fst snd]. destruct (0 <? length errors)%nat; [reflexivity |].
  destruct outputFiles as [|code rest]; [reflexivity |].
  rewrite run_bind, (bind_ext _ (WasmBundler.calculateGzipSize env code) _
                       (λ gzipSize, ret {| bundle_code := code;
                                           bundle_size := WasmBundler.byteLength code;
                                           bundle_gzipSize := gzipSize;
                                           bundle_assets :=
                                             [("main", WasmBundler.byteLength code, "js")] |}));
    [| apply run_await | reflexivity].
  unfold bind. destruct (calculateGzipSize_value env code) as [gzipSize Hgzip].
  now rewrite !Hgzip.
Qed.

Lemma suspends_run {A} (m : Async A) (w w1 : World) (rest : M A) :
  suspends m w w1 rest → run m w = rest w1.
Proof. intros (resume & Hm & Hrest). unfold run. rewrite Hm. apply Hrest. Qed.

Lemma build_run (entryPoint : string) (bundled : gmap string string) (w : World) :
  run (WasmBundler.Concurrent.build env entryPoint bundled) w =
  (bundleOutcome env entryPoint bundled,
   extend [esbuild_build_call entryPoint bundled] w).
Proof. now rewrite (suspends_run _ _ _ _ (build_suspends entryPoint bundled w)). Qed.

(** [bundle] stops after its first call: [esbuild.build] on an
    initialized bundler, and [esbuild.initialize] otherwise; what is left
    then depends on the answer of the engine. *)
Lemma bundle_suspends (entryPoint : string) (bundled : gmap string string) (w : World) :
  suspends (WasmBundler.Concurrent.bundle env entryPoint bundled) w
    (extend [if bundler_isInitialized w then esbuild_build_call entryPoint bundled
             else esbuild_initialize_call] w)
    (if bundler_isInitialized w then
       liftOutcome (bundleOutcome env entryPoint bundled)
     else
       match esbuild_initialize env (trace w) with
       | None =>
           do! modify (set_bundler_isInitialized true) in
           do! emit (esbuild_build_call entryPoint bundled) in
           liftOutcome (bundleOutcome env entryPoint bundled)
       | Some e =>
           do! emit (console_error "Failed to initialize ESBuild WASM:" e) in
           throw (Error "ESBuild WASM initialization failed")
       end).
Proof.
  unfold WasmBundler.Concurrent.bundle.
  destruct (bundler_isInitialized w) eqn:Hflag.
  - eapply bind_lift_suspends; [unfold gets; rewrite Hflag; reflexivity |].
    cbv [negb]. apply bind_ret_suspends, build_suspends.
  - eapply bind_lift_suspends; [unfold gets; rewrite Hflag; reflexivity |].
    cbv [negb]. cbv beta iota.
    eapply suspends_ext.
    { apply bind_suspends, await_suspends.
      unfold WasmBundler.Concurrent.initialize.
      eapply bind_lift_suspends; [unfold gets; rewrite Hflag; reflexivity |].
      cbv beta iota.
      apply tryCatch_suspends, bind_suspends.
      apply (await_lift _ _ _
               (match esbuild_initialize env (trace w) with
                | Some e => Thrown e
                | None => Returned tt
                end)).
      unfold WasmBundler.Concurrent.esbuild_initialize_promise. run_monad.
      rewrite log_extend. now destruct (esbuild_initialize env (trace w)). }
    intros w'. unfold bind at 1, tryCatch, bind at 1, liftOutcome.
    destruct (esbuild_initialize env (trace w)) as [e |].
    + rewrite run_bind. unfold bind at 1. rewrite run_lift.
      unfold emit. rewrite run_throw. reflexivity.
    + rewrite run_lift. unfold modify at 1. cbv beta iota.
      rewrite build_run. reflexivity.
Qed.

(** A callback for a candidate with content stops after the first call
    of [bundle]. *)
Lemma exportCallback_suspends (f : CDNFile) (w : World) :
  BrowserPackageAnalyzer.notNot (files !! path f) = true →
  suspends (callback f) w
    (extend [if bundler_isInitialized w then esbuild_build_call (path f) files
             else esbuild_initialize_call] w)
    (afterBundle f
       (if bundler_isInitialized w then
          liftOutcome (bundleOutcome env (path f) files)
        else
          match esbuild_initialize env (trace w) with
          | None =>
              do! modify (set_bundler_isInitialized true) in
              do! emit (esbuild_build_call (path f) files) in
              liftOutcome (bundleOutcome env (path f) files)
          | Some e =>
              do! emit (console_error "Failed to initialize ESBuild WASM:" e) in
              throw (Error "ESBuild WASM initialization failed")
          end)).
Proof.
  intros Hcontent. unfold callback, BrowserPackageAnalyzer.exportCallback.
  rewrite Hcontent. cbv [negb]. cbv beta iota.
  eapply suspends_ext.
  { apply tryCatch_suspends, bind_suspends, await_suspends, bundle_suspends. }
  intros w'. unfold afterBundle. apply tryCatch_ext.
  - apply bind_ext; [reflexivity |]. intros bundleResult w''.
    rewrite run_bind. apply bind_ext; [apply run_await | reflexivity].
  - intros e w''. unfold handler. rewrite run_bind.
    apply bind_ext; [| reflexivity]. destruct (debug options); [apply run_lift | reflexivity].
Qed.

Lemma minifyCode_default_run (code : string) (w : World) :
  WasmBundler.minifyCode env code None w =
  (minifyOutcome env code None, extend [esbuild_transform_call code] w).
Proof.
  unfold minifyOutcome. rewrite !minifyCode_unfold.
  unfold WasmBundler.Concurrent.esbuild_transform_promise. cbn [default].
  run_monad. rewrite !log_extend.
  destruct (esbuild_transform env code) as [minified | e]; [| reflexivity].
  destruct (calculateGzipSize_value env minified) as [gzipSize Hgzip].
  now rewrite !Hgzip.
Qed.

(** What a callback does once its bundle is there or has failed: it
    minifies, or warns when [debug] is set. *)
Lemma afterBundle_run (f : CDNFile) (w : World) :
  BrowserPackageAnalyzer.notNot (files !! path f) = true →
  afterBundle f (liftOutcome (bundleOutcome env (path f) files)) w =
  (Returned (exportAsset env files f), extend (exportAfterBuild env options files f) w).
Proof.
  intros Hcontent. unfold afterBundle, exportAsset, exportAfterBuild.
  rewrite Hcontent. unfold tryCatch, bind at 1, liftOutcome.
  destruct (bundleOutcome env (path f) files) as [bundled | e].
  - unfold bind at 1. rewrite minifyCode_default_run.
    destruct (minifyOutcome env (bundle_code bundled) None) as [minified | e].
    + reflexivity.
    + unfold handler, exportWarning. run_monad.
      destruct (debug options); rewrite ?log_extend, ?extend_extend; reflexivity.
  - unfold handler, exportWarning. run_monad.
    destruct (debug options); rewrite ?log_extend, ?extend_nil; reflexivity.
Qed.

(** A callback and its script: the calls it makes when [map] calls it,
    and, when it is taken up again, its later calls and its result. *)
Lemma exportCallback_script (f : CDNFile) (w : World) :
  let script :=
    exportScript env options files (bundler_isInitialized w) (trace w) f in
  ∃ t, callback f w = (t, extend (script_first script) w)
       ∧ ∀ w', complete t w' =
               (Returned (script_result script),
                finish (script_initializes script) (extend (script_later script) w')).
Proof.
  unfold exportScript.
  destruct (BrowserPackageAnalyzer.notNot (files !! path f)) eqn:Hcontent;
    cbv [negb]; cbv beta iota zeta.
  - destruct (exportCallback_suspends f w Hcontent) as (resume & Hstart & Hrest).
    exists (awaiting resume). revert Hstart Hrest.
    destruct (bundler_isInitialized w) eqn:Hflag.
    + intros Hstart Hrest. split; [exact Hstart |]. intros w'.
      rewrite Hrest, afterBundle_run by exact Hcontent. reflexivity.
    + destruct (esbuild_initialize env (trace w)) as [e |] eqn:Hinit;
        intros Hstart Hrest; (split; [exact Hstart |]); intros w'; rewrite Hrest.
      * unfold afterBundle, handler, exportWarning. run_monad.
        cbn [script_result script_later script_initializes finish].
        destruct (debug options); rewrite !log_extend, ?extend_extend; reflexivity.
      * cbn [script_result script_later script_initializes finish].
        pose proof (afterBundle_run f
                      (extend [esbuild_build_call (path f) files]
                         (set_bundler_isInitialized true w')) Hcontent) as Hafter.
        unfold afterBundle in *. unfold tryCatch, bind at 1 in Hafter.
        unfold tryCatch, bind at 1, bind at 1, modify, bind at 1, emit.
        rewrite log_extend. unfold liftOutcome in *.
        destruct (bundleOutcome env (path f) files) as [bundled | e].
        -- rewrite Hafter. f_equal. destruct w'. unfold extend. simpl.
           now rewrite <- app_assoc.
        -- rewrite Hafter. f_equal. destruct w'. unfold extend. simpl.
           now rewrite <- app_assoc.
  - exists (settled (Returned None)).
    unfold callback, BrowserPackageAnalyzer.exportCallback. rewrite Hcontent.
    cbn [script_first script_result script_later script_initializes finish].
    split; [now rewrite extend_nil |]. intros w'. now rewrite extend_nil.
Qed.
End ExportCallback.

Lemma finish_finish (b1 b2 : bool) (l1 l2 : list Event) (w : World) :
  finish b2 (extend l2 (finish b1 (extend l1 w))) = finish (b1 || b2) (extend (l1 ++ l2) w).
Proof.
  destruct w, b1, b2; unfold finish, extend, set_bundler_isInitialized; simpl;
    now rewrite <- app_assoc.
Qed.

Lemma allReturned_fmap {A} (l : list A) : allReturned (Returned <$> l) = Returned l.
Proof. induction l as [|a l IH]; [reflexivity |]. rewrite fmap_cons. simpl. now rewrite IH. Qed.

Section ExportBatch.
Variable env : Env.
Variable options : BrowserPackageAnalyzerOptions.
Variable files : gmap string string.

Let callback := BrowserPackageAnalyzer.exportCallback env options files.

Let plays (t : Task (option ExportAsset)) (script : ExportScript) : Prop :=
  ∀ w, complete t w =
       (Returned (script_result script),
        finish (script_initializes script) (extend (script_later script) w)).

Lemma startAll_exports (candidates : list CDNFile) :
  ∀ w,
    let scripts :=
      exportScripts env options files (bundler_isInitialized w) (trace w) candidates in
    ∃ tasks,
      startAll (map callback candidates) w =
        (tasks, extend (concat (script_first <$> scripts)) w)
      ∧ Forall2 plays tasks scripts.
Proof.
  induction candidates as [|f rest IH]; intros w; cbn zeta.
  - exists []. split; [simpl; now rewrite extend_nil | constructor].
  - cbn [exportScripts map startAll].
    destruct (exportCallback_script env options files f w) as (t & Hstart & Hplays).
    fold callback in Hstart. rewrite Hstart.
    set (script := exportScript env options files (bundler_isInitialized w) (trace w) f)
      in *.
    destruct (IH (extend (script_first script) w)) as (tasks & Hrest & Hall).
    cbn zeta in Hrest, Hall. rewrite Hrest.
    exists (t :: tasks). split.
    + rewrite fmap_cons, extend_extend. reflexivity.
    + constructor; [exact Hplays | exact Hall].
Qed.

Lemma settleAll_scripts (tasks : list (Task (option ExportAsset)))
    (scripts : list ExportScript) :
  Forall2 plays tasks scripts →
  ∀ w, settleAll tasks w =
       (Returned <$> (script_result <$> scripts),
        finish (existsb script_initializes scripts)
          (extend (concat (script_later <$> scripts)) w)).
Proof.
  induction 1 as [|t script tasks scripts Hplays _ IH]; intros w.
  - simpl. now rewrite extend_nil.
  - cbn [settleAll]. rewrite Hplays, IH. rewrite !fmap_cons. cbn [concat existsb].
    now rewrite finish_finish.
Qed.

(** The batch: every callback makes its first call, in the order of the
    candidates; then each one makes its later calls and gives its
    result. *)
Lemma promiseAll_exports (candidates : list CDNFile) (w : World) :
  let scripts :=
    exportScripts env options files (bundler_isInitialized w) (trace w) candidates in
  promiseAll (map callback candidates) w =
  (Returned (script_result <$> scripts),
   finish (existsb script_initializes scripts)
     (extend (concat (script_first <$> scripts) ++ concat (script_later <$> scripts)) w)).
Proof.
  cbn zeta. unfold promiseAll.
  destruct (startAll_exports candidates w) as (tasks & -> & Hall).
  rewrite (settleAll_scripts _ _ Hall), allReturned_fmap, extend_extend.
  reflexivity.
Qed.
End ExportBatch.

Section ExportScripts.
Variable env : Env.
Variable options : BrowserPackageAnalyzerOptions.
Variable files : gmap string string.

Let scripts := exportScripts env options files.

Lemma exportAsset_Some (f : CDNFile) (a : ExportAsset) :
  exportAsset env files f = Some a →
  export_path a = path f ∧ BrowserPackageAnalyzer.notNot (files !! path f) = true.
Proof.
  unfold exportAsset.
  destruct (BrowserPackageAnalyzer.notNot (files !! path f)); [| discriminate].
  destruct (bundleOutcome env (path f) files) as [bundled | e]; [| discriminate].
  destruct (minifyOutcome env (bundle_code bundled) None) as [minified | e];
    [| discriminate].
  now intros [= <-].
Qed.


Lemma script_result_Some (initialized : bool) (calls : list Event) (f : CDNFile)
    (a : ExportAsset) :
  script_result (exportScript env options files initialized calls f) = Some a →
  exportAsset env files f = Some a.
Proof.
  unfold exportScript.
  destruct (BrowserPackageAnalyzer.notNot (files !! path f)); [| discriminate].
  destruct initialized; [easy |].
  now destruct (esbuild_initialize env calls).
Qed.

(** The assets are those of candidates that have content, in the order
    of the candidates. *)
Lemma scripts_assets (initialized : bool) (candidates : list CDNFile) :
  ∀ calls,
    let assets := omap id (script_result <$> scripts initialized calls candidates) in
    (∀ a, a ∈ assets →
          ∃ f, f ∈ attempted files candidates ∧ exportAsset env files f = Some a)
    ∧ (export_path <$> assets) `sublist_of` (path <$> candidates).
Proof.
  induction candidates as [|f rest IH]; intros calls; cbn zeta.
  - split; [intros a Ha; inversion Ha | constructor].
  - unfold scripts. cbn [exportScripts]. rewrite !fmap_cons.
    set (script := exportScript env options files initialized calls f).
    destruct (IH (calls ++ script_first script)) as [Hin Hsub].
    fold scripts. cbn [omap list_omap].
    destruct (script_result script) as [a |] eqn:Hresult; cbn [id].
    + apply script_result_Some in Hresult.
      destruct (exportAsset_Some f a Hresult) as [Hpath Hcontent].
      split.
      * intros a' Ha'. apply elem_of_cons in Ha' as [-> | Ha'].
        -- exists f. split; [| exact Hresult].
           unfold attempted. cbn [List.filter]. rewrite Hcontent. left.
        -- destruct (Hin a' Ha') as (g & Hg & Hasset). exists g.
           split; [| exact Hasset]. unfold attempted. cbn [List.filter].
           destruct (BrowserPackageAnalyzer.notNot (files !! path f));
             [right |]; exact Hg.
      * rewrite !fmap_cons, Hpath. now constructor.
    + split.
      * intros a' Ha'. destruct (Hin a' Ha') as (g & Hg & Hasset). exists g.
        split; [| exact Hasset]. unfold attempted. cbn [List.filter].
        destruct (BrowserPackageAnalyzer.notNot (files !! path f));
          [right |]; exact Hg.
      * now constructor.
Qed.








End ExportScripts.


Section ExportSizes.
Variable env : Env.
Variable options : BrowserPackageAnalyzerOptions.

(** A candidate without content in the file set, be it absent or empty,
    gives [null] at once: no call is made. *)
Lemma analyzeExport_no_content (packageFiles : gmap string string) (f : CDNFile)
    (w : World) :
  BrowserPackageAnalyzer.notNot (packageFiles !! path f) = false →
  BrowserPackageAnalyzer.analyzeExport env options packageFiles f w = (Returned None, w).
Proof.
  intros Hcontent.
  unfold BrowserPackageAnalyzer.analyzeExport, run,
    BrowserPackageAnalyzer.exportCallback.
  rewrite Hcontent. reflexivity.
Qed.

(** The run of [getPackageExportSizes], once the descriptor and the file
    set are there: it always returns, with the results of the scripts. *)
Lemma getPackageExportSizes_run (packageName : string) (version : option string)
    (w w1 w2 : World) (packageInfo : CDNPackageInfo)
    (packageFiles : gmap string string) :
  let manager := BrowserPackageAnalyzer.cdnManager options in
  CDNPackageManager.getPackageInfo env manager packageName version w
    = (Returned packageInfo, w1) →
  CDNPackageManager.downloadPackage env manager packageName version w1
    = (Returned packageFiles, w2) →
  let scripts :=
    exportScripts env options packageFiles (bundler_isInitialized w2) (trace w2)
      (List.filter BrowserPackageAnalyzer.isExportFile (info_files packageInfo)) in
  BrowserPackageAnalyzer.getPackageExportSizes env options packageName version w =
  (Returned {| exports_name := info_name packageInfo;
               exports_version := info_version packageInfo;
               exports_assets := omap id (script_result <$> scripts) |},
   finish (existsb script_initializes scripts)
     (extend (concat (script_first <$> scripts) ++ concat (script_later <$> scripts))
        w2)).
Proof.
  intros manager Hinfo Hfiles scripts.
  unfold BrowserPackageAnalyzer.getPackageExportSizes. fold manager.
  unfold bind at 1. rewrite Hinfo. unfold bind at 1. rewrite Hfiles.
  unfold bind at 1. now rewrite promiseAll_exports.
Qed.

Lemma trace_finish (initializes : bool) (w : World) :
  trace (finish initializes w) = trace w.
Proof. now destruct initializes. Qed.

(** The batch only adds to the trace. *)
Lemma promiseAll_exports_grows (packageFiles : gmap string string)
    (candidates : list CDNFile) :
  emits (λ _, True)
    (promiseAll (map (BrowserPackageAnalyzer.exportCallback env options packageFiles)
                   candidates)).
Proof.
  intros w. rewrite promiseAll_exports. cbn [snd]. eexists.
  split; [rewrite trace_finish; apply trace_extend |].
  apply Forall_forall. trivial.
Qed.
End ExportSizes.

(** C10. A candidate whose content in the downloaded file set is the empty
    string gives [null] at once, as one whose download failed and that is
    absent from the set does: no bundling is attempted, no call is made, no
    error is caught; and no asset of the result has its path. *)
Theorem getPackageExportSizes_empty_content (env : Env)
    (options : BrowserPackageAnalyzerOptions) (packageFiles : gmap string string)
    (f : CDNFile) :
  packageFiles !! path f = Some "" →
  (∀ w, BrowserPackageAnalyzer.analyzeExport env options packageFiles f w
        = (Returned None, w))
  ∧ (∀ w, BrowserPackageAnalyzer.analyzeExport env options
            (delete (path f) packageFiles) f w = (Returned None, w))
  ∧ (∀ packageName version w w1 w2 packageInfo result w3,
       CDNPackageManager.getPackageInfo env (BrowserPackageAnalyzer.cdnManager options)
         packageName version w = (Returned packageInfo, w1) →
       CDNPackageManager.downloadPackage env (BrowserPackageAnalyzer.cdnManager options)
         packageName version w1 = (Returned packageFiles, w2) →
       BrowserPackageAnalyzer.getPackageExportSizes env options packageName version w
         = (Returned result, w3) →
       ∀ a, a ∈ exports_assets result → export_path a ≠ path f).
Proof.
  intros Hempty. split; [| split].
  - intros w. apply analyzeExport_no_content. now rewrite Hempty.
  - intros w. apply analyzeExport_no_content. now rewrite lookup_delete_eq.
  - intros packageName version w w1 w2 packageInfo result w3 Hinfo Hfiles Hrun a Ha Hpath.
    rewrite (getPackageExportSizes_run env options packageName version w w1 w2
               packageInfo packageFiles Hinfo Hfiles) in Hrun.
    injection Hrun as <- _. simpl in Ha.
    destruct (scripts_assets env options packageFiles (bundler_isInitialized w2)
                (List.filter BrowserPackageAnalyzer.isExportFile (info_files packageInfo))
                (trace w2)) as [Hin _].
    destruct (Hin a Ha) as (g & _ & Hasset).
    destruct (exportAsset_Some env packageFiles g a Hasset) as [Hg Hcontent].
    rewrite <- Hg, Hpath, Hempty in Hcontent. discriminate.
Qed.

Lemma getPackageExportSizes_empty_content_witness :
  BrowserPackageAnalyzer.analyzeExport (Scenario.world Scenario.hollow) Scenario.defaults
    Scenario.hollowFiles (Scenario.scriptFile "empty.js") Scenario.start
  = (Returned None, Scenario.start).
Proof.
  refine (proj1 (getPackageExportSizes_empty_content (Scenario.world Scenario.hollow)
                   Scenario.defaults Scenario.hollowFiles (Scenario.scriptFile "empty.js") _)
            Scenario.start).
  reflexivity.
Defined.

(** The batch on [hollow], with an initialized bundler: the empty script
    is downloaded; the engine is called for the other script only, and
    fails at the hook that loads it. *)
Example getPackageExportSizes_hollow :
  let run :=
    BrowserPackageAnalyzer.getPackageExportSizes (Scenario.world Scenario.hollow)
      Scenario.defaults "hollow" None initialized in
  fst (CDNPackageManager.downloadPackage (Scenario.world Scenario.hollow) unpkg
         "hollow" None Scenario.start) = Returned Scenario.hollowFiles
  ∧ fst run = Returned {| exports_name := "hollow"; exports_version := "1.0.0";
                          exports_assets := [] |}
  ∧ List.filter isBuildCall (trace (snd run)) =
      [esbuild_build_call "a.js" Scenario.hollowFiles].
Proof. repeat split; vm_compute; reflexivity. Qed.







(** ** The entry point of the CDN strategy *)

(** C1 fails on the code. When the resolved entry path is not a key of the
    file set, [analyzeWithCDN] stores the synthesized module under
    [entry.js] and still calls the engine with the resolved entry path,
    which the file set does not hold: the entry point of the build is not
    the synthesized module. *)
Theorem analyzeWithCDN_entry_is_not_synthesized (env : Env)
    (options : BrowserPackageAnalyzerOptions) (packageName : string)
    (version : option string) (w w1 w2 w3 : World) (packageInfo : CDNPackageInfo)
    (packageFiles : gmap string string) (mainFile : option string) :
  let manager := BrowserPackageAnalyzer.cdnManager options in
  CDNPackageManager.getPackageInfo env manager packageName version w
    = (Returned packageInfo, w1) →
  CDNPackageManager.downloadPackage env manager packageName version w1
    = (Returned packageFiles, w2) →
  CDNPackageManager.resolveMainFile env manager packageInfo w2
    = (Returned mainFile, w3) →
  let entryPoint := Js.orElse mainFile "index.js" in
  packageFiles !! entryPoint = None →
  esbuild_initialize env (trace w3) = None →
  let bundled := <["entry.js" := BrowserPackageAnalyzer.entryContent options]> packageFiles in
  let run := BrowserPackageAnalyzer.analyzeWithCDN env options packageName version w in
  bundled !! "entry.js" = Some (BrowserPackageAnalyzer.entryContent options)
  ∧ (entryPoint ≠ "entry.js" → bundled !! entryPoint = None)
  ∧ (∃ pre tail,
       trace (snd run) =
         trace w3 ++ pre ++ esbuild_build_call entryPoint bundled :: tail
       ∧ pre ⊆ [esbuild_initialize_call]
       ∧ Forall (λ ev, ∀ entry files, ev ≠ esbuild_build_call entry files) tail)
  ∧ (∀ e, bundleOutcome env entryPoint bundled = Thrown e → fst run = Thrown e).
Proof.
  intros manager Hinfo Hfiles Hmain entryPoint Hmissing Hinit bundled run.
  split; [apply lookup_insert_eq |].
  split; [intros Hne; unfold bundled; now rewrite lookup_insert_ne |].
  assert (Hrun : run =
            bind (WasmBundler.bundle env entryPoint bundled)
              (λ bundleResult,
                 let! minified :=
                   WasmBundler.minifyCode env (bundle_code bundleResult)
                     (Some (default esbuild (minifier options))) in
                 let! parseTime :=
                   if debug options then
                     let! t := BrowserPackageAnalyzer.calculateParseTime env
                                 (minified_code minified) in ret (Some t)
                   else ret None in
                 ret {| stats_name := info_name packageInfo;
                        stats_size := minified_size minified;
                        stats_gzipSize := minified_gzipSize minified;
                        stats_parseTime := parseTime;
                        stats_dependencyCount :=
                          length (default [] (info_dependencies packageInfo));
                        stats_hasJSNext := false;
                        stats_hasJSModule :=
                          BrowserPackageAnalyzer.notNot (info_module packageInfo);
                        stats_isModuleType :=
                          BrowserPackageAnalyzer.isModuleType (info_type packageInfo);
                        stats_hasSideEffects :=
                          BrowserPackageAnalyzer.hasSideEffects (info_sideEffects packageInfo);
                        stats_peerDependencies :=
                          map fst (default [] (info_peerDependencies packageInfo));
                        stats_dependencySizes := [];
                        stats_assets :=
                          [ {| asset_name := "main";
                               asset_size := minified_size minified;
                               asset_gzipSize := minified_gzipSize minified;
                               asset_type := asset_js |} ] |}) w3).
  { unfold run, BrowserPackageAnalyzer.analyzeWithCDN. fold manager.
    unfold bind at 1. rewrite Hinfo. unfold bind at 1. rewrite Hfiles.
    unfold bind at 1. rewrite Hmain. fold entryPoint.
    apply has_false in Hmissing. rewrite Hmissing. reflexivity. }
  destruct (bundle_run env entryPoint bundled w3 Hinit) as (pre & Hbundle & Hpre).
  unfold bind at 1 in Hrun. rewrite Hbundle in Hrun. clearbody run.
  destruct (bundleOutcome env entryPoint bundled) as [bundleResult | e].
  - split; [| discriminate].
    unfold bind at 1 in Hrun.
    match type of Hrun with
    | context [WasmBundler.minifyCode env ?c ?m ?w'] =>
        destruct (minifyCode_run env c m w') as (call & Hminify & Hcall)
    end.
    rewrite Hminify in Hrun.
    exists pre, [call]. split; [| split; [exact Hpre |]].
    + subst run.
      destruct (minifyOutcome env _ _) as [minified | e];
        [run_monad; destruct (debug options) |];
        simpl; now rewrite <- !app_assoc.
    + constructor; [| constructor].
      intros entry files. destruct Hcall as [-> | ->]; discriminate.
  - subst run. split; [| intros e' [= <-]; reflexivity].
    exists pre, []. split; [| split; [exact Hpre | constructor]].
    simpl. now rewrite <- !app_assoc.
Qed.

Lemma analyzeWithCDN_entry_is_not_synthesized_witness :
  ∃ w3 pre tail,
    trace (snd (BrowserPackageAnalyzer.analyzeWithCDN (Scenario.world Scenario.lib)
                  Scenario.defaults "lib" None Scenario.start)) =
      trace w3 ++ pre ++
      esbuild_build_call "index.js"
        (<["entry.js" := "export * from './index.js';"]> Scenario.libFiles) :: tail
    ∧ Scenario.libFiles !! "index.js" = None.
Proof.
  pose (env := Scenario.world Scenario.lib).
  pose (run1 := CDNPackageManager.getPackageInfo env unpkg "lib" None Scenario.start).
  pose (run2 := CDNPackageManager.downloadPackage env unpkg "lib" None (snd run1)).
  pose (run3 := CDNPackageManager.resolveMainFile env unpkg Scenario.libInfo (snd run2)).
  assert (H1 : run1 = (Returned Scenario.libInfo, snd run1)) by (vm_compute; reflexivity).
  assert (H2 : run2 = (Returned Scenario.libFiles, snd run2)) by (vm_compute; reflexivity).
  assert (H3 : run3 = (Returned None, snd run3)) by (vm_compute; reflexivity).
  assert (H4 : Scenario.libFiles !! "index.js" = None) by (vm_compute; reflexivity).
  assert (H5 : esbuild_initialize env (trace (snd run3)) = None)
    by (vm_compute; reflexivity).
  destruct (analyzeWithCDN_entry_is_not_synthesized env Scenario.defaults "lib" None
              Scenario.start (snd run1) (snd run2) (snd run3) Scenario.libInfo
              Scenario.libFiles None H1 H2 H3 H4 H5)
    as (_ & _ & (pre & tail & Htrace & _) & _).
  exists (snd run3), pre, tail. split; [exact Htrace | exact H4].
Defined.

(** The analysis of [lib]: the engine is asked for [index.js], which no
    file of the set is; the hook that resolves it goes on to
    [this.resolveImport], and raises. *)
Example analyzePackage_lib :
  fst (BrowserPackageAnalyzer.analyzePackage (Scenario.world Scenario.lib)
         Scenario.defaults "lib" None Scenario.start)
  = Thrown (Error ("Failed to analyze package lib: Error: Bundling failed: "
                   +:+ "TypeError: Cannot read properties of undefined "
                   +:+ "(reading 'resolveImport')"))
  ∧ ∃ files,
      last (trace (snd (BrowserPackageAnalyzer.analyzePackage (Scenario.world Scenario.lib)
                          Scenario.defaults "lib" None Scenario.start)))
      = Some (esbuild_build_call "index.js" files)
      ∧ files !! "entry.js" = Some "export * from './index.js';"
      ∧ files !! "index.js" = None
      ∧ dom files = {["entry.js"; "src/a.js"]}.
Proof.
  split; [vm_compute; reflexivity |]. eexists.
  split; [vm_compute; reflexivity |].
  repeat split; vm_compute; reflexivity.
Qed.

(** ** SizeAnalyzer: the estimate in double precision *)

Section Doubles.
Local Open Scope Z_scope.

Lemma digits2_pos_size (p : positive) : digits2_pos p = Pos.size p.
Proof. induction p; simpl; congruence. Qed.

Lemma size_bounds (p : positive) :
  2 ^ (Z.pos (Pos.size p) - 1) <= Z.pos p < 2 ^ Z.pos (Pos.size p).
Proof.
  split.
  - pose proof (Pos.size_le p) as H.
    assert (Z.pos (2 ^ Pos.size p) <= Z.pos p~0) as H' by exact H.
    rewrite Pos2Z.inj_pow in H'.
    replace (Z.pos (Pos.size p)) with (Z.succ (Z.pos (Pos.size p) - 1)) in H' by lia.
    rewrite Z.pow_succ_r in H' by lia. lia.
  - pose proof (Pos.size_gt p) as H.
    assert (Z.pos p < Z.pos (2 ^ Pos.size p)) as H' by exact H.
    now rewrite Pos2Z.inj_pow in H'.
Qed.

Lemma iter_pos_nat {A} (f : A -> A) (p : positive) :
  forall x : A, @SpecFloat.iter_pos A f p x = Nat.iter (Pos.to_nat p) f x.
Proof.
  induction p as [p IH | p IH |]; intros x.
  - change (@SpecFloat.iter_pos A f p~1 x) with (@SpecFloat.iter_pos A f p (@SpecFloat.iter_pos A f p (f x))).
    rewrite !IH, Pos2Nat.inj_xI, Nat.iter_succ_r.
    replace (2 * Pos.to_nat p)%nat with (Pos.to_nat p + Pos.to_nat p)%nat by lia.
    now rewrite Nat.iter_add.
  - change (@SpecFloat.iter_pos A f p~0 x) with (@SpecFloat.iter_pos A f p (@SpecFloat.iter_pos A f p x)).
    rewrite !IH, Pos2Nat.inj_xO.
    replace (2 * Pos.to_nat p)%nat with (Pos.to_nat p + Pos.to_nat p)%nat by lia.
    now rewrite Nat.iter_add.
  - reflexivity.
Qed.

Lemma shr_1_spec (q : Z) (r s : bool) :
  0 <= q ->
  exists q' b, shr_1 (Build_shr_record q r s) = Build_shr_record q' b (orb r s)
               /\ 0 <= q' /\ q = 2 * q' + Number.bit b.
Proof.
  intros Hq. destruct q as [|[p|p|]|p]; simpl; try lia.
  - exists 0, false. repeat split; simpl; lia.
  - exists (Z.pos p), true. repeat split; simpl; lia.
  - exists (Z.pos p), false. repeat split; simpl; lia.
  - exists 0, true. repeat split; simpl; lia.
Qed.

Lemma shr_iter_spec (m0 : Z) (j : nat) :
  0 <= m0 ->
  exists q r s t,
    Nat.iter j shr_1 (Build_shr_record m0 false false) = Build_shr_record q r s
    /\ 0 <= q
    /\ 2 * m0 = (2 * q + Number.bit r) * 2 ^ Z.of_nat j + 2 * t
    /\ 0 <= 2 * t < 2 ^ Z.of_nat j
    /\ (s = true <-> t <> 0).
Proof.
  intros Hm. induction j as [|j IH].
  - exists m0, false, false, 0. simpl. repeat split; try lia; try discriminate.
  - destruct IH as (q & r & s & t & Hrun & Hq & Heq & Ht & Hs).
    simpl Nat.iter. rewrite Hrun.
    destruct (shr_1_spec q r s Hq) as (q' & b & -> & Hq' & Hqb).
    rewrite Nat2Z.inj_succ, Z.pow_succ_r by lia.
    set (W := 2 ^ Z.of_nat j) in *.
    assert (HW : W = 1 \/ exists W', W = 2 * W').
    { unfold W. destruct j as [|j]; [now left | right].
      rewrite Nat2Z.inj_succ, Z.pow_succ_r by lia. eauto. }
    assert (0 < W) by (unfold W; apply Z.pow_pos_nonneg; lia).
    clearbody W.
    destruct HW as [-> | [W' ->]].
    + assert (t = 0) by lia. subst t.
      assert (r = false) by (destruct r; [exfalso; unfold Number.bit in *; lia | reflexivity]).
      subst r.
      exists q', b, s, 0. unfold Number.bit in *. cbn [orb].
      repeat split; try lia; tauto.
    + exists q', b, (orb r s), (Number.bit r * W' + t).
      assert (0 <= Number.bit r <= 1) by (destruct r; unfold Number.bit; lia).
      repeat split; try nia.
      * destruct r; unfold Number.bit; cbn [orb]; [lia |].
        intros Hs'. apply Hs in Hs'. lia.
      * destruct r; unfold Number.bit; cbn [orb]; [reflexivity |].
        intros Ht'. apply Hs. lia.
Qed.

Lemma size_unique (m : positive) (k : Z) :
  0 < k -> 2 ^ (k - 1) <= Z.pos m < 2 ^ k -> Z.pos (Pos.size m) = k.
Proof.
  intros Hk [Hlo Hhi]. destruct (size_bounds m) as [Hlo' Hhi'].
  assert (k - 1 < Z.pos (Pos.size m)).
  { apply (Z.pow_lt_mono_r_iff 2); lia. }
  assert (Z.pos (Pos.size m) - 1 < k).
  { apply (Z.pow_lt_mono_r_iff 2); lia. }
  lia.
Qed.

Lemma round_nearest_even_spec (q t W : Z) (r s : bool) (P : Z) :
  2 * P = (2 * q + Number.bit r) * W + 2 * t ->
  0 <= 2 * t < W ->
  (s = true <-> t <> 0) ->
  let q' := round_nearest_even q (loc_of_shr_record (Build_shr_record q r s)) in
  (q' = q \/ q' = q + 1) /\ 2 * P - W <= 2 * q' * W <= 2 * P + W.
Proof.
  intros Heq Ht Hs q'. subst q'.
  destruct r, s; cbn [loc_of_shr_record round_nearest_even]; unfold Number.bit in *.
  - split; [now right |]. nia.
  - assert (t = 0) by (destruct (Z.eq_dec t 0); [assumption | exfalso];
                       assert (false = true) by (now apply Hs); discriminate).
    subst t. destruct (Z.even q); (split; [auto |]); nia.
  - split; [now left |]. nia.
  - split; [now left |]. nia.
Qed.

Lemma binary_round_aux_spec (P : positive) (e0 : Z) :
  let D := Z.pos (Pos.size P) in
  53 < D -> -1074 <= D + e0 - 53 -> D + e0 - 52 <= 971 ->
  exists m e,
    binary_round_aux 53 1024 false (Z.pos P) e0 loc_Exact = S754_finite false m e
    /\ (e = e0 + D - 53 \/ e = e0 + D - 52)
    /\ 2 * Z.pos P - 2 ^ (e - e0) <= 2 * Z.pos m * 2 ^ (e - e0)
       <= 2 * Z.pos P + 2 ^ (e - e0).
Proof.
  intros D HD Hlo Hhi.
  unfold binary_round_aux, shr_fexp at 1.
  cbn [Zdigits2 shr_record_of_loc]. rewrite digits2_pos_size. fold D.
  assert (Hfexp : fexp 53 1024 (D + e0) - e0 = D - 53).
  { unfold fexp, emin. rewrite Z.max_l by lia. lia. }
  rewrite Hfexp.
  destruct (D - 53) as [|k|k] eqn:Hk; try lia.
  cbn [shr]. rewrite iter_pos_nat.
  destruct (shr_iter_spec (Z.pos P) (Pos.to_nat k) ltac:(lia))
    as (q & r & s & t & -> & Hq & Heq & Ht & Hs).
  rewrite positive_nat_Z in Heq, Ht.
  set (W := 2 ^ Z.pos k) in *.
  assert (HW : 0 < W) by (apply Z.pow_pos_nonneg; lia).
  pose proof (size_bounds P) as [HPlo HPhi]. fold D in HPlo, HPhi.
  assert (HDW : 2 ^ D = 2 ^ 53 * W).
  { unfold W. rewrite <- Z.pow_add_r by lia. f_equal. lia. }
  assert (HDW' : 2 ^ (D - 1) = 2 ^ 52 * W).
  { unfold W. rewrite <- Z.pow_add_r by lia. f_equal. lia. }
  rewrite HDW in HPhi. rewrite HDW' in HPlo.
  change (2 ^ 53) with 9007199254740992 in *.
  change (2 ^ 52) with 4503599627370496 in *.
  assert (Hq53 : 4503599627370496 <= q < 9007199254740992).
  { assert (0 <= Number.bit r <= 1) by (destruct r; unfold Number.bit; lia). nia. }
  destruct (round_nearest_even_spec q t W r s (Z.pos P) Heq Ht Hs) as [Hq' Hbound].
  cbn [shr_m].
  set (q' := round_nearest_even q _) in *.
  destruct q' as [|m|m] eqn:Hq'm; try lia.
  destruct (Z.eq_dec (Z.pos m) 9007199254740992) as [Htop | Hnottop].
  - injection Htop as ->.
    exists 4503599627370496%positive, (e0 + Z.pos k + 1).
    split; [| split].
    + unfold shr_fexp. cbn [Zdigits2 shr_record_of_loc].
      replace (fexp 53 1024 (Z.pos (digits2_pos 9007199254740992) + (e0 + Z.pos k))
               - (e0 + Z.pos k)) with 1
        by (change (Z.pos (digits2_pos 9007199254740992)) with 54;
            unfold fexp, emin; rewrite Z.max_l by lia; lia).
      cbn [shr SpecFloat.iter_pos shr_1 shr_m orb].
      change (1024 - 53) with 971.
      replace (e0 + Z.pos k + 1 <=? 971) with true; [reflexivity |].
      symmetry. apply Z.leb_le. lia.
    + right. lia.
    + replace (e0 + Z.pos k + 1 - e0) with (Z.succ (Z.pos k)) by lia.
      rewrite Z.pow_succ_r by lia. fold W. lia.
  - exists m, (e0 + Z.pos k).
    assert (Hsize : Z.pos (Pos.size m) = 53).
    { apply size_unique; [lia |].
      change (2 ^ (53 - 1)) with 4503599627370496.
      change (2 ^ 53) with 9007199254740992. lia. }
    split; [| split].
    + unfold shr_fexp. cbn [Zdigits2 shr_record_of_loc].
      rewrite digits2_pos_size, Hsize.
      replace (fexp 53 1024 (53 + (e0 + Z.pos k)) - (e0 + Z.pos k)) with 0
        by (unfold fexp, emin; rewrite Z.max_l by lia; lia).
      cbn [shr shr_m].
      change (1024 - 53) with 971.
      replace (e0 + Z.pos k <=? 971) with true; [reflexivity |].
      symmetry. apply Z.leb_le. lia.
    + left. lia.
    + replace (e0 + Z.pos k - e0) with (Z.pos k) by lia. fold W. lia.
Qed.

Lemma iter_xO_spec (p k : positive) :
  Z.pos (Pos.iter xO p k) = Z.pos p * 2 ^ Z.pos k
  /\ Z.pos (Pos.size (Pos.iter xO p k)) = Z.pos (Pos.size p) + Z.pos k.
Proof.
  induction k as [|k IH] using Pos.peano_ind.
  - simpl. split; lia.
  - rewrite Pos.iter_succ. destruct IH as [IH1 IH2].
    rewrite Pos2Z.inj_succ, Z.pow_succ_r by lia.
    cbn [Pos.size]. rewrite Pos2Z.inj_succ, IH2, Pos2Z.inj_xO, IH1. split; lia.
Qed.

Lemma binary_round_aux_canonical (m : positive) (e : Z) :
  Z.pos (Pos.size m) = 53 -> -1074 <= e <= 971 ->
  binary_round_aux 53 1024 false (Z.pos m) e loc_Exact = S754_finite false m e.
Proof.
  intros Hsize He.
  assert (Hshift : fexp 53 1024 (53 + e) - e = 0)
    by (unfold fexp, emin; rewrite Z.max_l by lia; lia).
  unfold binary_round_aux, shr_fexp.
  cbn [Zdigits2 shr_record_of_loc]. rewrite digits2_pos_size, Hsize, Hshift.
  cbn [shr shr_m loc_of_shr_record round_nearest_even Zdigits2 shr_record_of_loc].
  rewrite digits2_pos_size, Hsize, Hshift. cbn [shr shr_m].
  change (1024 - 53) with 971.
  replace (e <=? 971) with true; [reflexivity |].
  symmetry. apply Z.leb_le. lia.
Qed.

Lemma binary_normalize_spec (p : positive) :
  Z.pos p < 2 ^ 53 ->
  let d := Z.pos (Pos.size p) in
  exists mx,
    binary_normalize 53 1024 (Z.pos p) 0 false = S754_finite false mx (d - 53)
    /\ Z.pos mx = Z.pos p * 2 ^ (53 - d)
    /\ Z.pos (Pos.size mx) = 53.
Proof.
  intros Hp d. pose proof (size_bounds p) as [Hlo Hhi]. fold d in Hlo, Hhi.
  assert (Hd : d <= 53).
  { assert (d - 1 < 53) by (apply (Z.pow_lt_mono_r_iff 2); lia). lia. }
  cbn [binary_normalize]. unfold binary_round.
  rewrite digits2_pos_size. fold d.
  assert (Hfexp : fexp 53 1024 (d + 0) = d - 53).
  { unfold fexp, emin. rewrite Z.max_l; lia. }
  rewrite Hfexp. unfold shl_align.
  destruct (d - 53 - 0) as [|k|k] eqn:Hk; try lia.
  - exists p. assert (d = 53) as Hd53 by lia.
    rewrite binary_round_aux_canonical by (fold d; lia).
    rewrite Hd53. split; [reflexivity |]. split; [simpl; lia | exact Hd53].
  - destruct (iter_xO_spec p k) as [Hval Hsize]. fold d in Hsize.
    exists (Pos.iter xO p k).
    rewrite binary_round_aux_canonical by lia.
    split; [reflexivity |]. split; [| lia].
    rewrite Hval. f_equal. f_equal. lia.
Qed.

(** The product of a length below 2^32 and [0.7]: a finite double
    [m * 2^-E], within half a unit in the last place of the exact product
    of the length and the double [0.7]. *)
Lemma mul_seven_tenths_spec (p : positive) :
  Z.pos p < 2 ^ 32 ->
  exists m E,
    Number.mul (binary_normalize 53 1024 (Z.pos p) 0 false) Number.seven_tenths
      = S754_finite false m (- E)
    /\ 3 <= E
    /\ 2 * Z.pos p * 6305039478318694 * 2 ^ E - 2 ^ 53
       <= 2 * Z.pos m * 2 ^ 53
       <= 2 * Z.pos p * 6305039478318694 * 2 ^ E + 2 ^ 53.
Proof.
  intros Hp.
  pose proof (size_bounds p) as [Hlo Hhi].
  set (d := Z.pos (Pos.size p)) in *.
  assert (Hd : 1 <= d <= 32).
  { split; [unfold d; lia |].
    assert (d - 1 < 32) by (apply (Z.pow_lt_mono_r_iff 2); lia). lia. }
  destruct (binary_normalize_spec p) as (mx & -> & Hmx & Hsize).
  { eapply Z.lt_trans; [exact Hp | reflexivity]. }
  fold d in Hmx |- *.
  unfold Number.mul, Number.seven_tenths, Number.prec, Number.emax.
  cbn [SFmul xorb].
  set (M := 6305039478318694%positive).
  set (T := 2 ^ (53 - d)) in *.
  assert (HT : 0 < T) by (apply Z.pow_pos_nonneg; lia).
  pose proof (size_bounds mx) as [Hmxlo Hmxhi]. rewrite Hsize in Hmxlo, Hmxhi.
  change (2 ^ (53 - 1)) with 4503599627370496 in Hmxlo.
  change (2 ^ 53) with 9007199254740992 in Hmxhi.
  pose proof (size_bounds (mx * M)) as [HPlo HPhi].
  set (D := Z.pos (Pos.size (mx * M))) in *.
  rewrite Pos2Z.inj_mul in HPlo, HPhi.
  assert (HD : 105 <= D <= 106).
  { split.
    - assert (104 < D); [| lia].
      apply (Z.pow_lt_mono_r_iff 2); [lia | unfold D; lia |].
      eapply Z.le_lt_trans; [| exact HPhi].
      change (2 ^ 104) with (4503599627370496 * 4503599627370496).
      unfold M. nia.
    - assert (D - 1 < 106); [| lia].
      apply (Z.pow_lt_mono_r_iff 2); [lia | lia |].
      eapply Z.le_lt_trans; [exact HPlo |].
      change (2 ^ 106) with (9007199254740992 * 9007199254740992).
      unfold M. nia. }
  destruct (binary_round_aux_spec (mx * M) (d - 53 + -53)) as (m & e & -> & He & Hbound).
  { fold D. lia. }
  { fold D. lia. }
  { fold D. lia. }
  fold D in He.
  exists m, (- e). rewrite Z.opp_involutive.
  split; [reflexivity |]. split; [lia |].
  rewrite Pos2Z.inj_mul, Hmx in Hbound.
  set (kk := e - (d - 53 + -53)) in *.
  assert (Hkk : 0 <= kk) by (unfold kk; lia).
  assert (HE : 0 <= - e) by lia.
  assert (Hprod : 2 ^ kk * 2 ^ (- e) = 2 ^ 53 * T).
  { unfold T. rewrite <- !Z.pow_add_r by lia. f_equal. unfold kk. lia. }
  set (A := 2 ^ (- e)) in *. set (B := 2 ^ kk) in *.
  assert (HA : 0 < A) by (apply Z.pow_pos_nonneg; lia).
  assert (HB : 0 < B) by (apply Z.pow_pos_nonneg; lia).
  change (2 ^ 53) with 9007199254740992 in *.
  fold M in Hbound |- *.
  clearbody A B T M. 
  split.
  - apply (Z.mul_le_mono_pos_r _ _ T HT).
    assert (H1 : (2 * (Z.pos p * T * Z.pos M) - B) * A <= 2 * Z.pos m * B * A) by nia.
    nia.
  - apply (Z.mul_le_mono_pos_r _ _ T HT).
    assert (H1 : 2 * Z.pos m * B * A <= (2 * (Z.pos p * T * Z.pos M) + B) * A) by nia.
    nia.
Qed.

Lemma estimate_spec (n : nat) :
  Z.of_nat n < 2 ^ 32 ->
  let N := Z.of_nat n in
  let estimate := Number.Math_round (Number.mul (Number.ofLength n) Number.seven_tenths) in
  Number.roundedSeventyPercent N - 1 <= estimate <= Number.roundedSeventyPercent N
  /\ ((7 * N) mod 10 <> 5 -> estimate = Number.roundedSeventyPercent N).
Proof.
  intros Hn N estimate. subst estimate. unfold Number.ofLength, Number.prec, Number.emax.
  fold N. unfold Number.roundedSeventyPercent.
  assert (HN0 : 0 <= N) by (unfold N; lia). fold N in Hn. clearbody N.
  destruct N as [|p|p]; try lia.
  - change (Number.Math_round _) with 0. change ((7 * 0 + 5) / 10) with 0.
    split; [lia | reflexivity].
  - destruct (mul_seven_tenths_spec p Hn) as (m & E & -> & HE & Hlo & Hhi).
    cbn [Number.Math_round].
    replace (0 <=? - E) with false by (symmetry; apply Z.leb_gt; lia).
    rewrite Z.opp_involutive.
    replace (1 - - E) with (Z.succ E) by lia. rewrite Z.pow_succ_r by lia.
    assert (HA : 8 <= 2 ^ E).
    { change 8 with (2 ^ 3). apply Z.pow_le_mono_r; lia. }
    set (A := 2 ^ E) in *. clearbody A.
    change (2 ^ 53) with 9007199254740992 in *.
    change (2 ^ 32) with 4294967296 in Hn.
    pose proof (Z.div_mod (7 * Z.pos p + 5) 10 ltac:(lia)) as Hdiv.
    pose proof (Z.mod_pos_bound (7 * Z.pos p + 5) 10 ltac:(lia)) as Hrho.
    set (K := (7 * Z.pos p + 5) / 10) in *.
    set (rho := (7 * Z.pos p + 5) mod 10) in *.
    assert (Hupper : 2 * Z.pos m < (2 * K + 1) * A).
    { apply (Z.mul_lt_mono_pos_r (10 * 9007199254740992)); [lia |]. nia. }
    assert (Hlower : (2 * K - 3) * A <= 2 * Z.pos m).
    { apply (Z.mul_le_mono_pos_r _ _ (10 * 9007199254740992)); [lia |]. nia. }
    split.
    + split.
      * apply Z.div_le_lower_bound; [lia |]. nia.
      * assert ((2 * Z.pos m + A) / (2 * A) < K + 1); [| lia].
        apply Z.div_lt_upper_bound; [lia |]. nia.
    + intros Htie.
      assert (Hrho1 : 1 <= rho).
      { unfold rho. clear - Htie.
        assert ((7 * Z.pos p + 5) mod 10 <> 0); [| pose proof (Z.mod_pos_bound (7 * Z.pos p + 5) 10); lia].
        intros H0. apply Htie.
        pose proof (Z.div_mod (7 * Z.pos p) 10 ltac:(lia)).
        pose proof (Z.mod_pos_bound (7 * Z.pos p) 10 ltac:(lia)).
        pose proof (Z.div_mod (7 * Z.pos p + 5) 10 ltac:(lia)).
        lia. }
      assert (Hlower' : (2 * K - 1) * A <= 2 * Z.pos m).
      { apply (Z.mul_le_mono_pos_r _ _ (10 * 9007199254740992)); [lia |]. nia. }
      apply Z.le_antisymm.
      * assert ((2 * Z.pos m + A) / (2 * A) < K + 1); [| lia].
        apply Z.div_lt_upper_bound; [lia |]. nia.
      * apply Z.div_le_lower_bound; [lia |]. nia.
Qed.
End Doubles.

(** C7, as the code has it. Without a streaming compressor,
    [calculateGzipSize] returns [Math.round] of the product, in double
    precision, of the byte length and the double [0.7]: a function of the
    byte length alone. For a byte length below 2^32 this is 7/10 of the
    length rounded to the nearest integer, exactly, unless 7/10 of the
    length lies halfway between two integers; there it is the half rounded
    up, or one less. *)
Theorem calculateGzipSize_fallback (env : Env) (content : string) (w : World) :
  CompressionStream env = None →
  let n := WasmBundler.byteLength content in
  let exact := Number.roundedSeventyPercent n in
  ∃ gzipSize,
    WasmBundler.calculateGzipSize env content w = (Returned gzipSize, w)
    ∧ gzipSize =
      Number.Math_round
        (Number.mul (Number.ofLength (String.length content)) Number.seven_tenths)
    ∧ ((n < 2 ^ 32)%Z →
       (exact - 1 ≤ gzipSize ≤ exact)%Z
       ∧ (((7 * n) mod 10)%Z ≠ 5%Z → gzipSize = exact)).
Proof.
  intros Hnone n exact. eexists. split; [| split].
  - rewrite calculateGzipSize_unfold, Hnone. reflexivity.
  - reflexivity.
  - intros Hn. exact (estimate_spec (String.length content) Hn).
Qed.

Lemma calculateGzipSize_fallback_witness :
  ∃ gzipSize,
    WasmBundler.calculateGzipSize (Scenario.world []) "export {two};" Scenario.start
      = (Returned gzipSize, Scenario.start)
    ∧ gzipSize = 9%Z.
Proof.
  destruct (calculateGzipSize_fallback (Scenario.world []) "export {two};"
              Scenario.start eq_refl)
    as (gzipSize & Hrun & _ & Hexact).
  exists gzipSize. split; [exact Hrun |].
  destruct (Hexact eq_refl) as [_ Hnotie]. apply Hnotie. vm_compute. discriminate.
Defined.

(** C7 as stated fails for a bundle of 45 bytes: 7/10 of 45 is 31.5, which
    rounds to 32; the product of 45 and the double [0.7] is the double just
    below 31.5, and the code returns 31. *)
Lemma calculateGzipSize_45_bytes :
  WasmBundler.byteLength Scenario.code45 = 45%Z
  ∧ WasmBundler.calculateGzipSize (Scenario.world []) Scenario.code45 Scenario.start
    = (Returned 31%Z, Scenario.start)
  ∧ Number.mul (Number.ofLength 45) Number.seven_tenths
    = S754_finite false 8866461766385663 (-48)
  ∧ (2 * 8866461766385663 < 63 * 2 ^ 48)%Z
  ∧ Number.roundedSeventyPercent 45 = 32%Z.
Proof. repeat split; vm_compute; reflexivity. Qed.

(** * Further properties *)

(** ** Strings *)

Lemma split_nonempty (sep : ascii) (s : string) : Js.split sep s ≠ [].
Proof.
  induction s as [|c s IH]; simpl; [discriminate |].
  destruct (Ascii.eqb c sep); [discriminate |].
  destruct (Js.split sep s); [contradiction | discriminate].
Qed.

Lemma split_app_sep (sep : ascii) (a b : string) :
  Js.split sep (a +:+ String sep b) = Js.split sep a ++ Js.split sep b.
Proof.
  induction a as [|c a IH].
  - change (Js.split sep (String sep b) = [""] ++ Js.split sep b).
    simpl. now rewrite Ascii.eqb_refl.
  - change (Js.split sep (String c (a +:+ String sep b)) =
            Js.split sep (String c a) ++ Js.split sep b).
    simpl. rewrite IH. destruct (Ascii.eqb c sep); [reflexivity |].
    pose proof (split_nonempty sep a) as Hne.
    destruct (Js.split sep a) as [|seg segs]; [contradiction | reflexivity].
Qed.

Lemma split_noChar (sep : ascii) (s : string) :
  noChar sep s → Js.split sep s = [s].
Proof.
  unfold noChar. induction s as [|c s IH]; simpl; [reflexivity |].
  intros Hnot. destruct (Ascii.eqb_spec c sep) as [-> | Hne].
  - exfalso. apply Hnot. now left.
  - rewrite IH; [reflexivity |]. intros Hin. apply Hnot. now right.
Qed.

Lemma split_segments (sep : ascii) (s : string) :
  Forall (noChar sep) (Js.split sep s).
Proof.
  induction s as [|c s IH]; simpl.
  - constructor; [intros [] | constructor].
  - destruct (Ascii.eqb_spec c sep) as [-> | Hne].
    + constructor; [intros [] | exact IH].
    + destruct (Js.split sep s) as [|seg segs]; [constructor; [| constructor] |].
      * unfold noChar. simpl. intros [H | []]. congruence.
      * apply Forall_cons in IH as [Hseg Hsegs].
        constructor; [| exact Hsegs].
        unfold noChar in *. simpl. intros [H | H]; [congruence | contradiction].
Qed.

Lemma join_cons_cons (sep x y : string) (l : list string) :
  Js.join sep (x :: y :: l) = x +:+ sep +:+ Js.join sep (y :: l).
Proof. reflexivity. Qed.

Lemma join_of_split (sep : ascii) (s : string) :
  Js.join (String sep "") (Js.split sep s) = s.
Proof.
  induction s as [|c s IH]; [reflexivity |].
  simpl. destruct (Ascii.eqb_spec c sep) as [-> | Hne].
  - pose proof (split_nonempty sep s) as Hne.
    destruct (Js.split sep s) as [|seg segs]; [contradiction |].
    rewrite join_cons_cons, IH. reflexivity.
  - pose proof (split_nonempty sep s) as Hne'.
    destruct (Js.split sep s) as [|seg segs]; [contradiction |].
    destruct segs as [|seg' segs].
    + simpl in *. now rewrite IH.
    + rewrite join_cons_cons in *. rewrite <- IH. reflexivity.
Qed.

Lemma split_of_join (sep : ascii) (l : list string) :
  l ≠ [] → Forall (noChar sep) l →
  Js.split sep (Js.join (String sep "") l) = l.
Proof.
  induction l as [|x l IH]; [contradiction |]. intros _ Hall.
  apply Forall_cons in Hall as [Hx Hl].
  destruct l as [|y l].
  - simpl. now apply split_noChar.
  - rewrite join_cons_cons.
    change (x +:+ String sep "" +:+ Js.join (String sep "") (y :: l))
      with (x +:+ String sep (Js.join (String sep "") (y :: l))).
    rewrite split_app_sep, (split_noChar sep x Hx), IH; [reflexivity | discriminate | exact Hl].
Qed.

(** ** resolvePath *)

Lemma segments_are_segments (s : string) : Forall segment (segments s).
Proof.
  unfold segments. apply Forall_forall. intros p Hp.
  apply list_elem_of_filter in Hp as [Hne Hin]. split; [exact Hne |].
  pose proof (split_segments "/" s) as Hall.
  rewrite Forall_forall in Hall. now apply Hall.
Qed.

Lemma segments_app (a b : string) :
  segments (a +:+ "/" +:+ b) = segments a ++ segments b.
Proof.
  unfold segments.
  change (a +:+ "/" +:+ b) with (a +:+ String "/" b).
  now rewrite split_app_sep, filter_app.
Qed.

Lemma segments_join (l : list string) :
  Forall segment l → segments (Js.join "/" l) = l.
Proof.
  intros Hall. unfold segments. destruct l as [|x l]; [reflexivity |].
  rewrite split_of_join; [| discriminate | eapply Forall_impl; [exact Hall | now intros ? []]].
  clear -Hall. induction Hall as [|y l' [Hy _] _ IH]; [reflexivity |].
  now rewrite filter_cons_True, IH.
Qed.

Lemma dropLast_segments (l : list string) :
  Forall segment l → Forall segment (Js.dropLast l).
Proof.
  intros Hall. unfold Js.dropLast.
  induction Hall as [|x l' Hx Hl IH]; [constructor |].
  simpl. destruct l'; [constructor |]. now constructor.
Qed.

Lemma resolvePath_step_segments (parts : list string) (part : string) :
  Forall segment parts → segment part →
  Forall segment (Resolver.resolvePath_step parts part).
Proof.
  intros Hparts Hpart. unfold Resolver.resolvePath_step.
  destruct (String.eqb part ".."); [now apply dropLast_segments |].
  destruct (String.eqb part "."); simpl; [exact Hparts |].
  apply Forall_app. split; [exact Hparts | now constructor].
Qed.

Lemma resolvePath_parts_segments (relativeParts parts : list string) :
  Forall segment parts → Forall segment relativeParts →
  Forall segment (foldl Resolver.resolvePath_step parts relativeParts).
Proof.
  revert parts. induction relativeParts as [|part rest IH]; intros parts Hparts Hrel.
  - exact Hparts.
  - apply Forall_cons in Hrel as [Hpart Hrest]. simpl.
    apply IH; [now apply resolvePath_step_segments | exact Hrest].
Qed.

Lemma resolvePath_segments (basePath relativePath : string) :
  segments (Resolver.resolvePath basePath relativePath) =
  foldl Resolver.resolvePath_step (segments basePath) (segments relativePath).
Proof.
  unfold Resolver.resolvePath. apply segments_join.
  apply resolvePath_parts_segments; apply segments_are_segments.
Qed.

Lemma segments_join_parts (l : list string) :
  Forall (noChar "/") l → segments (Js.join "/" l) = filter (λ p, p ≠ "") l.
Proof.
  intros Hall. unfold segments. destruct l as [|x l]; [reflexivity |].
  now rewrite split_of_join.
Qed.

Lemma filter_segments (l : list string) :
  Forall segment l → filter (λ p, p ≠ "") l = l.
Proof.
  intros Hall. induction Hall as [|x l [Hx _] _ IH]; [reflexivity |].
  now rewrite filter_cons_True, IH.
Qed.

Lemma importerDir_join (ds : list string) (base : string) :
  Forall (noChar "/") (ds ++ [base]) →
  Resolver.importerDir (Js.join "/" (ds ++ [base])) = Js.join "/" ds.
Proof.
  intros Hall. unfold Resolver.importerDir, Js.dropLast.
  rewrite split_of_join; [| now destruct ds | exact Hall].
  now rewrite removelast_last.
Qed.

Lemma resolvePath_step_cases (parts : list string) (part : string) :
  Resolver.resolvePath_step parts part =
  if decide (part = "..") then removelast parts
  else if decide (part = ".") then parts
  else parts ++ [part].
Proof.
  unfold Resolver.resolvePath_step, Js.dropLast.
  destruct (String.eqb_spec part "..") as [-> | Hparent].
  - now destruct (decide (".." = "..")).
  - destruct (decide (part = "..")); [contradiction |].
    destruct (String.eqb_spec part ".") as [-> | Hcurrent]; cbn [negb].
    + now destruct (decide ("." = ".")).
    + now destruct (decide (part = ".")).
Qed.

Lemma foldl_resolvePath_step (relativeParts parts : list string) :
  foldl Resolver.resolvePath_step parts relativeParts =
  foldl (λ (stack : list string) (part : string),
           if decide (part = "..") then removelast stack
           else if decide (part = ".") then stack
           else stack ++ [part]) parts relativeParts.
Proof.
  revert parts. induction relativeParts as [|part rest IH]; intros parts; [reflexivity |].
  cbn [foldl]. now rewrite IH, resolvePath_step_cases.
Qed.

(** The path that [resolveImport] probes, from the parts of the importer
    and of the specifier. *)
Lemma resolvePath_importerDir (ds rs : list string) (base : string) :
  Forall (noChar "/") (ds ++ [base]) → Forall (noChar "/") rs →
  Resolver.resolvePath (Resolver.importerDir (Js.join "/" (ds ++ [base])))
    (Js.join "/" rs) =
  Js.join "/"
    (foldl (λ (stack : list string) (part : string),
              if decide (part = "..") then removelast stack
              else if decide (part = ".") then stack
              else stack ++ [part])
       (filter (λ d, d ≠ "") ds) (filter (λ r, r ≠ "") rs)).
Proof.
  intros Hp Hs. rewrite (importerDir_join ds base Hp).
  apply Forall_app in Hp as [Hds _].
  unfold Resolver.resolvePath.
  fold (segments (Js.join "/" ds)) (segments (Js.join "/" rs)).
  now rewrite !segments_join_parts, foldl_resolvePath_step.
Qed.

(** C4. For a relative specifier [s] (one that starts with [./] or [../]),
    [resolveImport s p F] joins the directory of the importer [p] with [s]
    and probes the suffixes [''], [.js], [.mjs], [.ts], [/index.js],
    [/index.mjs], [/index.ts] in that order: it returns the first candidate
    that is a key of [F], and none when no suffix matches. A joined path
    that is itself a key of [F] is returned unchanged. The joined path is
    made of the parts of [p] between slashes, but the last one, followed by
    those of [s], the empty parts left out, where a part [.] of [s] is
    skipped and a part [..] of [s] removes the part before it, if there is
    one: for an importer [d1/.../dn/base], the specifier [./name] gives
    [d1/.../dn/name] and [../name] gives [d1/.../d(n-1)/name]. *)
Theorem resolveImport_relative (s p : string) (F : gmap string string) :
  Js.startsWith s "./" = true ∨ Js.startsWith s "../" = true →
  let joined := Resolver.resolvePath (Resolver.importerDir p) s in
  let walk := λ (stack : list string) (part : string),
    if decide (part = "..") then removelast stack
    else if decide (part = ".") then stack
    else stack ++ [part] in
  Resolver.extensions = [""; ".js"; ".mjs"; ".ts"; "/index.js"; "/index.mjs"; "/index.ts"]
  ∧ (∀ c, Resolver.resolveImport s p F = Some c ↔
          ∃ i ext, Resolver.extensions !! i = Some ext ∧ c = joined +:+ ext ∧
                   is_Some (F !! c) ∧
                   ∀ j ext', j < i → Resolver.extensions !! j = Some ext' →
                             F !! (joined +:+ ext') = None)
  ∧ (Resolver.resolveImport s p F = None ↔
     ∀ ext, ext ∈ Resolver.extensions → F !! (joined +:+ ext) = None)
  ∧ (is_Some (F !! joined) → Resolver.resolveImport s p F = Some joined)
  ∧ (∀ ds base rs,
       Forall (noChar "/") (ds ++ [base]) → Forall (noChar "/") rs →
       p = Js.join "/" (ds ++ [base]) → s = Js.join "/" rs →
       joined = Js.join "/" (foldl walk (filter (λ d, d ≠ "") ds)
                               (filter (λ r, r ≠ "") rs)))
  ∧ (∀ ds base name,
       Forall segment ds → noChar "/" base →
       segment name → name ≠ "." → name ≠ ".." →
       p = Js.join "/" (ds ++ [base]) →
       (s = "./" +:+ name → joined = Js.join "/" (ds ++ [name]))
       ∧ (s = "../" +:+ name → joined = Js.join "/" (removelast ds ++ [name]))).
Proof.
  intros Hrel joined walk.
  assert (Hdot := relative_starts_with_dot s Hrel).
  assert (Hrun : Resolver.resolveImport s p F =
                 Resolver.firstPresent F ((λ ext, joined +:+ ext) <$> Resolver.extensions)).
  { unfold Resolver.resolveImport. rewrite Hdot.
    replace (Js.startsWith s "./" || Js.startsWith s "../") with true
      by (symmetry; apply orb_true_iff; exact Hrel).
    fold joined. simpl negb. cbv iota.
    now destruct (Resolver.firstPresent F _). }
  assert (Hjoined : ∀ ds base rs,
            Forall (noChar "/") (ds ++ [base]) → Forall (noChar "/") rs →
            p = Js.join "/" (ds ++ [base]) → s = Js.join "/" rs →
            joined = Js.join "/" (foldl walk (filter (λ d, d ≠ "") ds)
                                    (filter (λ r, r ≠ "") rs))).
  { intros ds base rs Hp Hs -> ->. now apply resolvePath_importerDir. }
  split; [reflexivity |]. split; [| split; [| split; [| split; [exact Hjoined |]]]].
  - intros c. rewrite Hrun, firstPresent_Some. split.
    + intros (i & Hi & Hc & Hfirst).
      apply list_lookup_fmap_Some in Hi as (ext & -> & Hi).
      exists i, ext. repeat split; try assumption.
      intros j ext' Hj Hext'. apply (Hfirst j); [assumption |].
      now apply list_lookup_fmap_Some_2.
    + intros (i & ext & Hi & -> & Hc & Hfirst).
      exists i. repeat split; try assumption.
      * now apply list_lookup_fmap_Some_2.
      * intros j c' Hj Hc'.
        apply list_lookup_fmap_Some in Hc' as (ext' & -> & Hext').
        now apply (Hfirst j).
  - rewrite Hrun, firstPresent_None. split.
    + intros H ext Hext. apply H. now apply list_elem_of_fmap_2.
    + intros H c Hc. apply list_elem_of_fmap in Hc as (ext & -> & Hext). now apply H.
  - intros Hkey. rewrite Hrun. unfold Resolver.extensions.
    rewrite fmap_cons. cbn [Resolver.firstPresent].
    rewrite string_app_empty_r.
    now apply has_true in Hkey as ->.
  - intros ds base name Hds Hbase [Hname Hslash] Hcurrent Hparent Hp.
    assert (Hparts : Forall (noChar "/") (ds ++ [base])).
    { apply Forall_app. split; [| now constructor].
      eapply Forall_impl; [exact Hds | now intros ? []]. }
    assert (Hwalk : ∀ stack, walk stack name = stack ++ [name]).
    { intros stack. unfold walk.
      destruct (decide (name = "..")); [contradiction |].
      now destruct (decide (name = ".")). }
    split; intros Hs.
    + rewrite (Hjoined ds base ["."; name]); [| exact Hparts | | exact Hp | exact Hs].
      * rewrite (filter_segments ds Hds), filter_cons_True by discriminate.
        rewrite filter_cons_True by exact Hname.
        cbn [filter foldl]. now rewrite Hwalk.
      * constructor; [| now constructor]. unfold noChar. simpl.
        intros [H | []]. discriminate.
    + rewrite (Hjoined ds base [".."; name]); [| exact Hparts | | exact Hp | exact Hs].
      * rewrite (filter_segments ds Hds), filter_cons_True by discriminate.
        rewrite filter_cons_True by exact Hname.
        cbn [filter foldl]. now rewrite Hwalk.
      * constructor; [| now constructor]. unfold noChar. simpl.
        intros [H | [H | []]]; discriminate.
Qed.

Lemma resolveImport_relative_witness :
  Resolver.resolveImport "./lib" "src/main.js"
    (<["src/lib/index.js" := "x"]> (<["src/lib.ts" := "y"]> ∅)) = Some "src/lib.ts".
Proof.
  destruct (resolveImport_relative "./lib" "src/main.js"
              (<["src/lib/index.js" := "x"]> (<["src/lib.ts" := "y"]> ∅))
              (or_introl eq_refl))
    as (_ & Hsome & _ & _ & _ & Hjoin).
  assert (Hnone : ∀ t : string, noChar "/" t ↔ ¬ In "/"%char (list_ascii_of_string t))
    by reflexivity.
  destruct (Hjoin ["src"] "main.js" "lib") as [Hcurrent _].
  - constructor; [| constructor]. split; [discriminate |].
    apply Hnone. simpl. intros H. decompose [or] H; discriminate || contradiction.
  - apply Hnone. simpl. intros H. decompose [or] H; discriminate || contradiction.
  - split; [discriminate |].
    apply Hnone. simpl. intros H. decompose [or] H; discriminate || contradiction.
  - discriminate.
  - discriminate.
  - reflexivity.
  - apply Hsome. exists 3, ".ts". rewrite (Hcurrent eq_refl).
    split; [reflexivity |]. split; [reflexivity |].
    split; [vm_compute; eauto |].
    intros j ext' Hj Hext'.
    destruct j as [|[|[|j]]]; [| | | lia]; injection Hext' as <-;
      vm_compute; reflexivity.
Defined.

(** X14. Resolving in two steps is resolving the two relative paths
    joined by a slash: [resolvePath (resolvePath b r1) r2] is
    [resolvePath b (r1/r2)]. A resolved path is a fixed point: resolving
    [.] or the empty path against it gives it back. *)
Theorem resolvePath_composes (basePath first second : string) :
  Resolver.resolvePath (Resolver.resolvePath basePath first) second =
    Resolver.resolvePath basePath (first +:+ "/" +:+ second)
  ∧ Resolver.resolvePath (Resolver.resolvePath basePath first) "." =
    Resolver.resolvePath basePath first
  ∧ Resolver.resolvePath (Resolver.resolvePath basePath first) "" =
    Resolver.resolvePath basePath first.
Proof.
  assert (Hcompose : ∀ r,
            Resolver.resolvePath (Resolver.resolvePath basePath first) r =
            Resolver.resolvePath basePath (first +:+ "/" +:+ r)).
  { intros r. unfold Resolver.resolvePath at 1.
    fold (segments (Resolver.resolvePath basePath first)). fold (segments r).
    rewrite resolvePath_segments, <- foldl_app, <- segments_app. reflexivity. }
  split; [apply Hcompose |].
  assert (Hsame : ∀ r, foldl Resolver.resolvePath_step
                         (segments (Resolver.resolvePath basePath first)) (segments r)
                       = segments (Resolver.resolvePath basePath first) →
            Resolver.resolvePath (Resolver.resolvePath basePath first) r =
            Resolver.resolvePath basePath first).
  { intros r Hr. unfold Resolver.resolvePath at 1.
    fold (segments (Resolver.resolvePath basePath first)). fold (segments r).
    rewrite Hr, resolvePath_segments. reflexivity. }
  split; apply Hsame; reflexivity.
Qed.

(** ** getLoader *)

Lemma toLowerCase_ascii_not_dot (c : ascii) :
  c ≠ "."%char → WasmBundler.toLowerCase_ascii c ≠ "."%char.
Proof.
  intros Hc. unfold WasmBundler.toLowerCase_ascii.
  destruct ((65 <=? nat_of_ascii c)%nat && (nat_of_ascii c <=? 90)%nat) eqn:Hrange;
    [| exact Hc].
  apply andb_true_iff in Hrange as [Hlo Hhi].
  apply Nat.leb_le in Hlo, Hhi. intros Heq.
  apply (f_equal nat_of_ascii) in Heq.
  rewrite nat_ascii_embedding in Heq by lia.
  change (nat_of_ascii ".") with 46 in Heq. lia.
Qed.

Lemma toLowerCase_noChar (s : string) :
  noChar "." s → noChar "." (WasmBundler.toLowerCase s).
Proof.
  unfold noChar. induction s as [|c s IH]; simpl; [auto |].
  intros Hnot [Hc | Hin].
  - apply (toLowerCase_ascii_not_dot c); [| exact Hc]. intros ->. apply Hnot. now left.
  - apply IH; [| exact Hin]. intros H. apply Hnot. now right.
Qed.

Lemma toLowerCase_ascii_idem (c : ascii) :
  WasmBundler.toLowerCase_ascii (WasmBundler.toLowerCase_ascii c) =
  WasmBundler.toLowerCase_ascii c.
Proof.
  unfold WasmBundler.toLowerCase_ascii at 2 3. cbv zeta.
  destruct ((65 <=? nat_of_ascii c)%nat && (nat_of_ascii c <=? 90)%nat) eqn:Hrange;
    [| unfold WasmBundler.toLowerCase_ascii; now rewrite Hrange].
  apply andb_true_iff in Hrange as [Hlo Hhi].
  apply Nat.leb_le in Hlo, Hhi.
  unfold WasmBundler.toLowerCase_ascii. cbv zeta.
  rewrite nat_ascii_embedding by lia.
  replace (nat_of_ascii c + 32 <=? 90)%nat with false
    by (symmetry; apply Nat.leb_gt; lia).
  now rewrite andb_false_r.
Qed.

Lemma toLowerCase_idem (s : string) :
  WasmBundler.toLowerCase (WasmBundler.toLowerCase s) = WasmBundler.toLowerCase s.
Proof.
  induction s as [|c s IH]; simpl; [reflexivity |].
  now rewrite toLowerCase_ascii_idem, IH.
Qed.

Lemma last_split_suffix (sep : ascii) (stem ext : string) :
  noChar sep ext →
  List.last (Js.split sep (stem +:+ String sep ext)) "" = ext.
Proof.
  intros Hext. rewrite split_app_sep, (split_noChar sep ext Hext).
  apply last_last.
Qed.

(** X16. [getLoader] looks only at what follows the last dot of the
    path, whatever the letter case: a path [stem.ext] gets the loader of
    [ext] alone, and the loader of its lower-case spelling; [.ts], [.tsx],
    [.jsx], [.json] and [.css] get their own loader and [.js] and [.mjs] the
    loader [js], for every stem. *)
Theorem getLoader_extension (stem ext : string) :
  noChar "." ext →
  WasmBundler.getLoader (stem +:+ "." +:+ ext) = WasmBundler.getLoader ext
  ∧ WasmBundler.getLoader (stem +:+ "." +:+ WasmBundler.toLowerCase ext)
    = WasmBundler.getLoader (stem +:+ "." +:+ ext)
  ∧ WasmBundler.getLoader (stem +:+ ".ts") = loader_ts
  ∧ WasmBundler.getLoader (stem +:+ ".tsx") = loader_tsx
  ∧ WasmBundler.getLoader (stem +:+ ".jsx") = loader_jsx
  ∧ WasmBundler.getLoader (stem +:+ ".json") = loader_json
  ∧ WasmBundler.getLoader (stem +:+ ".css") = loader_css
  ∧ WasmBundler.getLoader (stem +:+ ".js") = loader_js
  ∧ WasmBundler.getLoader (stem +:+ ".mjs") = loader_js.
Proof.
  intros Hext.
  assert (Hsuffix : ∀ e, noChar "." e →
            WasmBundler.getLoader (stem +:+ "." +:+ e) = WasmBundler.getLoader e).
  { intros e He. unfold WasmBundler.getLoader.
    change (stem +:+ "." +:+ e) with (stem +:+ String "." e).
    rewrite (last_split_suffix "." stem e He), (split_noChar "." e He). reflexivity. }
  assert (Hknown : ∀ e, noChar "." e → WasmBundler.getLoader (stem +:+ String "." e)
                                        = WasmBundler.getLoader e)
    by exact Hsuffix.
  split; [now apply Hsuffix |]. split.
  - rewrite !Hsuffix by (try apply toLowerCase_noChar; exact Hext).
    unfold WasmBundler.getLoader.
    rewrite (split_noChar "." ext Hext),
      (split_noChar "." _ (toLowerCase_noChar ext Hext)).
    simpl List.last. now rewrite toLowerCase_idem.
  - repeat split;
      match goal with
      | |- WasmBundler.getLoader (stem +:+ String "." ?e) = _ =>
          rewrite (Hknown e) by (unfold noChar; simpl; intuition discriminate);
          reflexivity
      end.
Qed.

Lemma getLoader_extension_witness :
  WasmBundler.getLoader "src/App.TSX" = WasmBundler.getLoader "TSX"
  ∧ WasmBundler.getLoader "src/App.tsx" = WasmBundler.getLoader "src/App.TSX".
Proof.
  refine (let H := getLoader_extension "src/App" "TSX" _ in conj (proj1 H) (proj1 (proj2 H))).
  unfold noChar. simpl. intuition discriminate.
Defined.

(** ** The path polyfill *)

Lemma truthy_true (s : string) : Js.truthy s = true ↔ s ≠ "".
Proof.
  unfold Js.truthy. rewrite negb_true_iff. apply String.eqb_neq.
Qed.

Lemma truthy_false (s : string) : Js.truthy s = false ↔ s = "".
Proof.
  unfold Js.truthy. rewrite negb_false_iff. apply String.eqb_eq.
Qed.

Lemma startsWith_slash (s : string) :
  Js.startsWith s "/" = true ↔ ∃ s', s = String "/" s'.
Proof.
  unfold Js.startsWith. destruct s as [|c s]; cbn [String.prefix].
  - split; [discriminate | intros [? [=]]].
  - destruct (ascii_dec "/" c) as [<- | Hne].
    + split; [eauto | now destruct s].
    + split; [discriminate | intros [? [= ->]]; contradiction].
Qed.

Lemma startsWith_slash_cons (c : ascii) (s : string) :
  Js.startsWith (String c s) "/" = Ascii.eqb c "/".
Proof.
  unfold Js.startsWith. cbn [String.prefix].
  destruct (ascii_dec "/" c) as [<- | Hne]; [now destruct s |].
  symmetry. apply Ascii.eqb_neq. congruence.
Qed.

Lemma startsWith_slash_nil : Js.startsWith "" "/" = false.
Proof. reflexivity. Qed.

Lemma string_app_nil_l (s : string) : "" +:+ s = s.
Proof. reflexivity. Qed.

Lemma string_app_cons (c : ascii) (a b : string) :
  String c a +:+ b = String c (a +:+ b).
Proof. reflexivity. Qed.

Ltac slashes :=
  rewrite ?string_app_cons, ?string_app_nil_l in *;
  cbn [doubleSlash Path.collapseSlashes Path.stripTrailingSlash] in *;
  rewrite ?startsWith_slash_cons, ?startsWith_slash_nil, ?Ascii.eqb_refl in *;
  cbn [andb orb] in *.

Lemma doubleSlash_app (a b : string) : doubleSlash (a +:+ "//" +:+ b) = true.
Proof.
  induction a as [|c a IH]; [now slashes |].
  slashes. rewrite IH. apply orb_true_r.
Qed.

Lemma collapseSlashes_startsWith (s : string) :
  Js.startsWith (Path.collapseSlashes s) "/" = Js.startsWith s "/".
Proof.
  induction s as [|c s IH]; [reflexivity |]. slashes.
  destruct (Ascii.eqb_spec c "/") as [-> | Hne]; cbn [andb].
  - destruct (Js.startsWith s "/") eqn:Hs; [now rewrite IH | now slashes].
  - slashes. now apply Ascii.eqb_neq.
Qed.

Lemma collapseSlashes_single (s : string) : doubleSlash (Path.collapseSlashes s) = false.
Proof.
  induction s as [|c s IH]; [reflexivity |]. slashes.
  destruct (Ascii.eqb c "/" && Js.startsWith s "/") eqn:Hc; [exact IH |].
  slashes. now rewrite collapseSlashes_startsWith, Hc, IH.
Qed.

Lemma collapseSlashes_id (s : string) :
  doubleSlash s = false → Path.collapseSlashes s = s.
Proof.
  induction s as [|c s IH]; [reflexivity |]. slashes.
  intros H. apply orb_false_iff in H as [Hhead Htail].
  rewrite Hhead, IH by exact Htail. reflexivity.
Qed.

Lemma lastChar_None (s : string) : lastChar s = None → s = "".
Proof.
  induction s as [|c s IH]; [reflexivity |]. cbn [lastChar].
  destruct s; [discriminate |]. intros H. discriminate (IH H).
Qed.

Lemma rev_app_lastChar (s acc : string) :
  ∃ t, String.rev_app s acc =
       match lastChar s with
       | Some c => String c t
       | None => acc
       end.
Proof.
  revert acc. induction s as [|c s IH]; intros acc; [now exists "" |].
  cbn [String.rev_app lastChar]. destruct s as [|c' s]; [now exists acc |].
  destruct (IH (String c acc)) as [t Hrev]. exists t. rewrite Hrev.
  destruct (lastChar (String c' s)) eqn:Hlast; [reflexivity |].
  discriminate (lastChar_None _ Hlast).
Qed.

Lemma prefix_nil (s : string) : String.prefix "" s = true.
Proof. now destruct s. Qed.

Lemma endsWith_slash (s : string) :
  Js.endsWith s "/" = true ↔ lastChar s = Some "/"%char.
Proof.
  unfold Js.endsWith, String.rev.
  change (String.rev_app "/" "") with "/".
  destruct (rev_app_lastChar s "") as [t Hrev]. rewrite Hrev.
  destruct (lastChar s) as [c|]; [| split; discriminate].
  cbn [String.prefix]. rewrite prefix_nil.
  destruct (ascii_dec "/" c) as [<- | Hne]; [tauto |].
  split; [discriminate | intros [= ->]; contradiction].
Qed.

Lemma stripTrailingSlash_empty (s : string) :
  Path.stripTrailingSlash s = "" → s = "" ∨ s = "/".
Proof.
  destruct s as [|c s]; [now left |]. simpl.
  destruct s as [|c' s]; [| discriminate].
  destruct (Ascii.eqb_spec c "/") as [-> | Hne]; [now right | discriminate].
Qed.

Lemma stripTrailingSlash_lastChar (s : string) :
  doubleSlash s = false → lastChar (Path.stripTrailingSlash s) ≠ Some "/"%char.
Proof.
  induction s as [|c s IH]; [discriminate |].
  intros H. cbn [doubleSlash] in H. apply orb_false_iff in H as [Hhead Htail].
  cbn [Path.stripTrailingSlash]. destruct s as [|c' s].
  - destruct (Ascii.eqb_spec c "/") as [-> | Hne]; [discriminate |].
    simpl. congruence.
  - specialize (IH Htail).
    destruct (Path.stripTrailingSlash (String c' s)) as [|d t] eqn:Hstrip.
    + apply stripTrailingSlash_empty in Hstrip as [[=] | [= -> ->]].
      simpl in Hhead. rewrite andb_true_r in Hhead.
      simpl. intros [= ->]. discriminate.
    + exact IH.
Qed.

Lemma stripTrailingSlash_id (s : string) :
  lastChar s ≠ Some "/"%char → Path.stripTrailingSlash s = s.
Proof.
  induction s as [|c s IH]; [reflexivity |]. intros H.
  cbn [Path.stripTrailingSlash]. destruct s as [|c' s].
  - destruct (Ascii.eqb_spec c "/") as [-> | Hne]; [now contradiction H | reflexivity].
  - f_equal. apply IH. exact H.
Qed.

Lemma stripTrailingSlash_startsWith (s : string) :
  Js.startsWith (Path.stripTrailingSlash s) "/" = true → Js.startsWith s "/" = true.
Proof.
  destruct s as [|c s]; [discriminate |]. cbn [Path.stripTrailingSlash].
  destruct s as [|c' s]; [| now rewrite !startsWith_slash; intros [t [= -> _]]; eauto].
  destruct (Ascii.eqb_spec c "/") as [-> | Hne]; [reflexivity | auto].
Qed.

Lemma stripTrailingSlash_single (s : string) :
  doubleSlash s = false → doubleSlash (Path.stripTrailingSlash s) = false.
Proof.
  induction s as [|c s IH]; [reflexivity |].
  intros H. cbn [doubleSlash] in H. apply orb_false_iff in H as [Hhead Htail].
  cbn [Path.stripTrailingSlash]. destruct s as [|c' s].
  - destruct (Ascii.eqb c "/"); [reflexivity |]. slashes. now rewrite andb_false_r.
  - cbn [doubleSlash]. rewrite (IH Htail), orb_false_r.
    destruct (Ascii.eqb c "/"); [| reflexivity]. cbn [andb] in *.
    destruct (Js.startsWith (Path.stripTrailingSlash (String c' s)) "/") eqn:Hs;
      [| reflexivity].
    apply stripTrailingSlash_startsWith in Hs. congruence.
Qed.

Lemma stripTrailingSlash_absolute (s : string) :
  Js.startsWith s "/" = true →
  Path.stripTrailingSlash s = "" ∨ Js.startsWith (Path.stripTrailingSlash s) "/" = true.
Proof.
  intros H. apply startsWith_slash in H as [t ->].
  cbn [Path.stripTrailingSlash]. destruct t; [now left | right].
  now rewrite startsWith_slash_cons.
Qed.

Lemma join_normal (paths : list string) :
  let t := Path.stripTrailingSlash (Path.collapseSlashes (Js.join "/" paths)) in
  doubleSlash t = false ∧ lastChar t ≠ Some "/"%char.
Proof.
  split.
  - apply stripTrailingSlash_single, collapseSlashes_single.
  - apply stripTrailingSlash_lastChar, collapseSlashes_single.
Qed.

(** X22. [path.join] returns a normal form: never the empty string, no
    two slashes in a row, no slash at the end unless the result is [/]; and
    joining its result alone gives it back. [path.resolve] returns a path
    that starts with a slash. *)
Theorem Path_join_normal (paths : list string) :
  let joined := Path.join paths in
  joined ≠ ""
  ∧ (joined = "/" ∨ Js.endsWith joined "/" = false)
  ∧ (∀ a b, joined ≠ a +:+ "//" +:+ b)
  ∧ Path.join [joined] = joined
  ∧ Js.startsWith (Path.resolve paths) "/" = true.
Proof.
  cbn zeta. split; [| split; [| split; [| split]]].
  - unfold Path.join. destruct (Js.truthy _) eqn:Ht; [| discriminate].
    now apply truthy_true.
  - unfold Path.join. destruct (Js.truthy _) eqn:Ht; [| now left].
    right. apply not_true_iff_false. rewrite endsWith_slash.
    apply (join_normal paths).
  - intros a b Heq. unfold Path.join in Heq.
    destruct (join_normal paths) as [Hsingle _]. cbn zeta in Hsingle.
    destruct (Js.truthy _) eqn:Ht.
    + rewrite Heq, doubleSlash_app in Hsingle. discriminate.
    + destruct a as [|c a]; [discriminate |]. destruct a; discriminate.
  - destruct (join_normal paths) as [Hsingle Hlast]. cbn zeta in Hsingle, Hlast.
    unfold Path.join at 2 3.
    destruct (Js.truthy _) eqn:Ht; [| reflexivity].
    unfold Path.join.
    change (Js.join "/" [?t]) with t.
    rewrite (collapseSlashes_id _ Hsingle), (stripTrailingSlash_id _ Hlast).
    now rewrite Ht.
  - unfold Path.resolve, Path.join.
    assert (Habs : Js.startsWith (Path.collapseSlashes (Js.join "/" ("/" :: paths))) "/"
                   = true).
    { rewrite collapseSlashes_startsWith. destruct paths; [reflexivity |].
      rewrite join_cons_cons. now rewrite string_app_cons, startsWith_slash_cons. }
    destruct (stripTrailingSlash_absolute _ Habs) as [-> | Hs]; [reflexivity |].
    destruct (Js.truthy _); [exact Hs | reflexivity].
Qed.

Lemma last_split_noChar (sep : ascii) (s : string) :
  noChar sep (List.last (Js.split sep s) "").
Proof.
  pose proof (split_segments sep s) as Hall.
  pose proof (split_nonempty sep s) as Hne.
  destruct (exists_last Hne) as (l & x & Heq). rewrite Heq in *.
  rewrite last_last. apply Forall_app in Hall as [_ Hx].
  now apply Forall_cons in Hx as [Hx _].
Qed.

(** X23. For a name without a slash, [dirname] and [basename] take a
    path [dir/name] apart: [basename] gives [name], and [dirname] gives
    [dir] when [dir] is not empty. [dirname] of a bare name, and of a name
    right under the root, is [/]. *)
Theorem Path_dirname_basename (dir base : string) :
  noChar "/" base →
  Path.dirname base = "/"
  ∧ Path.basename base None = base
  ∧ Path.dirname ("/" +:+ base) = "/"
  ∧ (dir ≠ "" → Path.dirname (dir +:+ "/" +:+ base) = dir)
  ∧ Path.basename (dir +:+ "/" +:+ base) None = base.
Proof.
  intros Hbase.
  assert (Hsplit : ∀ d, Js.split "/" (d +:+ "/" +:+ base) = Js.split "/" d ++ [base]).
  { intros d. change (d +:+ "/" +:+ base) with (d +:+ String "/" base).
    now rewrite split_app_sep, (split_noChar "/" base Hbase). }
  assert (Hdir : ∀ d, Path.dirname (d +:+ "/" +:+ base) = if Js.truthy d then d else "/").
  { intros d. unfold Path.dirname, Js.dropLast.
    now rewrite Hsplit, removelast_last, join_of_split. }
  split; [| split; [| split; [| split]]].
  - unfold Path.dirname. now rewrite (split_noChar "/" base Hbase).
  - unfold Path.basename. now rewrite (split_noChar "/" base Hbase).
  - exact (Hdir "").
  - intros Hne. rewrite Hdir. now apply truthy_true in Hne as ->.
  - unfold Path.basename. rewrite Hsplit. apply last_last.
Qed.

Lemma Path_dirname_basename_witness :
  Path.dirname "src/core/main.js" = "src/core"
  ∧ Path.basename "src/core/main.js" None = "main.js".
Proof.
  assert (noChar "/" "main.js") as Hbase by (unfold noChar; simpl; intuition discriminate).
  destruct (Path_dirname_basename "src/core" "main.js" Hbase) as (_ & _ & _ & Hdir & Hname).
  split; [apply Hdir; discriminate | exact Hname].
Defined.

Lemma string_app_assoc (a b c : string) : (a +:+ b) +:+ c = a +:+ (b +:+ c).
Proof.
  induction a as [|x a IH]; [reflexivity |].
  rewrite !string_app_cons. now rewrite IH.
Qed.

Lemma string_length_app (a b : string) :
  String.length (a +:+ b) = String.length a + String.length b.
Proof.
  induction a as [|x a IH]; [reflexivity |].
  rewrite string_app_cons. simpl. now rewrite IH.
Qed.

Lemma rev_app_app (a x acc : string) :
  String.rev_app (a +:+ x) acc = String.rev_app x (String.rev_app a acc).
Proof.
  revert acc. induction a as [|c a IH]; intros acc; [reflexivity |].
  rewrite string_app_cons. cbn [String.rev_app]. apply IH.
Qed.

Lemma rev_app_acc (x acc : string) :
  String.rev_app x acc = String.rev_app x "" +:+ acc.
Proof.
  revert acc. induction x as [|c x IH]; intros acc; [reflexivity |].
  cbn [String.rev_app]. rewrite (IH (String c acc)), (IH (String c "")).
  now rewrite string_app_assoc.
Qed.

Lemma prefix_app (p y : string) : String.prefix p (p +:+ y) = true.
Proof.
  induction p as [|c p IH]; [apply prefix_nil |].
  rewrite string_app_cons. cbn [String.prefix].
  destruct (ascii_dec c c) as [_ | Hne]; [exact IH | contradiction].
Qed.

Lemma endsWith_app (a x : string) : Js.endsWith (a +:+ x) x = true.
Proof.
  unfold Js.endsWith, String.rev.
  rewrite rev_app_app, (rev_app_acc x (String.rev_app a "")). apply prefix_app.
Qed.

Lemma substring_all (x : string) : String.substring 0 (String.length x) x = x.
Proof. induction x as [|c x IH]; [reflexivity |]. simpl. now rewrite IH. Qed.

Lemma sliceFrom_app (a x : string) : Path.sliceFrom (String.length a) (a +:+ x) = x.
Proof.
  unfold Path.sliceFrom. rewrite string_length_app.
  replace (String.length a + String.length x - String.length a) with (String.length x) by lia.
  induction a as [|c a IH]; [apply substring_all |].
  rewrite string_app_cons. exact IH.
Qed.

Lemma sliceEnd_app (a x : string) : Path.sliceEnd (String.length x) (a +:+ x) = a.
Proof.
  unfold Path.sliceEnd. rewrite string_length_app.
  replace (String.length a + String.length x - String.length x) with (String.length a) by lia.
  induction a as [|c a IH]; [now destruct x |].
  rewrite string_app_cons. simpl. now rewrite IH.
Qed.

Lemma lastIndexOf_None (c : ascii) (s : string) :
  Path.lastIndexOf c s = None → noChar c s.
Proof.
  unfold noChar. induction s as [|c' s IH]; simpl; [auto |].
  destruct (Path.lastIndexOf c s); [discriminate |].
  destruct (Ascii.eqb_spec c' c) as [-> | Hne]; [discriminate |].
  intros _ [H | H]; [contradiction | now apply IH].
Qed.

Lemma lastIndexOf_Some (c : ascii) (s : string) (i : nat) :
  Path.lastIndexOf c s = Some i →
  ∃ a b, s = a +:+ String c b ∧ String.length a = i ∧ noChar c b.
Proof.
  revert i. induction s as [|c' s IH]; intros i; simpl; [discriminate |].
  destruct (Path.lastIndexOf c s) as [j|] eqn:Hlast.
  - intros [= <-]. destruct (IH j eq_refl) as (a & b & -> & Hlen & Hb).
    exists (String c' a), b. repeat split; [simpl; now rewrite Hlen | exact Hb].
  - destruct (Ascii.eqb_spec c' c) as [-> | Hne]; [| discriminate].
    intros [= <-]. exists "", s. repeat split. now apply lastIndexOf_None.
Qed.

(** X24. [extname] gives the empty string or the part of the last path
    segment from its last dot on (a dot that does not start the segment);
    it holds no slash, it depends on the last segment only, and putting it
    back after [basename(p, extname(p))] gives [basename(p)]. *)
Theorem Path_extname_basename (p : string) :
  Path.basename p (Some (Path.extname p)) +:+ Path.extname p = Path.basename p None
  ∧ (Path.extname p = "" ∨ ∃ rest, Path.extname p = String "." rest ∧ noChar "." rest)
  ∧ Path.extname (Path.basename p None) = Path.extname p
  ∧ noChar "/" (Path.extname p).
Proof.
  assert (Hbase : noChar "/" (List.last (Js.split "/" p) "")) by apply last_split_noChar.
  assert (Hext :
    Path.extname p = "" ∨
    ∃ a rest, List.last (Js.split "/" p) "" = a +:+ String "." rest
              ∧ Path.extname p = String "." rest ∧ noChar "." rest).
  { unfold Path.extname.
    destruct (Path.lastIndexOf "." _) as [i|] eqn:Hlast; [| now left].
    destruct (0 <? i)%nat; [| now left]. right.
    apply lastIndexOf_Some in Hlast as (a & rest & Heq & <- & Hrest).
    exists a, rest. split; [exact Heq |]. split; [| exact Hrest].
    rewrite Heq. apply sliceFrom_app. }
  split; [| split; [| split]].
  - unfold Path.basename.
    destruct Hext as [-> | (a & rest & Heq & -> & _)]; [apply string_app_empty_r |].
    rewrite Heq, endsWith_app. simpl andb. cbv iota.
    now rewrite sliceEnd_app.
  - destruct Hext as [-> | (a & rest & _ & -> & Hrest)]; [now left | right; eauto].
  - unfold Path.extname, Path.basename.
    now rewrite (split_noChar "/" _ Hbase).
  - destruct Hext as [-> | (a & rest & Heq & -> & _)]; [intros [] |].
    rewrite Heq in Hbase. unfold noChar in *. intros Hin. apply Hbase.
    clear -Hin. induction a as [|c a IH]; [exact Hin | right; exact IH].
Qed.

Lemma join_segments_relative (l : list string) :
  Forall segment l → Js.startsWith (Js.join "/" l) "/" = false.
Proof.
  intros Hall. destruct Hall as [|x l [Hne Hx] _]; [reflexivity |].
  destruct x as [|c x]; [contradiction |].
  assert (c ≠ "/"%char) as Hc by (intros ->; apply Hx; now left).
  destruct l as [|y l].
  - change (Js.join "/" [String c x]) with (String c x).
    rewrite startsWith_slash_cons. now apply Ascii.eqb_neq.
  - rewrite join_cons_cons, string_app_cons, startsWith_slash_cons.
    now apply Ascii.eqb_neq.
Qed.

(** X15. The path that [resolvePath] returns is empty or made of
    non-empty parts joined by single slashes, and it never starts with a
    slash: the leading slash of a base path is dropped, so [/src] and [src]
    resolve alike; a [..] at the root is ignored. *)
Theorem resolvePath_normal_form (basePath relativePath : string) :
  let resolved := Resolver.resolvePath basePath relativePath in
  (resolved = "" ∨ Forall (λ part, part ≠ "") (Js.split "/" resolved))
  ∧ Js.startsWith resolved "/" = false
  ∧ Resolver.resolvePath ("/" +:+ basePath) relativePath = resolved
  ∧ Resolver.resolvePath "" ("../" +:+ relativePath) = Resolver.resolvePath "" relativePath.
Proof.
  cbn zeta.
  assert (Hparts : Forall segment
            (foldl Resolver.resolvePath_step (segments basePath) (segments relativePath)))
    by (apply resolvePath_parts_segments; apply segments_are_segments).
  split; [| split; [| split]].
  - unfold Resolver.resolvePath. fold (segments basePath) (segments relativePath).
    destruct (foldl Resolver.resolvePath_step (segments basePath) (segments relativePath))
      as [|x l] eqn:Hfold; [now left |].
    right. rewrite split_of_join; [| discriminate |].
    + eapply Forall_impl; [exact Hparts | now intros ? []].
    + eapply Forall_impl; [exact Hparts | now intros ? []].
  - unfold Resolver.resolvePath. fold (segments basePath) (segments relativePath).
    now apply join_segments_relative.
  - unfold Resolver.resolvePath.
    fold (segments ("/" +:+ basePath)) (segments basePath) (segments relativePath).
    change ("/" +:+ basePath) with ("" +:+ "/" +:+ basePath).
    now rewrite segments_app.
  - unfold Resolver.resolvePath.
    fold (segments ("../" +:+ relativePath)) (segments relativePath).
    change ("../" +:+ relativePath) with (".." +:+ "/" +:+ relativePath).
    now rewrite segments_app.
Qed.

(** ** The hash of the crypto polyfill *)

Section Hash.
Local Open Scope Z_scope.

Lemma toInt32_range (z : Z) : - 2 ^ 31 <= Crypto.toInt32 z < 2 ^ 31.
Proof.
  unfold Crypto.toInt32.
  pose proof (Z.mod_pos_bound (z + 2 ^ 31) (2 ^ 32) ltac:(lia)). lia.
Qed.

Lemma toInt32_wraps (z : Z) : ∃ q, Crypto.toInt32 z = z + q * 2 ^ 32.
Proof.
  exists (- ((z + 2 ^ 31) / 2 ^ 32)). unfold Crypto.toInt32.
  pose proof (Z.div_mod (z + 2 ^ 31) (2 ^ 32) ltac:(lia)). lia.
Qed.

Lemma toInt32_periodic (z q : Z) : Crypto.toInt32 (z + q * 2 ^ 32) = Crypto.toInt32 z.
Proof.
  unfold Crypto.toInt32.
  replace (z + q * 2 ^ 32 + 2 ^ 31) with (z + 2 ^ 31 + q * 2 ^ 32) by lia.
  now rewrite Z_mod_plus_full.
Qed.

Lemma toInt32_id (z : Z) : - 2 ^ 31 <= z < 2 ^ 31 → Crypto.toInt32 z = z.
Proof.
  intros Hz. unfold Crypto.toInt32. rewrite Z.mod_small by lia. lia.
Qed.

Lemma step_spec (hash c : Z) : Crypto.step hash c = Crypto.toInt32 (31 * hash + c).
Proof.
  unfold Crypto.step, Crypto.bitAnd, Crypto.shiftLeft.
  change (Crypto.toInt32 4294967295) with (-1). rewrite Z.land_m1_r.
  rewrite Z.shiftl_mul_pow2 by lia.
  destruct (toInt32_wraps hash) as [q1 ->].
  destruct (toInt32_wraps ((hash + q1 * 2 ^ 32) * 2 ^ 5)) as [q2 ->].
  replace ((hash + q1 * 2 ^ 32) * 2 ^ 5 + q2 * 2 ^ 32 - hash + c)
    with (31 * hash + c + (32 * q1 + q2) * 2 ^ 32) by lia.
  apply toInt32_periodic.
Qed.

Lemma hashOf_from (str : list Z) (acc : Z) :
  foldl Crypto.step (Crypto.toInt32 acc) str =
  Crypto.toInt32 (foldl (λ a c, 31 * a + c) acc str).
Proof.
  revert acc. induction str as [|c str IH]; intros acc; [reflexivity |].
  cbn [foldl]. rewrite <- IH. f_equal. rewrite step_spec.
  destruct (toInt32_wraps acc) as [q ->].
  replace (31 * (acc + q * 2 ^ 32) + c) with (31 * acc + c + (31 * q) * 2 ^ 32) by lia.
  apply toInt32_periodic.
Qed.

(** X25. The loop of the [hex] digest computes, in 32-bit signed
    arithmetic, the polynomial c0 * 31^(n-1) + ... + c(n-1) of the code
    units: each turn replaces the hash [h] by [31 * h + c] wrapped to 32
    bits, and the hash stays within [-2^31, 2^31). *)
Theorem hashOf_polynomial (str : list Z) (c : Z) :
  Crypto.hashOf str = Crypto.toInt32 (polynomial str)
  ∧ - 2 ^ 31 <= Crypto.hashOf str < 2 ^ 31
  ∧ Crypto.hashOf (str ++ [c]) = Crypto.toInt32 (31 * Crypto.hashOf str + c).
Proof.
  assert (Hpoly : ∀ l, Crypto.hashOf l = Crypto.toInt32 (polynomial l)).
  { intros l. unfold Crypto.hashOf, polynomial.
    change 0 with (Crypto.toInt32 0) at 1. apply hashOf_from. }
  split; [apply Hpoly |]. split; [rewrite Hpoly; apply toInt32_range |].
  unfold Crypto.hashOf. rewrite foldl_app. cbn [foldl]. apply step_spec.
Qed.

(** *** Hexadecimal digits *)

Lemma hexDigit_value (d : Z) :
  0 <= d < 16 → hexValue (Crypto.hexDigit d) = d ∧ isHexDigit (Crypto.hexDigit d).
Proof.
  intros Hd. unfold isHexDigit.
  assert (d = 0 ∨ d = 1 ∨ d = 2 ∨ d = 3 ∨ d = 4 ∨ d = 5 ∨ d = 6 ∨ d = 7 ∨ d = 8 ∨
          d = 9 ∨ d = 10 ∨ d = 11 ∨ d = 12 ∨ d = 13 ∨ d = 14 ∨ d = 15) as Hcases by lia.
  repeat (destruct Hcases as [-> | Hcases]; [split; [reflexivity | set_solver] |]).
  subst d. split; [reflexivity | set_solver].
Qed.

Lemma parseHexFrom_app (v : Z) (a b : string) :
  parseHexFrom v (a +:+ b) = parseHexFrom (parseHexFrom v a) b.
Proof.
  revert v. induction a as [|c a IH]; intros v; [reflexivity |].
  change (String c a +:+ b) with (String c (a +:+ b)). simpl. apply IH.
Qed.

(** With enough fuel, the digits are those of [n], and as few as [n]
    needs. *)
Lemma toString16_digits_spec (k : nat) :
  ∀ (fuel : nat) (n : Z) (acc : string),
    (S k <= fuel)%nat → 0 <= n < 16 ^ Z.of_nat (S k) →
    ∃ ds, Crypto.toString16_digits fuel n acc = ds +:+ acc
          ∧ (1 <= String.length ds <= S k)%nat
          ∧ parseHexFrom 0 ds = n
          ∧ Forall isHexDigit (list_ascii_of_string ds).
Proof.
  induction k as [|k IH]; intros fuel n acc Hfuel Hn.
  - destruct fuel as [|fuel]; [lia |]. cbn [Crypto.toString16_digits].
    change (16 ^ Z.of_nat 1) with 16 in Hn.
    replace (n <? 16) with true by (symmetry; apply Z.ltb_lt; lia).
    rewrite Z.mod_small by lia.
    destruct (hexDigit_value n Hn) as [Hvalue Hdigit].
    exists (String (Crypto.hexDigit n) ""). repeat split.
    + simpl. lia.
    + simpl. lia.
    + simpl. lia.
    + simpl. constructor; [exact Hdigit | constructor].
  - destruct fuel as [|fuel]; [lia |]. cbn [Crypto.toString16_digits].
    pose proof (Z.mod_pos_bound n 16 ltac:(lia)) as Hmod.
    destruct (hexDigit_value (n mod 16) Hmod) as [Hvalue Hdigit].
    destruct (n <? 16) eqn:Hsmall.
    + exists (String (Crypto.hexDigit (n mod 16)) ""). apply Z.ltb_lt in Hsmall.
      rewrite Z.mod_small in * by lia. repeat split.
      * simpl. lia.
      * simpl. lia.
      * simpl. lia.
      * simpl. constructor; [exact Hdigit | constructor].
    + apply Z.ltb_ge in Hsmall.
      assert (0 <= n / 16 < 16 ^ Z.of_nat (S k)) as Hdiv.
      { split; [apply Z.div_pos; lia |].
        apply Z.div_lt_upper_bound; [lia |].
        replace (Z.of_nat (S (S k))) with (Z.of_nat (S k) + 1) in Hn by lia.
        rewrite Z.pow_add_r in Hn by lia. lia. }
      destruct (IH fuel (n / 16) (String (Crypto.hexDigit (n mod 16)) acc)
                  ltac:(lia) Hdiv) as (ds & -> & Hlen & Hparse & Hall).
      exists (ds +:+ String (Crypto.hexDigit (n mod 16)) "").
      split; [| split; [| split]].
      * clear. induction ds as [|c ds IHds]; [reflexivity |].
        change (String c ds +:+ ?x) with (String c (ds +:+ x)).
        change (String c (ds +:+ ?x) +:+ ?y) with (String c ((ds +:+ x) +:+ y)).
        now rewrite IHds.
      * assert (String.length (ds +:+ String (Crypto.hexDigit (n mod 16)) "")
                = S (String.length ds)) as ->; [| lia].
        clear. induction ds as [|c ds IHds]; [reflexivity |].
        change (String c ds +:+ ?x) with (String c (ds +:+ x)). simpl. now rewrite IHds.
      * rewrite parseHexFrom_app, Hparse. simpl. rewrite Hvalue.
        pose proof (Z.div_mod n 16 ltac:(lia)). lia.
      * assert (list_ascii_of_string (ds +:+ String (Crypto.hexDigit (n mod 16)) "")
                = list_ascii_of_string ds ++ [Crypto.hexDigit (n mod 16)]) as ->.
        { clear. induction ds as [|c ds IHds]; [reflexivity |].
          change (String c ds +:+ ?x) with (String c (ds +:+ x)). simpl. now rewrite IHds. }
        apply Forall_app. split; [exact Hall | constructor; [exact Hdigit | constructor]].
Qed.

Lemma toString16_spec (n : Z) (k : nat) :
  0 <= n < 16 ^ Z.of_nat (S k) →
  (1 <= String.length (Crypto.toString16 n) <= S k)%nat
  ∧ parseHex (Crypto.toString16 n) = n
  ∧ Forall isHexDigit (list_ascii_of_string (Crypto.toString16 n)).
Proof.
  intros Hn. unfold Crypto.toString16, parseHex.
  set (bits := Z.to_nat (Z.log2 n)).
  set (j := Nat.min k (Z.to_nat (Z.log2 n / 4))).
  assert (0 <= Z.log2 n) as Hlog by apply Z.log2_nonneg.
  assert (0 <= Z.log2 n / 4) as Hquot by (apply Z.div_pos; lia).
  assert (0 <= n < 16 ^ Z.of_nat (S j)) as Hj.
  { split; [lia |]. unfold j.
    destruct (Nat.min_spec k (Z.to_nat (Z.log2 n / 4))) as [[_ ->] | [_ ->]]; [lia |].
    destruct (Z.eq_dec n 0) as [-> | Hpos]; [apply Z.pow_pos_nonneg; lia |].
    pose proof (Z.log2_spec n ltac:(lia)) as [_ Hup].
    eapply Z.lt_le_trans; [exact Hup |].
    change 16 with (2 ^ 4). rewrite <- Z.pow_mul_r by lia.
    apply Z.pow_le_mono_r; [lia |].
    pose proof (Z.div_mod (Z.log2 n) 4 ltac:(lia)).
    pose proof (Z.mod_pos_bound (Z.log2 n) 4 ltac:(lia)). lia. }
  assert (S j <= S bits)%nat as Hfuel.
  { unfold j, bits.
    assert (Z.log2 n / 4 <= Z.log2 n) by (apply Z.div_le_upper_bound; lia). lia. }
  destruct (toString16_digits_spec j (S bits) n "" Hfuel Hj)
    as (ds & Hrun & Hlen & Hparse & Hall).
  rewrite Hrun, string_app_empty_r.
  split; [unfold j in Hlen; lia |]. split; [exact Hparse | exact Hall].
Qed.

Lemma padStart_spec (n : nat) (s : string) :
  String.length (Crypto.padStart n "0" s) = Nat.max n (String.length s)
  ∧ parseHex (Crypto.padStart n "0" s) = parseHex s
  ∧ (Forall isHexDigit (list_ascii_of_string s) →
     Forall isHexDigit (list_ascii_of_string (Crypto.padStart n "0" s))).
Proof.
  unfold Crypto.padStart, parseHex.
  assert (∀ pad, String.length (string_of_list_ascii (repeat "0"%char pad) +:+ s)
                 = (pad + String.length s)%nat) as Hlen.
  { induction pad as [|pad IH]; [reflexivity |]. simpl.
    change (String ?c ?a +:+ ?b) with (String c (a +:+ b)). simpl. now rewrite IH. }
  assert (∀ pad, parseHexFrom 0 (string_of_list_ascii (repeat "0"%char pad) +:+ s)
                 = parseHexFrom 0 s) as Hparse.
  { induction pad as [|pad IH]; [reflexivity |]. simpl.
    change (String ?c ?a +:+ ?b) with (String c (a +:+ b)). simpl. exact IH. }
  assert (∀ pad, Forall isHexDigit (list_ascii_of_string s) →
                 Forall isHexDigit
                   (list_ascii_of_string (string_of_list_ascii (repeat "0"%char pad) +:+ s)))
    as Hall.
  { intros pad Hs. induction pad as [|pad IH]; [exact Hs |]. simpl.
    change (String ?c ?a +:+ ?b) with (String c (a +:+ b)). simpl.
    constructor; [unfold isHexDigit; set_solver | exact IH]. }
  split; [rewrite Hlen; lia |]. split; [apply Hparse | apply Hall].
Qed.

(** X26. The [hex] digest of [createHash('sha256')] is always a string
    of exactly eight lower-case hexadecimal digits, whose value is the
    absolute value of the 32-bit hash of the data (at most 2^31). *)
Theorem digestHex_format (str : list Z) :
  let digest := Crypto.digestHex str in
  Crypto.createHash "sha256" str (Some "hex") = Returned (Crypto.digest_hex digest)
  ∧ String.length digest = 8%nat
  ∧ Forall isHexDigit (list_ascii_of_string digest)
  ∧ parseHex digest = Z.abs (Crypto.hashOf str)
  ∧ Z.abs (Crypto.hashOf str) <= 2 ^ 31.
Proof.
  cbn zeta. split; [reflexivity |].
  assert (- 2 ^ 31 <= Crypto.hashOf str < 2 ^ 31) as Hrange.
  { unfold Crypto.hashOf.
    change (foldl Crypto.step 0 str) with (foldl Crypto.step (Crypto.toInt32 0) str).
    rewrite hashOf_from. apply toInt32_range. }
  assert (0 <= Z.abs (Crypto.hashOf str) < 16 ^ Z.of_nat 8) as Habs.
  { change (16 ^ Z.of_nat 8) with (2 ^ 32). lia. }
  destruct (toString16_spec _ 7 Habs) as (Hlen & Hparse & Hall).
  destruct (padStart_spec 8 (Crypto.toString16 (Z.abs (Crypto.hashOf str))))
    as (Hpadlen & Hpadparse & Hpadall).
  unfold Crypto.digestHex.
  split; [rewrite Hpadlen; lia |]. split; [now apply Hpadall |].
  split; [now rewrite Hpadparse |]. lia.
Qed.
End Hash.

(** ** The package source *)

Lemma traverse_files : ∀ (obj : ListingNode) (basePath : string),
  Forall isFile (CDNPackageManager.traverse obj basePath).
Proof.
  fix IH 1. intros [sz | [files |] |] basePath; cbn [CDNPackageManager.traverse].
  - constructor; [reflexivity | constructor].
  - induction files as [|[name node] rest IHrest]; simpl; [constructor |].
    apply Forall_app. split; [apply IH | exact IHrest].
  - constructor.
  - constructor.
Qed.

Lemma traverse_paths : ∀ (obj : ListingNode) (basePath : string) (f : CDNFile),
  f ∈ CDNPackageManager.traverse obj basePath →
  ∃ rest, path f = basePath +:+ rest
          ∧ (basePath ≠ "" → rest = "" ∨ Js.startsWith rest "/" = true).
Proof.
  fix IH 1. intros [sz | [files |] |] basePath f; cbn [CDNPackageManager.traverse].
  - intros Hf. apply list_elem_of_singleton in Hf as ->.
    exists "". split; [symmetry; apply string_app_empty_r | now left].
  - induction files as [|[name node] rest IHrest]; simpl; [intros Hf; inversion Hf |].
    intros Hf. apply elem_of_app in Hf as [Hf | Hf]; [| now apply IHrest].
    apply IH in Hf as (tail & Hpath & _).
    destruct (Js.truthy basePath) eqn:Hbase.
    + exists ("/" +:+ name +:+ tail). split.
      * rewrite Hpath. now rewrite !string_app_assoc.
      * intros _. right. now rewrite string_app_cons, startsWith_slash_cons.
    + apply truthy_false in Hbase as ->. exists (name +:+ tail).
      split; [exact Hpath | contradiction].
  - intros Hf. inversion Hf.
  - intros Hf. inversion Hf.
Qed.

(** X4. [parseUnpkgListing] returns file entries only. A listing whose
    root is itself a file gives one entry with the empty path, and a
    directory without [files] gives none. Every entry of a directory
    listing comes from one of its children, and its path is the name of
    that child, alone or followed by a slash and the path below it. *)
Theorem parseUnpkgListing_entries (data : ListingNode) :
  Forall isFile (CDNPackageManager.parseUnpkgListing data)
  ∧ (∀ size, data = file_node size →
             CDNPackageManager.parseUnpkgListing data =
             [ {| path := ""; file_size := default 0%Z size; type := file |} ])
  ∧ (data = directory_node None → CDNPackageManager.parseUnpkgListing data = [])
  ∧ (∀ children f,
       data = directory_node (Some children) →
       f ∈ CDNPackageManager.parseUnpkgListing data →
       ∃ name node rest,
         (name, node) ∈ children
         ∧ path f = name +:+ rest
         ∧ (name ≠ "" → rest = "" ∨ Js.startsWith rest "/" = true)).
Proof.
  split; [apply traverse_files |]. split; [now intros size -> |].
  split; [now intros -> |].
  intros children f -> Hf.
  unfold CDNPackageManager.parseUnpkgListing in Hf.
  cbn [CDNPackageManager.traverse] in Hf.
  apply list_elem_of_In, in_flat_map in Hf as ([name node] & Hchild & Hf).
  change (Js.truthy "") with false in Hf. cbn [fst snd] in Hf.
  apply list_elem_of_In, traverse_paths in Hf as (rest & Hpath & Hrest).
  exists name, node, rest. split; [now apply list_elem_of_In | now split].
Qed.

Lemma parseUnpkgListing_entries_witness :
  ∃ name node rest,
    (name, node) ∈ [("lib", directory_node (Some [("a.js", file_node None)]))]
    ∧ "lib/a.js" = name +:+ rest
    ∧ (name ≠ "" → rest = "" ∨ Js.startsWith rest "/" = true).
Proof.
  apply (proj2 (proj2 (proj2 (parseUnpkgListing_entries
                                (directory_node
                                   (Some [("lib", directory_node
                                                    (Some [("a.js", file_node None)]))])))))
           _ {| path := "lib/a.js"; file_size := 0; type := file |} eq_refl).
  apply list_elem_of_singleton. reflexivity.
Defined.

Section Discovery.
Variable env : Env.
Variable defaultCDN : CDN.
Variable packageSpec : string.

Lemma checkFile_run (existingFiles : list CDNFile) (filePath : string) (w : World) :
  ∃ found,
    CDNPackageManager.checkFile env defaultCDN packageSpec existingFiles filePath w =
      (Returned (existingFiles ++ found),
       extend (probeRequests defaultCDN packageSpec [filePath]) w)
    ∧ Forall isFile found
    ∧ (path <$> found) `sublist_of` [filePath].
Proof.
  unfold CDNPackageManager.checkFile, tryCatch, bind, fetch, probeRequests.
  simpl map. rewrite <- log_extend.
  destruct (fetch_response env (trace w) HEAD _) as [e | r].
  - exists []. rewrite app_nil_r. repeat split; [constructor | apply sublist_nil_l].
  - destruct (ok r).
    + eexists [_]. repeat split; [constructor; [reflexivity | constructor] | reflexivity].
    + exists []. rewrite app_nil_r. repeat split; [constructor | apply sublist_nil_l].
Qed.

Lemma checkFiles_run (l : list string) :
  ∀ (existingFiles : list CDNFile) (w : World),
  ∃ found,
    foldM (CDNPackageManager.checkFile env defaultCDN packageSpec) existingFiles l w =
      (Returned (existingFiles ++ found), extend (probeRequests defaultCDN packageSpec l) w)
    ∧ Forall isFile found
    ∧ (path <$> found) `sublist_of` l.
Proof.
  induction l as [|filePath rest IH]; intros existingFiles w.
  - exists []. rewrite app_nil_r. cbn [foldM probeRequests map]. rewrite extend_nil.
    repeat split; [constructor | reflexivity].
  - cbn [foldM]. unfold bind at 1.
    destruct (checkFile_run existingFiles filePath w) as (found & -> & Hfiles & Hsub).
    destruct (IH (existingFiles ++ found) (extend (probeRequests defaultCDN packageSpec [filePath]) w))
      as (found' & -> & Hfiles' & Hsub').
    exists (found ++ found'). rewrite extend_extend, app_assoc.
    repeat split.
    + now apply Forall_app.
    + rewrite fmap_app. change (filePath :: rest) with ([filePath] ++ rest).
      now apply sublist_app.
Qed.
End Discovery.

(** X3. [discoverCommonFiles] never rejects: it sends a HEAD request
    for each of the twelve conventional paths, in their order, whatever the
    answers are, and returns file entries whose paths are among the twelve,
    none of them twice. *)
Theorem discoverCommonFiles_probes (env : Env) (defaultCDN : CDN) (packageSpec : string)
    (w : World) :
  ∃ files,
    CDNPackageManager.discoverCommonFiles env defaultCDN packageSpec w =
      (Returned files,
       extend (probeRequests defaultCDN packageSpec CDNPackageManager.commonFiles) w)
    ∧ length (probeRequests defaultCDN packageSpec CDNPackageManager.commonFiles) = 12
    ∧ (path <$> files) ⊆ CDNPackageManager.commonFiles
    ∧ NoDup (path <$> files)
    ∧ Forall isFile files.
Proof.
  destruct (checkFiles_run env defaultCDN packageSpec CDNPackageManager.commonFiles [] w)
    as (found & Hrun & Hfiles & Hsub).
  exists found. split; [exact Hrun |]. split; [reflexivity |].
  split; [now apply sublist_subseteq |]. split; [| exact Hfiles].
  eapply sublist_NoDup; [| exact Hsub].
  apply (bool_decide_unpack _). vm_compute. exact I.
Qed.

Lemma discoverCommonFiles_run (env : Env) (defaultCDN : CDN) (packageSpec : string)
    (w : World) :
  ∃ files,
    CDNPackageManager.discoverCommonFiles env defaultCDN packageSpec w =
      (Returned files,
       extend (probeRequests defaultCDN packageSpec CDNPackageManager.commonFiles) w)
    ∧ Forall isFile files.
Proof.
  destruct (checkFiles_run env defaultCDN packageSpec CDNPackageManager.commonFiles [] w)
    as (found & Hrun & Hfiles & _).
  now exists found.
Qed.

(** [getFileList] never rejects, and lists files only. *)
Lemma getFileList_returns (env : Env) (defaultCDN : CDN) (packageSpec : string)
    (w : World) :
  ∃ files w',
    CDNPackageManager.getFileList env defaultCDN packageSpec w = (Returned files, w')
    ∧ Forall isFile files.
Proof.
  unfold CDNPackageManager.getFileList, tryCatch, bind, fetch, emit, ret, throw.
  destruct defaultCDN;
    repeat match goal with
           | |- context [fetch_response ?e ?t ?m ?u] =>
               destruct (fetch_response e t m u) as [? | ?r]
           | |- context [ok ?r] => destruct (ok r)
           | |- context [json_listing ?r] => destruct (json_listing r)
           | |- context [CDNPackageManager.discoverCommonFiles ?e ?c ?s ?w] =>
               destruct (discoverCommonFiles_run e c s w) as (? & -> & ?)
           end;
    eexists _, _; (split; [reflexivity |]); try assumption; apply traverse_files.
Qed.

(** X2. [getFileList] never rejects and lists files only. With unpkg it
    first requests the [?meta] listing: an [ok] answer that parses is
    flattened and nothing else is requested; one that does not parse, or a
    rejected request, is warned about and followed by the twelve probes; an
    answer that is not [ok] is followed by the probes without a warning.
    With any other CDN it sends the probes only. *)
Theorem getFileList_never_throws (env : Env) (defaultCDN : CDN) (packageSpec : string)
    (w : World) :
  let probes := probeRequests defaultCDN packageSpec CDNPackageManager.commonFiles in
  let listing := fetch_call GET (listingUrl packageSpec) in
  ∃ files w',
    CDNPackageManager.getFileList env defaultCDN packageSpec w = (Returned files, w')
    ∧ Forall isFile files
    ∧ match defaultCDN with
      | unpkg =>
          match fetch_response env (trace w) GET (listingUrl packageSpec) with
          | Responded r =>
              if ok r then
                match json_listing r with
                | Some data =>
                    files = CDNPackageManager.parseUnpkgListing data
                    ∧ w' = extend [listing] w
                | None =>
                    ∃ error, w' = extend ([listing; listingWarning error] ++ probes) w
                end
              else w' = extend (listing :: probes) w
          | Rejected error => w' = extend ([listing; listingWarning error] ++ probes) w
          end
      | _ => w' = extend probes w
      end.
Proof.
  cbn zeta. unfold CDNPackageManager.getFileList.
  destruct defaultCDN.
  - unfold tryCatch at 1, bind at 1, bind at 1, fetch. fold (listingUrl packageSpec).
    rewrite log_extend.
    destruct (fetch_response env (trace w) GET (listingUrl packageSpec)) as [e | r].
    + unfold bind, emit. rewrite log_extend, extend_extend.
      destruct (discoverCommonFiles_run env unpkg packageSpec
                  (extend ([fetch_call GET (listingUrl packageSpec)] ++
                           [listingWarning e]) w))
        as (files & Hrun & Hfiles).
      exists files, (extend (probeRequests unpkg packageSpec CDNPackageManager.commonFiles)
                       (extend ([fetch_call GET (listingUrl packageSpec)] ++
                           [listingWarning e]) w)).
      split; [exact Hrun |]. split; [exact Hfiles |]. now rewrite extend_extend.
    + destruct (ok r).
      * destruct (json_listing r) as [data |].
        -- eexists _, _. split; [reflexivity |]. split; [apply traverse_files |].
           split; reflexivity.
        -- unfold throw, bind, emit. rewrite log_extend, extend_extend.
           destruct (discoverCommonFiles_run env unpkg packageSpec
                  (extend ([fetch_call GET (listingUrl packageSpec)] ++
                           [listingWarning (SyntaxError "Unexpected token in JSON")]) w))
             as (files & Hrun & Hfiles).
           eexists files, _. split; [exact Hrun |]. split; [exact Hfiles |].
           eexists. now rewrite extend_extend.
      * unfold ret.
        destruct (discoverCommonFiles_run env unpkg packageSpec
                    (extend [fetch_call GET (listingUrl packageSpec)] w))
          as (files & Hrun & Hfiles).
        rewrite Hrun.
        eexists files, _. split; [reflexivity |]. split; [exact Hfiles |].
        now rewrite extend_extend.
  - unfold tryCatch, bind at 1, ret.
    destruct (discoverCommonFiles_run env jsDelivr packageSpec w) as (files & -> & Hfiles).
    now eexists _, _.
  - unfold tryCatch, bind at 1, ret.
    destruct (discoverCommonFiles_run env skypack packageSpec w) as (files & -> & Hfiles).
    now eexists _, _.
  - unfold tryCatch, bind at 1, ret.
    destruct (discoverCommonFiles_run env esm_sh packageSpec w) as (files & -> & Hfiles).
    now eexists _, _.
Qed.

Lemma getPackageInfo_run (env : Env) (defaultCDN : CDN)
    (packageName : string) (version : option string) (w : World) :
  let request := fetch_call GET (manifestUrl defaultCDN packageName version) in
  CDNPackageManager.getPackageInfo env defaultCDN packageName version w =
  match fetch_response env (trace w) GET (manifestUrl defaultCDN packageName version) with
  | Rejected cause =>
      (Thrown (packageInfoFailure packageName version cause), extend [request] w)
  | Responded r =>
      if ok r then
        match json_manifest r with
        | Some json =>
            match CDNPackageManager.getFileList env defaultCDN
                    (CDNPackageManager.packageSpecOf packageName version)
                    (extend [request] w) with
            | (Returned files, w') =>
                match json with
                | Some packageJson => (Returned (descriptor packageJson files), w')
                | None =>
                    (Thrown (packageInfoFailure packageName version
                               (TypeError "Cannot read properties of null (reading 'name')")),
                     w')
                end
            | (Thrown cause, w') =>
                (Thrown (packageInfoFailure packageName version cause), w')
            end
        | None =>
            (Thrown (packageInfoFailure packageName version
                       (SyntaxError "Unexpected token in JSON")),
             extend [request] w)
        end
      else
        (Thrown (packageInfoFailure packageName version
                   (Error ("Package not found: "
                           +:+ CDNPackageManager.packageSpecOf packageName version))),
         extend [request] w)
  end.
Proof.
  unfold CDNPackageManager.getPackageInfo, manifestUrl. cbv zeta.
  unfold tryCatch at 1, bind at 1, fetch. rewrite log_extend.
  destruct (fetch_response env (trace w) GET _) as [cause | r]; [reflexivity |].
  destruct (ok r); [| reflexivity]. cbn [negb].
  destruct (json_manifest r) as [json |]; [| reflexivity].
  unfold bind at 1, ret at 1. unfold bind at 1.
  destruct (CDNPackageManager.getFileList env defaultCDN _ _) as [[files | cause] w'];
    [destruct json |]; reflexivity.
Qed.

(** X1. [getPackageInfo] starts with the request for [package.json]. It
    fails, always with [Failed to fetch package info for spec: cause], on
    the manifest only. A rejected request, an answer that is not [ok] (the
    cause is then [Package not found: spec]) and a body that is not JSON
    fail before any other request is made. A body that is the JSON [null]
    fails with a [TypeError] at the first field read, which comes after the
    listing has run: its requests are made. When the manifest is an object
    the method returns, whatever happens to the listing, with the fields of
    the manifest and a list of file entries. *)
Theorem getPackageInfo_fails_only_on_manifest (env : Env) (defaultCDN : CDN)
    (packageName : string) (version : option string) (w : World) :
  let spec := CDNPackageManager.packageSpecOf packageName version in
  let request := fetch_call GET (manifestUrl defaultCDN packageName version) in
  let failure := packageInfoFailure packageName version in
  let run := CDNPackageManager.getPackageInfo env defaultCDN packageName version w in
  let listing := CDNPackageManager.getFileList env defaultCDN spec (extend [request] w) in
  match fetch_response env (trace w) GET (manifestUrl defaultCDN packageName version) with
  | Rejected cause => run = (Thrown (failure cause), extend [request] w)
  | Responded r =>
      if ok r then
        match json_manifest r with
        | Some (Some packageJson) =>
            ∃ files w',
              run = (Returned (descriptor packageJson files), w')
              ∧ listing = (Returned files, w')
              ∧ Forall isFile files
              ∧ ∃ evs, trace w' = trace w ++ request :: evs
        | Some None =>
            ∃ message,
              run = (Thrown (failure (TypeError message)), snd listing)
              ∧ ∃ evs, trace (snd listing) = trace w ++ request :: evs
        | None => ∃ cause, run = (Thrown (failure cause), extend [request] w)
        end
      else
        run = (Thrown (failure (Error ("Package not found: " +:+ spec))),
               extend [request] w)
  end.
Proof.
  cbn zeta. rewrite getPackageInfo_run. cbv zeta.
  set (request := fetch_call GET (manifestUrl defaultCDN packageName version)).
  destruct (fetch_response env (trace w) GET _) as [cause | r]; [reflexivity |].
  destruct (ok r); [| reflexivity].
  destruct (json_manifest r) as [json |]; [| eexists; reflexivity].
  destruct (getFileList_returns env defaultCDN
              (CDNPackageManager.packageSpecOf packageName version)
              (extend [request] w))
    as (files & w' & Hrun & Hfiles).
  pose proof (getFileList_emits env defaultCDN
                (CDNPackageManager.packageSpecOf packageName version)
                (extend [request] w)) as (evs & Htrace & _).
  rewrite Hrun in *. cbn [snd] in *.
  assert (Hevs : trace w' = trace w ++ request :: evs)
    by (rewrite Htrace, trace_extend, <- app_assoc; reflexivity).
  destruct json as [packageJson |].
  - exists files, w'. split; [reflexivity |]. split; [reflexivity |].
    split; [exact Hfiles |]. now exists evs.
  - eexists. split; [reflexivity |]. now exists evs.
Qed.

(** [getPackageInfo] starts with the request for the manifest. *)
Lemma getPackageInfo_first_request (env : Env) (defaultCDN : CDN) (packageName : string)
    (version : option string) (w : World) :
  ∃ evs, trace (snd (CDNPackageManager.getPackageInfo env defaultCDN packageName version w))
         = trace w ++ fetch_call GET (manifestUrl defaultCDN packageName version) :: evs.
Proof.
  rewrite getPackageInfo_run. cbv zeta.
  set (request := fetch_call GET (manifestUrl defaultCDN packageName version)).
  destruct (fetch_response env (trace w) GET _) as [cause | r]; [now exists [] |].
  destruct (ok r); [| now exists []].
  destruct (json_manifest r) as [packageJson |]; [| now exists []].
  pose proof (getFileList_emits env defaultCDN
                (CDNPackageManager.packageSpecOf packageName version)
                (extend [request] w)) as (evs & Htrace & _).
  exists evs.
  destruct (CDNPackageManager.getFileList env defaultCDN _ _) as [[files | cause] w'];
    [destruct packageJson |];
    cbn [snd] in *; rewrite Htrace, trace_extend, <- app_assoc; reflexivity.
Qed.





Lemma getPackageInfo_not_found (env : Env) (defaultCDN : CDN) (packageName : string)
    (version : option string) (w : World) (r : Response) :
  fetch_response env (trace w) GET (manifestUrl defaultCDN packageName version)
    = Responded r →
  ok r = false →
  CDNPackageManager.getPackageInfo env defaultCDN packageName version w =
  (Thrown (packageInfoFailure packageName version
             (Error ("Package not found: "
                     +:+ CDNPackageManager.packageSpecOf packageName version))),
   extend [fetch_call GET (manifestUrl defaultCDN packageName version)] w).
Proof.
  intros Hresponse Hok.
  unfold CDNPackageManager.getPackageInfo. cbv zeta.
  unfold tryCatch at 1, bind at 1, fetch. fold (manifestUrl defaultCDN packageName version).
  now rewrite Hresponse, Hok.
Qed.

(** X7. A package that the CDN answers with a status that is not [ok]:
    [getPackageExportSizes] throws the error of [getPackageInfo] as it is,
    and [analyzePackage] on the CDN strategy wraps it once more, each after
    the single request for the manifest. *)
Theorem analyzePackage_package_not_found (env : Env)
    (options : BrowserPackageAnalyzerOptions) (packageName : string)
    (version : option string) (w : World) (r : Response) :
  let spec := CDNPackageManager.packageSpecOf packageName version in
  let url := manifestUrl (BrowserPackageAnalyzer.cdnManager options) packageName version in
  fetch_response env (trace w) GET url = Responded r →
  ok r = false →
  BrowserPackageAnalyzer.getPackageExportSizes env options packageName version w =
    (Thrown (Error ("Failed to fetch package info for " +:+ spec
                    +:+ ": Error: Package not found: " +:+ spec)),
     extend [fetch_call GET url] w)
  ∧ (bundler_isInitialized w = true →
     useWebContainer options && WebContainerManager.isSupported env = false →
     BrowserPackageAnalyzer.analyzePackage env options packageName version w =
       (Thrown (Error ("Failed to analyze package " +:+ packageName
                       +:+ ": Error: Failed to fetch package info for " +:+ spec
                       +:+ ": Error: Package not found: " +:+ spec)),
        extend [fetch_call GET url] w)).
Proof.
  intros spec url Hresponse Hok.
  pose proof (getPackageInfo_not_found env (BrowserPackageAnalyzer.cdnManager options)
                packageName version w r Hresponse Hok) as Hinfo.
  split.
  - unfold BrowserPackageAnalyzer.getPackageExportSizes, bind at 1.
    rewrite Hinfo. reflexivity.
  - intros Hflag Hcdn.
    unfold BrowserPackageAnalyzer.analyzePackage, tryCatch, bind at 1.
    rewrite (initialize_initialized env w Hflag), Hcdn.
    unfold BrowserPackageAnalyzer.analyzeWithCDN, bind at 1.
    rewrite Hinfo. reflexivity.
Qed.

Lemma analyzePackage_package_not_found_witness :
  BrowserPackageAnalyzer.analyzePackage (Scenario.world []) Scenario.defaults
    "left-pad" (Some "9.9.9") initialized =
  (Thrown (Error "Failed to analyze package left-pad: Error: Failed to fetch package info for left-pad@9.9.9: Error: Package not found: left-pad@9.9.9"),
   extend [fetch_call GET "https://unpkg.com/left-pad@9.9.9/package.json"] initialized).
Proof.
  exact (proj2 (analyzePackage_package_not_found (Scenario.world []) Scenario.defaults
                  "left-pad" (Some "9.9.9") initialized Scenario.notFound
                  eq_refl eq_refl) eq_refl eq_refl).
Defined.

(** X8. When the engine cannot be initialized, [analyzePackage] fails
    with [Failed to analyze package name: Error: ESBuild WASM initialization
    failed], whatever the options are, after the call to the engine and the
    console error, before any request; the bundler stays uninitialized, and
    [bundle] fails in the same way, with the unwrapped error. *)
Theorem analyzePackage_engine_failure (env : Env)
    (options : BrowserPackageAnalyzerOptions) (packageName : string)
    (version : option string) (w : World) (cause : JsError) :
  bundler_isInitialized w = false →
  esbuild_initialize env (trace w) = Some cause →
  let w' := extend [esbuild_initialize_call;
                    console_error "Failed to initialize ESBuild WASM:" cause] w in
  BrowserPackageAnalyzer.analyzePackage env options packageName version w =
    (Thrown (Error ("Failed to analyze package " +:+ packageName
                    +:+ ": Error: ESBuild WASM initialization failed")), w')
  ∧ bundler_isInitialized w' = false
  ∧ ∀ entryPoint files,
      WasmBundler.bundle env entryPoint files w =
        (Thrown (Error "ESBuild WASM initialization failed"), w').
Proof.
  intros Hflag Hinit w'.
  assert (Hrun : WasmBundler.initialize env w =
                 (Thrown (Error "ESBuild WASM initialization failed"), w')).
  { rewrite initialize_unfold.
    unfold WasmBundler.Concurrent.esbuild_initialize_promise. run_monad.
    now rewrite Hflag, Hinit, !log_extend, extend_extend. }
  split; [| split; [exact Hflag |]].
  - unfold BrowserPackageAnalyzer.analyzePackage, tryCatch, bind at 1.
    now rewrite Hrun.
  - intros entryPoint files.
    rewrite bundle_unfold. unfold bind at 1, gets. rewrite Hflag. cbn [negb].
    unfold bind at 1. now rewrite Hrun.
Qed.

Lemma analyzePackage_engine_failure_witness :
  BrowserPackageAnalyzer.analyzePackage (Scenario.withFailingEngine (Scenario.world []))
    Scenario.defaults "pkg" None Scenario.start =
  (Thrown (Error "Failed to analyze package pkg: Error: ESBuild WASM initialization failed"),
   extend [esbuild_initialize_call;
           console_error "Failed to initialize ESBuild WASM:"
             (Error "WebAssembly is not available")] Scenario.start).
Proof.
  exact (proj1 (analyzePackage_engine_failure
                  (Scenario.withFailingEngine (Scenario.world []))
                  Scenario.defaults "pkg" None Scenario.start
                  (Error "WebAssembly is not available") eq_refl eq_refl)).
Defined.

Lemma packageSpecOf_default (packageName : string) (version : option string) :
  CDNPackageManager.packageSpecOf packageName (Some (default "latest" version)) =
  CDNPackageManager.packageSpecOf packageName version.
Proof. now destruct version. Qed.

Section DownloadContents.
Variable env : Env.
Variable defaultCDN : CDN.
Variable packageName : string.
Variable version : option string.

Let download := CDNPackageManager.downloadFile env defaultCDN packageName version.

Lemma downloadFile_contents (acc : gmap string string) (f : CDNFile) (w : World) :
  ∃ acc' w',
    download acc f w = (Returned acc', w')
    ∧ trace w `prefix_of` trace w'
    ∧ ∀ p content, acc' !! p = Some content →
        acc !! p = Some content
        ∨ (p = path f ∧ served env defaultCDN packageName version (trace w) p content).
Proof.
  unfold download, CDNPackageManager.downloadFile, tryCatch, bind at 1.
  unfold CDNPackageManager.getFileContent, bind at 1, fetch. cbv zeta.
  destruct (fetch_response env (trace w) GET _) as [e | r] eqn:Hresponse.
  - unfold bind, emit, ret. eexists _, _. split; [reflexivity |].
    split; [| now left]. simpl. rewrite <- app_assoc. now apply prefix_app_r.
  - destruct (ok r) eqn:Hok; cbn [negb].
    + unfold ret. eexists _, _. split; [reflexivity |].
      split; [simpl; now apply prefix_app_r |].
      intros p content Hp. destruct (decide (path f = p)) as [<- | Hne].
      * rewrite lookup_insert_eq in Hp. injection Hp as <-.
        right. split; [reflexivity |]. now exists r.
      * left. now rewrite lookup_insert_ne in Hp.
    + unfold throw, bind, emit, ret. eexists _, _. split; [reflexivity |].
      split; [| now left]. simpl. rewrite <- app_assoc. now apply prefix_app_r.
Qed.

Lemma downloads_contents (entries : list CDNFile) :
  ∀ (acc : gmap string string) (w : World),
  ∃ files w',
    foldM download acc entries w = (Returned files, w')
    ∧ trace w `prefix_of` trace w'
    ∧ ∀ p content, files !! p = Some content →
        acc !! p = Some content
        ∨ (p ∈ (path <$> entries)
           ∧ ∃ tr, trace w `prefix_of` tr ∧ tr `prefix_of` trace w'
                   ∧ served env defaultCDN packageName version tr p content).
Proof.
  induction entries as [|f rest IH]; intros acc w.
  - exists acc, w. split; [reflexivity |]. split; [reflexivity | now left].
  - cbn [foldM]. unfold bind at 1.
    destruct (downloadFile_contents acc f w) as (acc1 & w1 & -> & Hgrow1 & Hacc1).
    destruct (IH acc1 w1) as (files & w' & -> & Hgrow & Hfiles).
    exists files, w'. split; [reflexivity |].
    split; [now transitivity (trace w1) |].
    intros p content Hp. rewrite fmap_cons.
    destruct (Hfiles p content Hp) as [Hold | (Hin & tr & Hlo & Hhi & Hserved)].
    + destruct (Hacc1 p content Hold) as [Hacc | [-> Hserved]]; [now left |].
      right. split; [left |]. exists (trace w).
      split; [reflexivity |]. split; [now transitivity (trace w1) | exact Hserved].
    + right. split; [now right |]. exists tr.
      split; [now transitivity (trace w1) |]. now split.
Qed.
End DownloadContents.

(** X5. Every content in the map that [downloadPackage] returns is the
    body of an [ok] answer that the CDN gave, during the download, to the
    request for the file stored under that path. *)
Theorem downloadPackage_contents (env : Env) (defaultCDN : CDN) (packageName : string)
    (version : option string) (w w' : World) (files : gmap string string) :
  CDNPackageManager.downloadPackage env defaultCDN packageName version w
    = (Returned files, w') →
  ∀ filePath content,
    files !! filePath = Some content →
    ∃ tr, trace w `prefix_of` tr ∧ tr `prefix_of` trace w'
          ∧ served env defaultCDN packageName version tr filePath content.
Proof.
  unfold CDNPackageManager.downloadPackage. cbv zeta. unfold bind at 1.
  pose proof (getPackageInfo_emits env defaultCDN packageName
                (Some (default "latest" version)) w) as (evs & Htrace & _).
  destruct (CDNPackageManager.getPackageInfo env defaultCDN packageName
              (Some (default "latest" version)) w) as [[packageInfo | e] w1];
    [| discriminate].
  cbn [snd] in Htrace.
  destruct (downloads_contents env defaultCDN packageName (Some (default "latest" version))
              (filter (λ f, type f = file) (info_files packageInfo)) ∅ w1)
    as (files' & w2 & Hrun & Hgrow & Hfiles).
  rewrite Hrun. intros [= <- <-] filePath content Hcontent.
  destruct (Hfiles filePath content Hcontent) as [Hempty | (_ & tr & Hlo & Hhi & Hserved)].
  - now rewrite lookup_empty in Hempty.
  - exists tr. split; [| split; [exact Hhi |]].
    + transitivity (trace w1); [| exact Hlo]. rewrite Htrace. now apply prefix_app_r.
    + unfold served in *. now rewrite packageSpecOf_default in Hserved.
Qed.

Lemma downloadPackage_contents_witness :
  let run := CDNPackageManager.downloadPackage (Scenario.world Scenario.three) unpkg
               "three" None Scenario.start in
  ∃ tr, trace Scenario.start `prefix_of` tr ∧ tr `prefix_of` trace (snd run)
        ∧ served (Scenario.world Scenario.three) unpkg "three" None tr
            "c.mjs" "export const c = 3;".
Proof.
  cbn zeta.
  apply (downloadPackage_contents (Scenario.world Scenario.three) unpkg "three" None
           Scenario.start _ Scenario.threeFiles).
  - vm_compute. reflexivity.
  - vm_compute. reflexivity.
Defined.

Lemma emits_weaken (P Q : Event → Prop) {A} (m : M A) :
  (∀ ev, P ev → Q ev) → emits P m → emits Q m.
Proof.
  intros HPQ Hm w. destruct (Hm w) as (evs & Htrace & Hevs).
  exists evs. split; [exact Htrace |]. eapply Forall_impl; eauto.
Qed.

Lemma bind_returned {A B} (m : M A) (k : A → M B) (w w' : World) (b : B) :
  bind m k w = (Returned b, w') →
  ∃ a w1, m w = (Returned a, w1) ∧ k a w1 = (Returned b, w').
Proof.
  unfold bind. destruct (m w) as [[a | e] w1]; [| discriminate].
  intros H. now exists a, w1.
Qed.


Lemma downloadPackage_first_request (env : Env) (defaultCDN : CDN) (packageName : string)
    (version : option string) (w : World) :
  ∃ evs, trace (snd (CDNPackageManager.downloadPackage env defaultCDN packageName version w))
         = trace w ++ fetch_call GET (manifestUrl defaultCDN packageName version) :: evs.
Proof.
  unfold CDNPackageManager.downloadPackage. cbv zeta. unfold bind at 1.
  destruct (getPackageInfo_first_request env defaultCDN packageName
              (Some (default "latest" version)) w) as (evs & Htrace).
  unfold manifestUrl in Htrace. rewrite packageSpecOf_default in Htrace.
  fold (manifestUrl defaultCDN packageName version) in Htrace.
  destruct (CDNPackageManager.getPackageInfo env defaultCDN packageName
              (Some (default "latest" version)) w) as [[packageInfo | e] w1];
    cbn [snd] in Htrace; [| now exists evs].
  assert (emits (λ _, True)
            (foldM (CDNPackageManager.downloadFile env defaultCDN packageName
                      (Some (default "latest" version))) ∅
                   (filter (λ f, type f = file) (info_files packageInfo)))) as Hgrow.
  { apply emits_foldM. intros acc f. unfold CDNPackageManager.downloadFile.
    repeat first [ apply (emits_weaken notSandbox); [trivial | apply getFileContent_emits]
                 | emits_step ]. }
  destruct (Hgrow w1) as (evs' & Htrace' & _).
  exists (evs ++ evs'). rewrite Htrace', Htrace, <- app_assoc. reflexivity.
Qed.

(** X6. An analysis that succeeds has requested the manifest twice:
    once for [getPackageInfo], and once more for the [getPackageInfo] that
    [downloadPackage] makes on its own. This holds for [analyzeWithCDN] and
    for [getPackageExportSizes]. *)
Theorem manifest_requested_twice (env : Env) (options : BrowserPackageAnalyzerOptions)
    (packageName : string) (version : option string) (w : World) :
  let request :=
    fetch_call GET (manifestUrl (BrowserPackageAnalyzer.cdnManager options)
                      packageName version) in
  (∀ stats w',
     BrowserPackageAnalyzer.analyzeWithCDN env options packageName version w
       = (Returned stats, w') →
     ∃ a b, trace w' = trace w ++ request :: a ++ request :: b)
  ∧ (∀ sizes w',
       BrowserPackageAnalyzer.getPackageExportSizes env options packageName version w
         = (Returned sizes, w') →
       ∃ a b, trace w' = trace w ++ request :: a ++ request :: b).
Proof.
  cbn zeta.
  set (cdn := BrowserPackageAnalyzer.cdnManager options).
  assert (Htwice : ∀ {A} (rest : CDNPackageInfo → gmap string string → M A) (a : A) w',
            (∀ info files, emits (λ _, True) (rest info files)) →
            bind (CDNPackageManager.getPackageInfo env cdn packageName version)
              (λ info, bind (CDNPackageManager.downloadPackage env cdn packageName version)
                         (rest info)) w = (Returned a, w') →
            ∃ x y, trace w' = trace w ++ fetch_call GET (manifestUrl cdn packageName version)
                                :: x ++ fetch_call GET (manifestUrl cdn packageName version)
                                :: y).
  { intros A rest a w' Hrest Hrun.
    apply bind_returned in Hrun as (info & w1 & Hinfo & Hrun).
    apply bind_returned in Hrun as (files & w2 & Hfiles & Hrun).
    destruct (getPackageInfo_first_request env cdn packageName version w) as (x & Hx).
    destruct (downloadPackage_first_request env cdn packageName version w1) as (y & Hy).
    destruct (Hrest info files w2) as (z & Hz & _).
    rewrite Hinfo in Hx. rewrite Hfiles in Hy. rewrite Hrun in Hz. cbn [snd] in *.
    exists x, (y ++ z). rewrite Hz, Hy, Hx, <- !app_assoc. reflexivity. }
  split.
  - intros stats w' Hrun.
    unfold BrowserPackageAnalyzer.analyzeWithCDN in Hrun. fold cdn in Hrun.
    eapply Htwice; [| exact Hrun].
    intros info files. cbv beta.
    unfold BrowserPackageAnalyzer.calculateParseTime.
    repeat first [ apply (emits_weaken notSandbox); [trivial | apply resolveMainFile_emits]
                 | apply bundle_emits; trivial
                 | apply minifyCode_emits; trivial
                 | emits_step ].
  - intros sizes w' Hrun.
    unfold BrowserPackageAnalyzer.getPackageExportSizes in Hrun. fold cdn in Hrun.
    eapply Htwice; [| exact Hrun].
    intros info files. cbv beta.
    repeat first [ apply promiseAll_exports_grows | emits_step ].
Qed.

Lemma manifest_requested_twice_witness :
  let run := BrowserPackageAnalyzer.getPackageExportSizes (Scenario.world Scenario.hollow)
               Scenario.defaults "hollow" None Scenario.start in
  ∃ a b, trace (snd run) =
         trace Scenario.start
         ++ fetch_call GET "https://unpkg.com/hollow/package.json"
         :: a ++ fetch_call GET "https://unpkg.com/hollow/package.json" :: b.
Proof.
  cbn zeta.
  apply (proj2 (manifest_requested_twice (Scenario.world Scenario.hollow)
                  Scenario.defaults "hollow" None Scenario.start)
           {| exports_name := "hollow"; exports_version := "1.0.0";
              exports_assets := [] |}).
  vm_compute. reflexivity.
Defined.

(** ** The sandbox *)

(** X20. Before [initialize], [installPackage], [readFile], [writeFile]
    and [createPackageJson] throw [WebContainer not initialized] without
    any call to the sandbox, and [teardown] does nothing. *)
Theorem webcontainer_requires_initialize (env : Env) (w : World) :
  webcontainer_handle w = false →
  let refused := Error "WebContainer not initialized" in
  (∀ packageName version,
     WebContainerManager.installPackage env packageName version w = (Thrown refused, w))
  ∧ (∀ filePath, WebContainerManager.readFile env filePath w = (Thrown refused, w))
  ∧ (∀ filePath content,
       WebContainerManager.writeFile filePath content w = (Thrown refused, w))
  ∧ (∀ dependencies,
       WebContainerManager.createPackageJson env dependencies w = (Thrown refused, w))
  ∧ WebContainerManager.teardown w = (Returned tt, w).
Proof.
  intros Hhandle refused.
  assert (Hguard : WebContainerManager.requireHandle w = (Thrown refused, w)).
  { unfold WebContainerManager.requireHandle, bind, gets. now rewrite Hhandle. }
  repeat split; intros;
    unfold WebContainerManager.installPackage, WebContainerManager.readFile,
      WebContainerManager.createPackageJson, WebContainerManager.writeFile,
      WebContainerManager.teardown;
    unfold bind at 1; try (now rewrite Hguard).
  unfold gets. now rewrite Hhandle.
Qed.

Lemma webcontainer_requires_initialize_witness :
  WebContainerManager.readFile (Scenario.world []) "package.json" Scenario.start =
  (Thrown (Error "WebContainer not initialized"), Scenario.start).
Proof.
  exact (proj1 (proj2 (webcontainer_requires_initialize (Scenario.world []) Scenario.start
                         eq_refl)) "package.json").
Defined.

(** X21. When the sandbox boots, [initialize] boots it once: a second
    [initialize] does nothing, [teardown] stops it, a second [teardown]
    does nothing, and [initialize] after [teardown] boots again. When the
    boot fails, [initialize] logs the cause and throws [WebContainer not
    supported in this environment], and the manager stays uninitialized. *)
Theorem webcontainer_lifecycle (env : Env) (w : World) :
  webcontainer_isInitialized w = false →
  match WebContainer_boot env with
  | None =>
      let w1 := set_webcontainer true true (extend [WebContainer_boot_call] w) in
      let w2 := set_webcontainer false false (extend [webcontainer_teardown_call] w1) in
      WebContainerManager.initialize env w = (Returned tt, w1)
      ∧ WebContainerManager.initialize env w1 = (Returned tt, w1)
      ∧ WebContainerManager.teardown w1 = (Returned tt, w2)
      ∧ WebContainerManager.teardown w2 = (Returned tt, w2)
      ∧ WebContainerManager.initialize env w2 =
          (Returned tt, set_webcontainer true true (extend [WebContainer_boot_call] w2))
  | Some cause =>
      let w1 := extend [WebContainer_boot_call;
                        console_error "Failed to initialize WebContainer:" cause] w in
      WebContainerManager.initialize env w =
        (Thrown (Error "WebContainer not supported in this environment"), w1)
      ∧ webcontainer_isInitialized w1 = false
      ∧ webcontainer_handle w1 = webcontainer_handle w
  end.
Proof.
  intros Hflag.
  destruct (WebContainer_boot env) as [cause |] eqn:Hboot; cbn zeta.
  - split; [| split; [exact Hflag | reflexivity]].
    unfold WebContainerManager.initialize. run_monad.
    now rewrite Hflag, Hboot, !log_extend, extend_extend.
  - split; [| split; [| split; [| split]]]; try reflexivity.
    + unfold WebContainerManager.initialize. run_monad.
      now rewrite Hflag, Hboot, !log_extend.
    + unfold WebContainerManager.initialize. run_monad.
      change (webcontainer_isInitialized (set_webcontainer false false ?x)) with false.
      cbv iota. now rewrite Hboot, !log_extend.
Qed.

Lemma webcontainer_lifecycle_witness :
  WebContainerManager.initialize (Scenario.withSandbox 0 (Scenario.world [])) Scenario.start
  = (Returned tt,
     set_webcontainer true true (extend [WebContainer_boot_call] Scenario.start)).
Proof.
  exact (proj1 (webcontainer_lifecycle (Scenario.withSandbox 0 (Scenario.world []))
                  Scenario.start eq_refl)).
Defined.

Lemma analyzeWithWebContainer_run (env : Env) (options : BrowserPackageAnalyzerOptions)
    (packageName : string) (version : option string) (w : World) :
  webcontainer_isInitialized w = webcontainer_handle w →
  (webcontainer_isInitialized w = false → WebContainer_boot env = None) →
  let calls := bootCalls w ++ sandboxCalls env options packageName version in
  let up n := set_webcontainer true true (extend (take n calls) w) in
  BrowserPackageAnalyzer.analyzeWithWebContainer env options packageName version w =
  if (npm_install_exit env (installSpec packageName version) =? 0)%Z then
    match webcontainer_fs_readFile env
            ("node_modules/" +:+ packageName +:+ "/package.json") with
    | Returned content =>
        match JSON_parse env content with
        | Returned packageJson =>
            (Returned (sandboxStats packageJson),
             set_webcontainer false false (extend calls w))
        | Thrown e => (Thrown e, up (length (bootCalls w) + 3))
        end
    | Thrown e => (Thrown e, up (length (bootCalls w) + 3))
    end
  else
    (Thrown (Error ("Failed to install package " +:+ installSpec packageName version)),
     up (length (bootCalls w) + 2)).
Proof.
  intros Hinv Hboot. cbn zeta.
  unfold BrowserPackageAnalyzer.analyzeWithWebContainer.
  unfold WebContainerManager.initialize, WebContainerManager.createPackageJson,
    WebContainerManager.installPackage, WebContainerManager.readFile,
    WebContainerManager.writeFile, WebContainerManager.teardown,
    WebContainerManager.requireHandle.
  fold (installSpec packageName version). fold (sandboxEntryCode options packageName).
  run_monad. unfold bootCalls, sandboxCalls.
  destruct w as [bundler handle flag tr].
  cbn [webcontainer_isInitialized webcontainer_handle] in Hinv, Hboot. subst handle.
  cbv [webcontainer_isInitialized webcontainer_handle bundler_isInitialized trace
       set_webcontainer log extend].
  destruct flag.
  - destruct (npm_install_exit env (installSpec packageName version) =? 0)%Z;
      [| cbn [length take app Nat.add]; now rewrite <- ?app_assoc].
    destruct (webcontainer_fs_readFile env _) as [content | e];
      [| cbn [length take app Nat.add]; now rewrite <- ?app_assoc].
    destruct (JSON_parse env content) as [packageJson | e];
      [| cbn [length take app Nat.add]; now rewrite <- ?app_assoc].
    unfold sandboxStats. cbn [app]. now rewrite <- ?app_assoc.
  - rewrite (Hboot eq_refl).
    destruct (npm_install_exit env (installSpec packageName version) =? 0)%Z;
      [| cbn [length take app Nat.add]; now rewrite <- ?app_assoc].
    destruct (webcontainer_fs_readFile env _) as [content | e];
      [| cbn [length take app Nat.add]; now rewrite <- ?app_assoc].
    destruct (JSON_parse env content) as [packageJson | e];
      [| cbn [length take app Nat.add]; now rewrite <- ?app_assoc].
    unfold sandboxStats. cbn [app]. now rewrite <- ?app_assoc.
Qed.

Lemma analyzeWithWebContainer_boot_failure (env : Env)
    (options : BrowserPackageAnalyzerOptions) (packageName : string)
    (version : option string) (w : World) (cause : JsError) :
  webcontainer_isInitialized w = false →
  WebContainer_boot env = Some cause →
  BrowserPackageAnalyzer.analyzeWithWebContainer env options packageName version w =
  (Thrown (Error "WebContainer not supported in this environment"),
   extend [WebContainer_boot_call;
           console_error "Failed to initialize WebContainer:" cause] w).
Proof.
  intros Hflag Hboot.
  unfold BrowserPackageAnalyzer.analyzeWithWebContainer, bind at 1.
  unfold WebContainerManager.initialize. run_monad.
  now rewrite Hflag, Hboot, !log_extend, extend_extend.
Qed.

(** X18. The sandbox strategy measures nothing: an analysis that
    succeeds reports 50000 bytes and 15000 bytes gzipped, for every
    package, with the name and the flags of the installed manifest. It has
    made no request and no call to the bundler, only the calls to the
    sandbox, in a fixed order, and it leaves the sandbox torn down. *)
Theorem analyzeWithWebContainer_placeholder (env : Env)
    (options : BrowserPackageAnalyzerOptions) (packageName : string)
    (version : option string) (w w' : World) (stats : PackageStats) :
  webcontainer_isInitialized w = webcontainer_handle w →
  BrowserPackageAnalyzer.analyzeWithWebContainer env options packageName version w
    = (Returned stats, w') →
  let calls := bootCalls w ++ sandboxCalls env options packageName version in
  stats_size stats = 50000%Z
  ∧ stats_gzipSize stats = 15000%Z
  ∧ stats_assets stats =
      [ {| asset_name := "main"; asset_size := 50000;
           asset_gzipSize := 15000; asset_type := asset_js |} ]
  ∧ (∃ content packageJson,
       webcontainer_fs_readFile env ("node_modules/" +:+ packageName +:+ "/package.json")
         = Returned content
       ∧ JSON_parse env content = Returned packageJson
       ∧ stats = sandboxStats packageJson)
  ∧ w' = set_webcontainer false false (extend calls w)
  ∧ Forall (λ ev, sandboxCall ev = true) calls.
Proof.
  intros Hinv Hrun calls.
  assert (Hboot : webcontainer_isInitialized w = false → WebContainer_boot env = None).
  { intros Hflag. destruct (WebContainer_boot env) as [cause |] eqn:Hboot; [| reflexivity].
    rewrite (analyzeWithWebContainer_boot_failure env options packageName version w cause
               Hflag Hboot) in Hrun. discriminate. }
  rewrite (analyzeWithWebContainer_run env options packageName version w Hinv Hboot) in Hrun.
  cbv zeta in Hrun.
  destruct (npm_install_exit env (installSpec packageName version) =? 0)%Z;
    [| discriminate].
  destruct (webcontainer_fs_readFile env _) as [content | e] eqn:Hread; [| discriminate].
  destruct (JSON_parse env content) as [packageJson | e] eqn:Hparse; [| discriminate].
  injection Hrun as <- <-.
  split; [reflexivity |]. split; [reflexivity |]. split; [reflexivity |].
  split; [now exists content, packageJson |]. split; [reflexivity |].
  unfold calls, bootCalls, sandboxCalls.
  destruct (webcontainer_isInitialized w); repeat constructor.
Qed.

Lemma analyzeWithWebContainer_placeholder_witness :
  let env := Scenario.withSandbox 0 (Scenario.world []) in
  let stats := sandboxStats Scenario.chalk in
  let w' := set_webcontainer false false
              (extend (WebContainer_boot_call
                       :: sandboxCalls env Scenario.sandboxRequested "chalk" None)
                 Scenario.start) in
  BrowserPackageAnalyzer.analyzeWithWebContainer env Scenario.sandboxRequested
    "chalk" None Scenario.start = (Returned stats, w')
  ∧ stats_size stats = 50000%Z
  ∧ stats_gzipSize stats = 15000%Z.
Proof.
  cbn zeta.
  assert (BrowserPackageAnalyzer.analyzeWithWebContainer
            (Scenario.withSandbox 0 (Scenario.world [])) Scenario.sandboxRequested
            "chalk" None Scenario.start
          = (Returned (sandboxStats Scenario.chalk),
             set_webcontainer false false
               (extend (WebContainer_boot_call
                        :: sandboxCalls (Scenario.withSandbox 0 (Scenario.world []))
                             Scenario.sandboxRequested "chalk" None)
                  Scenario.start))) as Hrun by reflexivity.
  split; [exact Hrun |].
  destruct (analyzeWithWebContainer_placeholder
              (Scenario.withSandbox 0 (Scenario.world [])) Scenario.sandboxRequested
              "chalk" None Scenario.start _ _ eq_refl Hrun)
    as (Hsize & Hgzip & _).
  now split.
Defined.

(** X19. When the sandbox is up, or boots, and the sandbox analysis
    fails, the sandbox is left running: no [teardown] call has been made.
    [analyzePackage] on the sandbox strategy then fails in the same
    state. *)
Theorem analyzeWithWebContainer_failure_keeps_sandbox (env : Env)
    (options : BrowserPackageAnalyzerOptions) (packageName : string)
    (version : option string) (w w' : World) (e : JsError) :
  webcontainer_isInitialized w = webcontainer_handle w →
  (webcontainer_isInitialized w = false → WebContainer_boot env = None) →
  BrowserPackageAnalyzer.analyzeWithWebContainer env options packageName version w
    = (Thrown e, w') →
  webcontainer_handle w' = true
  ∧ webcontainer_isInitialized w' = true
  ∧ (∃ evs, trace w' = trace w ++ evs ∧ webcontainer_teardown_call ∉ evs)
  ∧ (bundler_isInitialized w = true →
     useWebContainer options && WebContainerManager.isSupported env = true →
     ∃ e', BrowserPackageAnalyzer.analyzePackage env options packageName version w
           = (Thrown e', w')).
Proof.
  intros Hinv Hboot Hrun.
  assert (Hw' : ∃ n, (n <= length (bootCalls w) + 3)%nat
                     ∧ w' = set_webcontainer true true
                              (extend (take n (bootCalls w ++
                                 sandboxCalls env options packageName version)) w)).
  { pose proof Hrun as Hrun'.
    rewrite (analyzeWithWebContainer_run env options packageName version w Hinv Hboot)
      in Hrun'.
    cbv zeta in Hrun'.
    destruct (npm_install_exit env (installSpec packageName version) =? 0)%Z;
      [| injection Hrun' as _ <-; eexists; split; [| reflexivity]; lia].
    destruct (webcontainer_fs_readFile env _) as [content | e1];
      [| injection Hrun' as _ <-; eexists; split; [| reflexivity]; lia].
    destruct (JSON_parse env content) as [packageJson | e1]; [discriminate |].
    injection Hrun' as _ <-. eexists. split; [| reflexivity]. lia. }
  destruct Hw' as (n & Hn & ->).
  split; [reflexivity |]. split; [reflexivity |]. split.
  - eexists. split; [reflexivity |].
    unfold bootCalls, sandboxCalls in *.
    destruct (webcontainer_isInitialized w); cbn [length app Nat.add] in *.
    + do 4 (destruct n as [|n]; [cbn [take]; set_solver |]). lia.
    + do 5 (destruct n as [|n]; [cbn [take]; set_solver |]). lia.
  - intros Hflag Hsandbox.
    unfold BrowserPackageAnalyzer.analyzePackage, tryCatch, bind at 1.
    rewrite (initialize_initialized env w Hflag), Hsandbox.
    rewrite Hrun. now eexists.
Qed.

Lemma analyzeWithWebContainer_failure_keeps_sandbox_witness :
  let env := Scenario.withSandbox 1 (Scenario.world []) in
  let run := BrowserPackageAnalyzer.analyzeWithWebContainer env Scenario.sandboxRequested
               "chalk" None Scenario.start in
  fst run = Thrown (Error "Failed to install package chalk")
  ∧ webcontainer_handle (snd run) = true.
Proof.
  cbn zeta. split; [reflexivity |].
  refine (proj1 (analyzeWithWebContainer_failure_keeps_sandbox
                   (Scenario.withSandbox 1 (Scenario.world [])) Scenario.sandboxRequested
                   "chalk" None Scenario.start _
                   (Error "Failed to install package chalk") eq_refl _ _)).
  - reflexivity.
  - reflexivity.
Defined.

(** ** Disposal *)

(** X17. [dispose] always returns, leaves the bundler uninitialized and
    the sandbox without a handle, calls [teardown] on the sandbox exactly
    when it was up, and does nothing when repeated. The next [initialize] of
    the bundler calls the engine again. *)
Theorem dispose_resets (env : Env) (w : World) :
  let teardownCalls :=
    if webcontainer_handle w then [webcontainer_teardown_call] else [] in
  ∃ w',
    BrowserPackageAnalyzer.dispose w = (Returned tt, w')
    ∧ bundler_isInitialized w' = false
    ∧ webcontainer_handle w' = false
    ∧ trace w' = trace w ++ teardownCalls
    ∧ BrowserPackageAnalyzer.dispose w' = (Returned tt, w')
    ∧ ∃ o w'',
        WasmBundler.initialize env w' = (o, w'')
        ∧ ∃ evs, trace w'' = trace w' ++ esbuild_initialize_call :: evs.
Proof.
  cbn zeta.
  assert (Hinitialize : ∀ w1,
            bundler_isInitialized w1 = false →
            ∃ o w2, WasmBundler.initialize env w1 = (o, w2)
                    ∧ ∃ evs, trace w2 = trace w1 ++ esbuild_initialize_call :: evs).
  { intros w1 Hflag. rewrite initialize_unfold.
    unfold WasmBundler.Concurrent.esbuild_initialize_promise. run_monad.
    rewrite Hflag, !log_extend.
    destruct (esbuild_initialize env (trace w1)); eexists _, _; (split; [reflexivity |]);
      eexists; cbn [trace extend log]; repeat rewrite <- app_assoc; reflexivity. }
  unfold BrowserPackageAnalyzer.dispose, bind. rewrite dispose_unfold.
  unfold WebContainerManager.teardown.
  run_monad. destruct w as [bundler handle flag tr].
  cbv [webcontainer_isInitialized webcontainer_handle bundler_isInitialized trace
       set_webcontainer set_bundler_isInitialized log].
  destruct handle; eexists; (split; [reflexivity |]);
    cbv [webcontainer_isInitialized webcontainer_handle bundler_isInitialized trace];
    (split; [reflexivity |]); (split; [reflexivity |]);
    (split; [now rewrite ?app_nil_r |]); (split; [reflexivity |]);
    now apply Hinitialize.
Qed.

(** ** The bundler *)

Lemma bundleOutcome_cases (env : Env) (entryPoint : string)
    (files : gmap string string) :
  match esbuild_build env entryPoint (WasmBundler.onResolve files)
          (WasmBundler.onLoad files) with
  | build_rejected cause =>
      bundleOutcome env entryPoint files =
      Thrown (Error ("Bundling failed: " +:+ errorToString cause))
  | build_result (message :: messages) _ =>
      bundleOutcome env entryPoint files =
      Thrown (Error ("Bundling failed: Error: Build errors: "
                     +:+ Js.join ", " (message :: messages)))
  | build_result [] [] =>
      ∃ cause, bundleOutcome env entryPoint files =
               Thrown (Error ("Bundling failed: " +:+ errorToString cause))
  | build_result [] (code :: _) =>
      ∃ gzipSize, bundleOutcome env entryPoint files =
                  Returned {| bundle_code := code;
                              bundle_size := WasmBundler.byteLength code;
                              bundle_gzipSize := gzipSize;
                              bundle_assets := [("main", WasmBundler.byteLength code, "js")] |}
  end.
Proof.
  unfold bundleOutcome. rewrite bundle_unfold.
  unfold WasmBundler.Concurrent.esbuild_build_promise. run_monad.
  change (bundler_isInitialized initialized) with true. cbv [negb]. cbv beta iota.
  destruct (esbuild_build env entryPoint _ _) as [cause | errors outputFiles];
    [reflexivity |].
  destruct errors as [|message messages]; [| reflexivity].
  destruct outputFiles as [|code rest]; [now eexists |].
  cbn [fst snd length Nat.ltb Nat.leb]. cbv beta.
  destruct (calculateGzipSize_value env code) as [gzipSize Hgzip].
  rewrite Hgzip. now exists gzipSize.
Qed.

(** X9. What [bundle] gives. A result holds the text of the first
    output file of a build without errors, its byte length as [size], and
    the one asset [main] of that size; the bundler is then initialized. An
    error is [ESBuild WASM initialization failed], unwrapped, when the
    engine does not initialize, and otherwise [Bundling failed: cause]: the
    cause is the rejection of the build, or [Build errors: ...] with the
    messages joined by a comma when the build reports errors (whatever its
    output is), or the failure to read an output file when there is
    none. *)
Theorem bundle_outcome (env : Env) (entryPoint : string) (files : gmap string string)
    (w : World) :
  match WasmBundler.bundle env entryPoint files w with
  | (Returned result, w') =>
      (∃ rest, esbuild_build env entryPoint (WasmBundler.onResolve files)
                 (WasmBundler.onLoad files)
               = build_result [] (bundle_code result :: rest))
      ∧ bundle_size result = WasmBundler.byteLength (bundle_code result)
      ∧ bundle_assets result = [("main", bundle_size result, "js")]
      ∧ bundler_isInitialized w' = true
  | (Thrown e, w') =>
      (e = Error "ESBuild WASM initialization failed" ∧ bundler_isInitialized w' = false)
      ∨ (bundler_isInitialized w' = true
         ∧ match esbuild_build env entryPoint (WasmBundler.onResolve files)
                   (WasmBundler.onLoad files) with
           | build_rejected cause =>
               e = Error ("Bundling failed: " +:+ errorToString cause)
           | build_result (message :: messages) _ =>
               e = Error ("Bundling failed: Error: Build errors: "
                          +:+ Js.join ", " (message :: messages))
           | build_result [] outputFiles =>
               outputFiles = []
               ∧ ∃ cause, e = Error ("Bundling failed: " +:+ errorToString cause)
           end)
  end.
Proof.
  pose proof (bundleOutcome_cases env entryPoint files) as Hcases.
  assert (Hbody : ∀ w',
            bundler_isInitialized w' = true →
            match (bundleOutcome env entryPoint files, w') with
            | (Returned result, w') =>
                (∃ rest, esbuild_build env entryPoint (WasmBundler.onResolve files)
                           (WasmBundler.onLoad files)
                         = build_result [] (bundle_code result :: rest))
                ∧ bundle_size result = WasmBundler.byteLength (bundle_code result)
                ∧ bundle_assets result = [("main", bundle_size result, "js")]
                ∧ bundler_isInitialized w' = true
            | (Thrown e, w') =>
                (e = Error "ESBuild WASM initialization failed"
                 ∧ bundler_isInitialized w' = false)
                ∨ (bundler_isInitialized w' = true
                   ∧ match esbuild_build env entryPoint (WasmBundler.onResolve files)
                             (WasmBundler.onLoad files) with
                     | build_rejected cause =>
                         e = Error ("Bundling failed: " +:+ errorToString cause)
                     | build_result (message :: messages) _ =>
                         e = Error ("Bundling failed: Error: Build errors: "
                                    +:+ Js.join ", " (message :: messages))
                     | build_result [] outputFiles =>
                         outputFiles = []
                         ∧ ∃ cause, e = Error ("Bundling failed: " +:+ errorToString cause)
                     end)
            end).
  { intros w' Hw'.
    destruct (esbuild_build env entryPoint _ _) as [cause | errors outputFiles].
    - rewrite Hcases. right. now split.
    - destruct errors as [|message messages].
      + destruct outputFiles as [|code rest].
        * destruct Hcases as [cause ->]. right. split; [exact Hw' |].
          split; [reflexivity | now exists cause].
        * destruct Hcases as [gzipSize ->]. cbn [bundle_code bundle_size bundle_assets].
          split; [now exists rest |]. now repeat split.
      + rewrite Hcases. right. now split. }
  destruct (bundler_isInitialized w) eqn:Hflag.
  - rewrite (bundle_initialized env entryPoint files w Hflag). now apply Hbody.
  - destruct (esbuild_initialize env (trace w)) as [cause |] eqn:Hinit.
    + rewrite (bundle_uninitialized env entryPoint files w Hflag), initialize_unfold.
      unfold WasmBundler.Concurrent.esbuild_initialize_promise. run_monad.
      rewrite Hflag, Hinit.
      left. split; [reflexivity | exact Hflag].
    + destruct (bundle_run env entryPoint files w Hinit) as (pre & -> & _).
      now apply Hbody.
Qed.

(** X10. [minifyCode] uses esbuild when no minifier is named. It makes
    one call, to the minifier, and never initializes the engine. The size
    of a result is the byte length of its code; with esbuild the code is
    the output of the transform as it is, also when that is empty. *)
Theorem minifyCode_esbuild_no_fallback (env : Env) (code : string)
    (minifier : option Minifier) (w : World) :
  (WasmBundler.minifyCode env code None w =
   WasmBundler.minifyCode env code (Some esbuild) w)
  ∧ (∃ call, snd (WasmBundler.minifyCode env code minifier w) = extend [call] w
             ∧ (call = terser_minify_call code ∨ call = esbuild_transform_call code))
  ∧ match WasmBundler.minifyCode env code minifier w with
    | (Returned result, _) =>
        minified_size result = WasmBundler.byteLength (minified_code result)
        ∧ (minifier ≠ Some terser →
           esbuild_transform env code = Returned (minified_code result))
    | (Thrown _, _) => True
    end.
Proof.
  split; [reflexivity |]. split.
  - destruct (minifyCode_run env code minifier w) as (call & -> & Hcall).
    now exists call.
  - rewrite minifyCode_unfold.
    unfold WasmBundler.Concurrent.esbuild_transform_promise,
      WasmBundler.Concurrent.terser_minify_promise.
    destruct minifier as [[|] |];
      [ change (default esbuild (Some terser)) with terser
      | change (default esbuild (Some esbuild)) with esbuild
      | change (default esbuild None) with esbuild ];
      run_monad.
    + destruct (terser_minify env code) as [output | e]; [| exact I].
      destruct (calculateGzipSize_value env (Js.orElse output code)) as [gzipSize Hgzip].
      rewrite Hgzip. split; [reflexivity | congruence].
    + destruct (esbuild_transform env code) as [output | e]; [| exact I].
      destruct (calculateGzipSize_value env output) as [gzipSize Hgzip].
      rewrite Hgzip. now split.
    + destruct (esbuild_transform env code) as [output | e]; [| exact I].
      destruct (calculateGzipSize_value env output) as [gzipSize Hgzip].
      rewrite Hgzip. now split.
Qed.

Lemma minifyCode_esbuild_no_fallback_witness :
  esbuild_transform (Scenario.world []) "export {two};" = Returned "export {two};".
Proof.
  exact (proj2 (proj2 (proj2 (minifyCode_esbuild_no_fallback (Scenario.world [])
                                "export {two};" None Scenario.start)))
           ltac:(discriminate)).
Defined.

(** ** The virtual file system of the bundler *)

Lemma firstPresent_key (files : gmap string string) (candidates : list string)
    (c : string) :
  Resolver.firstPresent files candidates = Some c → is_Some (files !! c).
Proof.
  intros H. apply firstPresent_Some in H as (i & _ & Hkey & _). exact Hkey.
Qed.

Lemma resolveImport_key (importPath importer : string) (files : gmap string string)
    (resolved : string) :
  Resolver.resolveImport importPath importer files = Some resolved →
  is_Some (files !! resolved).
Proof.
  unfold Resolver.resolveImport.
  destruct (Js.startsWith importPath "./" || Js.startsWith importPath "../").
  - destruct (Resolver.firstPresent files _) as [c |] eqn:Hrelative.
    + intros [= <-]. now apply firstPresent_key in Hrelative.
    + destruct (negb _); [apply firstPresent_key | discriminate].
  - destruct (negb _); [apply firstPresent_key | discriminate].
Qed.

(** X12. The hooks of the [virtual-fs] plugin, with [this] as it is in
    [setup]: undefined. [onResolve] returns a specifier that is itself a
    key of the file set, for every importer, and nothing else: for any
    other specifier it raises a [TypeError] on [this.resolveImport], so
    that no import is resolved through [resolveImport]. [onLoad] returns
    [null] for a path that the file set lacks or holds with an empty
    content, and raises a [TypeError] on [this.getLoader] for every path
    with a non-empty content: it never loads a file. An empty file is
    resolved but not loaded. *)
Theorem virtual_fs_hooks (files : gmap string string) (importPath importer : string) :
  (∀ resolved,
     WasmBundler.onResolve files importPath importer = Returned (Some resolved) →
     resolved = importPath ∧ is_Some (files !! resolved))
  ∧ (is_Some (files !! importPath) →
     WasmBundler.onResolve files importPath importer = Returned (Some importPath))
  ∧ (files !! importPath = None →
     ∃ message,
       WasmBundler.onResolve files importPath importer = Thrown (TypeError message))
  ∧ (∀ loaded, WasmBundler.onLoad files importPath ≠ Returned (Some loaded))
  ∧ (∀ contents,
       files !! importPath = Some contents → contents ≠ "" →
       ∃ message, WasmBundler.onLoad files importPath = Thrown (TypeError message))
  ∧ (files !! importPath = None → WasmBundler.onLoad files importPath = Returned None)
  ∧ (files !! importPath = Some "" →
     WasmBundler.onResolve files importPath importer = Returned (Some importPath)
     ∧ WasmBundler.onLoad files importPath = Returned None).
Proof.
  assert (Hexact : is_Some (files !! importPath) →
                   WasmBundler.onResolve files importPath importer
                   = Returned (Some importPath)).
  { intros Hkey. unfold WasmBundler.onResolve. now apply has_true in Hkey as ->. }
  split; [| split; [exact Hexact |]]; [| split; [| split; [| split; [| split]]]].
  - intros resolved. unfold WasmBundler.onResolve.
    destruct (Js.has files importPath) eqn:Hpath; [| discriminate].
    intros [= <-]. split; [reflexivity | now apply has_true].
  - intros Hnone. unfold WasmBundler.onResolve.
    apply has_false in Hnone. rewrite Hnone. now eexists.
  - intros loaded. unfold WasmBundler.onLoad.
    destruct (files !! importPath) as [c |]; [| discriminate].
    destruct (Js.truthy c); discriminate.
  - intros contents Hcontents Hne. unfold WasmBundler.onLoad. rewrite Hcontents.
    destruct (Js.truthy contents) eqn:Hc; [now eexists |].
    apply truthy_false in Hc. contradiction.
  - intros Hnone. unfold WasmBundler.onLoad. now rewrite Hnone.
  - intros Hempty. split; [apply Hexact; now rewrite Hempty |].
    unfold WasmBundler.onLoad. now rewrite Hempty.
Qed.

Lemma virtual_fs_hooks_witness :
  WasmBundler.onResolve Scenario.hollowFiles "empty.js" "a.js"
    = Returned (Some "empty.js")
  ∧ WasmBundler.onLoad Scenario.hollowFiles "empty.js" = Returned None.
Proof.
  apply (proj2 (proj2 (proj2 (proj2 (proj2 (proj2
           (virtual_fs_hooks Scenario.hollowFiles "empty.js" "a.js"))))))).
  vm_compute. reflexivity.
Defined.

(** ** The plugin and the engine *)

Lemma bundleOutcome_fails (env : Env) (entryPoint : string)
    (files : gmap string string) :
  consultsPlugin env →
  files !! entryPoint ≠ Some "" →
  ∃ e, bundleOutcome env entryPoint files = Thrown e.
Proof.
  intros Hengine Hcontent.
  destruct (Hengine entryPoint (WasmBundler.onResolve files) (WasmBundler.onLoad files))
    as [Hresolve Hload].
  pose proof (bundleOutcome_cases env entryPoint files) as Hcases.
  assert (Hrejected : ∃ cause,
            esbuild_build env entryPoint (WasmBundler.onResolve files)
              (WasmBundler.onLoad files) = build_rejected cause).
  { destruct (files !! entryPoint) as [contents |] eqn:Hentry.
    - apply (Hload entryPoint
               (TypeError "Cannot read properties of undefined (reading 'getLoader')")).
      + unfold WasmBundler.onResolve.
        assert (Hhas : Js.has files entryPoint = true)
          by (apply has_true; now rewrite Hentry).
        now rewrite Hhas.
      + unfold WasmBundler.onLoad. rewrite Hentry.
        assert (Htruthy : Js.truthy contents = true)
          by (apply truthy_true; congruence).
        now rewrite Htruthy.
    - apply (Hresolve
               (TypeError "Cannot read properties of undefined (reading 'resolveImport')")).
      unfold WasmBundler.onResolve.
      apply has_false in Hentry. now rewrite Hentry. }
  destruct Hrejected as [cause Hrejected]. rewrite Hrejected in Hcases.
  eexists. exact Hcases.
Qed.

(** X27. With an engine that consults the plugin, [bundle] fails for
    every entry point that the file set lacks or holds with a non-empty
    content: the hook that resolves or loads it raises on [this].
    [getPackageExportSizes] then returns no asset, whatever the package
    is. *)
Theorem bundle_fails_on_the_plugin (env : Env) (w : World) :
  consultsPlugin env →
  (∀ entryPoint files,
     files !! entryPoint ≠ Some "" →
     ∃ e, fst (WasmBundler.bundle env entryPoint files w) = Thrown e)
  ∧ (∀ options packageName version result w',
       BrowserPackageAnalyzer.getPackageExportSizes env options packageName version w
         = (Returned result, w') →
       exports_assets result = []).
Proof.
  intros Hengine. split.
  - intros entryPoint files Hcontent.
    destruct (bundleOutcome_fails env entryPoint files Hengine Hcontent) as [e He].
    destruct (bundler_isInitialized w) eqn:Hflag.
    + rewrite (bundle_initialized env entryPoint files w Hflag), He. now exists e.
    + rewrite (bundle_uninitialized env entryPoint files w Hflag).
      destruct (WasmBundler.initialize env w) as [[[] | e'] w1]; cbn [fst];
        [rewrite He |]; now eexists.
  - intros options packageName version result w' Hrun.
    pose proof Hrun as Hbinds.
    unfold BrowserPackageAnalyzer.getPackageExportSizes in Hbinds.
    apply bind_returned in Hbinds as (packageInfo & w1 & Hinfo & Hbinds).
    apply bind_returned in Hbinds as (packageFiles & w2 & Hfiles & _).
    rewrite (getPackageExportSizes_run env options packageName version w w1 w2
               packageInfo packageFiles Hinfo Hfiles) in Hrun.
    injection Hrun as <- _. cbn [exports_assets].
    destruct (scripts_assets env options packageFiles (bundler_isInitialized w2)
                (List.filter BrowserPackageAnalyzer.isExportFile (info_files packageInfo))
                (trace w2)) as [Hin _].
    destruct (omap id _) as [|a assets]; [reflexivity |].
    destruct (Hin a ltac:(left)) as (f & _ & Hasset).
    unfold exportAsset in Hasset.
    destruct (packageFiles !! path f) as [contents |] eqn:Hcontents;
      [| discriminate].
    cbn [BrowserPackageAnalyzer.notNot] in Hasset.
    destruct (Js.truthy contents) eqn:Htruthy; [| discriminate].
    apply truthy_true in Htruthy.
    destruct (bundleOutcome_fails env (path f) packageFiles Hengine) as [e He];
      [congruence |].
    rewrite He in Hasset. discriminate.
Qed.

Lemma bundle_fails_on_the_plugin_witness :
  ∃ e, fst (WasmBundler.bundle (Scenario.world Scenario.three) "a.js"
              Scenario.threeFiles Scenario.start) = Thrown e.
Proof.
  refine (proj1 (bundle_fails_on_the_plugin (Scenario.world Scenario.three)
                   Scenario.start _) "a.js" Scenario.threeFiles _).
  - intros entryPoint resolve load. split.
    + intros e He. cbn [esbuild_build Scenario.world]. unfold Scenario.toyBuild.
      rewrite He. now eexists.
    + intros p e Hp He. cbn [esbuild_build Scenario.world]. unfold Scenario.toyBuild.
      rewrite Hp, He. now eexists.
  - vm_compute. discriminate.
Defined.

(** X13. A specifier that does not start with a dot is looked up under
    [node_modules/], in the order of the five candidate paths, whatever the
    importer is. A specifier that starts with a dot but with neither [./]
    nor [../] (such as [..]) is never resolved. What [resolveImport]
    returns is always a key of the file set. *)
Theorem resolveImport_bare (importPath importer : string) (files : gmap string string) :
  (Js.startsWith importPath "." = false →
   Resolver.resolveImport importPath importer files =
     Resolver.firstPresent files (Resolver.packagePaths importPath)
   ∧ Resolver.resolveImport importPath importer files =
     Resolver.resolveImport importPath "" files)
  ∧ (Js.startsWith importPath "." = true →
     Js.startsWith importPath "./" = false →
     Js.startsWith importPath "../" = false →
     Resolver.resolveImport importPath importer files = None)
  ∧ (∀ resolved,
       Resolver.resolveImport importPath importer files = Some resolved →
       is_Some (files !! resolved)).
Proof.
  split; [| split].
  - intros Hbare.
    assert (Hnot : Js.startsWith importPath "./" || Js.startsWith importPath "../" = false).
    { destruct (Js.startsWith importPath "./" || Js.startsWith importPath "../") eqn:Hrel;
        [| reflexivity].
      apply orb_true_iff in Hrel. apply relative_starts_with_dot in Hrel. congruence. }
    unfold Resolver.resolveImport. now rewrite Hnot, Hbare.
  - intros Hdot Hcurrent Hparent. unfold Resolver.resolveImport.
    now rewrite Hcurrent, Hparent, Hdot.
  - intros resolved. apply resolveImport_key.
Qed.

Lemma resolveImport_bare_witness :
  Resolver.resolveImport ".." "src/main.js" Scenario.libFiles = None.
Proof.
  exact (proj1 (proj2 (resolveImport_bare ".." "src/main.js" Scenario.libFiles))
           eq_refl eq_refl eq_refl).
Defined.

(** ** Sizes *)

Lemma totalLength_concat (chunks : list (list Byte.byte)) (acc : Z) :
  foldl (λ acc chunk, (acc + Z.of_nat (length chunk))%Z) acc chunks =
  (acc + Z.of_nat (length (concat chunks)))%Z.
Proof.
  revert acc. induction chunks as [|chunk chunks IH]; intros acc; simpl; [lia |].
  rewrite IH, length_app. lia.
Qed.

(** X11. [calculateGzipSize] always returns. With a streaming compressor
    the size is the number of bytes of all the chunks; without one, for a
    content below 2^32 bytes, the estimate lies between 0 and the byte
    length of the content. *)
Theorem calculateGzipSize_bounds (env : Env) (content : string) (w : World) :
  ∃ gzipSize,
    WasmBundler.calculateGzipSize env content w = (Returned gzipSize, w)
    ∧ (∀ gzip, CompressionStream env = Some gzip →
               gzipSize = Z.of_nat (length (concat (gzip content))))
    ∧ (CompressionStream env = None →
       (WasmBundler.byteLength content < 2 ^ 32)%Z →
       (0 ≤ gzipSize ≤ WasmBundler.byteLength content)%Z).
Proof.
  rewrite calculateGzipSize_unfold.
  destruct (CompressionStream env) as [gzip |].
  - eexists. split; [reflexivity |]. split; [| discriminate].
    intros ? [= <-]. now rewrite totalLength_concat.
  - eexists. split; [reflexivity |]. split; [discriminate |].
    intros _ Hsize. unfold WasmBundler.byteLength in *.
    destruct (estimate_spec (String.length content) Hsize) as [[Hlo Hhi] _].
    unfold WasmBundler.estimateGzipSize, Number.roundedSeventyPercent in *.
    assert ((7 * Z.of_nat (String.length content) + 5) / 10
            < Z.of_nat (String.length content) + 1)%Z
      by (apply Z.div_lt_upper_bound; lia).
    split; [| lia].
    destruct (String.length content) as [|n] eqn:Hlen; [vm_compute; discriminate |].
    assert (1 ≤ (7 * Z.of_nat (S n) + 5) / 10)%Z
      by (apply Z.div_le_lower_bound; lia).
    lia.
Qed.

Lemma calculateGzipSize_bounds_witness :
  ∃ gzipSize,
    WasmBundler.calculateGzipSize (Scenario.world []) "export {two};" Scenario.start
      = (Returned gzipSize, Scenario.start)
    ∧ (0 ≤ gzipSize ≤ 13)%Z.
Proof.
  destruct (calculateGzipSize_bounds (Scenario.world []) "export {two};" Scenario.start)
    as (gzipSize & Hrun & _ & Hbound).
  exists gzipSize. split; [exact Hrun |]. apply Hbound; reflexivity.
Defined.
